(** * AttendanceTracker: the attendance-marking workflow of the client

    A shallow embedding of

    - [src/components/attendance/attendance-table.tsx] (component
      [AttendanceTable]: [updateStats], [markAttendance], [markAllPresent],
      [saveAttendance], [getStudentStatus], [isMarked] and the callbacks of
      [bulkAttendanceMutation]),
    - [lib/utils] ([calculateAttendancePercentage], [validateAcademicYear])
      and the attendance page ([handleAttendanceStatsChange]),
    - [src/components/years/year-management.tsx] (the handlers of the
      cards, the callbacks of the two mutations, and the form of the
      modal),
    - [src/pages/reports.tsx] (the form, the summary and the CSV export).

    The component keeps its staged marks in a JavaScript [Map] held by a
    React [useState] cell.  Event handlers are closures over the values of
    the render in which they were created, and one handler mutates the
    [Map] it receives from React, so the model keeps a store of [Map]
    objects, references into it, and React's queue of state updates.
    Data of a query arrive in a render of their own, whenever the request
    is answered. *)

From Stdlib Require Import ZArith String Ascii List Bool Lia QArith Qround.
From Stdlib Require Import SpecFloat DecimalString Qpower Lqa.
From stdpp Require Import base list relations.

Local Open Scope Z_scope.
Local Open Scope string_scope.

(** ** JavaScript [Map<number, string>]

    Keys are unique and iteration follows insertion order; [set] on a key
    that is present replaces the value where it stands. *)

Module JsMap.

Definition t := list (Z * string).

Definition empty : t := [].

Fixpoint has (m : t) (k : Z) : bool :=
  match m with
  | [] => false
  | (k', _) :: m' => if Z.eqb k' k then true else has m' k
  end.

Fixpoint get (m : t) (k : Z) : option string :=
  match m with
  | [] => None
  | (k', v) :: m' => if Z.eqb k' k then Some v else get m' k
  end.

Fixpoint set (m : t) (k : Z) (v : string) : t :=
  match m with
  | [] => [(k, v)]
  | (k', v') :: m' =>
      if Z.eqb k' k then (k', v) :: m' else (k', v') :: set m' k v
  end.

Definition values (m : t) : list string := map snd m.

Definition entries (m : t) : list (Z * string) := m.

Definition size (m : t) : nat := length m.

(** [new Map(iterable)]: the pairs are [set] one after the other. *)
Definition of_entries (es : list (Z * string)) : t :=
  fold_left (fun m e => set m (fst e) (snd e)) es empty.

End JsMap.

(** ** Data of the component *)

Module Student.
Record t := mk { id : Z; name : string; rollNumber : string }.
End Student.

(** The fields of [AttendanceWithDetails] that the component reads. *)
Module Attendance.
Record t := mk { studentId : Z; status : string }.
End Attendance.

Record Toast := mkToast {
  title : string;
  description : string;
  variant : option string
}.

(** The argument of [onAttendanceChange]. *)
Record Stats := mkStats { present : nat; absent : nat; late : nat }.

(** One element of the array sent to [/api/attendance/bulk]. *)
Module Payload.
Record t := mk {
  studentId : Z;
  courseId : Z;
  academicYearId : Z;
  date : string;
  status : string;
  markedBy : string
}.
End Payload.

(** The body of a successful bulk response, as [onSuccess] reads it. *)
Record BulkResult := mkBulkResult { success : nat; errors : nat }.

(** The error object handed to [onError]; [message] may be missing. *)
Record ApiError := mkApiError { message : option string }.

(** ** The store of [Map] objects and React's state cell *)

(** A reference is the index of the object in the store. *)
Abbreviation loc := nat.

(** A queued state update: a value (also the result of an updater that
    React has already run), or the updater
    [prev => new Map(prev.set(studentId, status))] still to be run. *)
Inductive Update :=
| Resolved (l : loc)
| Updater (studentId : Z) (status : string).

Record World := mkWorld {
  heap : list JsMap.t;             (* the Map objects, by reference *)
  hookState : loc;                 (* the value held by useState *)
  updates : list Update;           (* updates queued since the last render *)
  eagerDispatch : bool;            (* React's choice for the next update: run
                                      an updater at dispatch time *)
  students : list Student.t;       (* props *)
  courseId : Z;
  academicYearId : Z;
  currentDate : string;
  todayAttendance : list Attendance.t;   (* data of the attendance query *)
  toasts : list Toast;             (* effects, oldest first *)
  published : list Stats;          (* calls of onAttendanceChange *)
  invalidated : list string;       (* query keys passed to invalidateQueries *)
  bulkRequests : list (list Payload.t)   (* calls of bulkAttendanceMutation.mutate *)
}.

Definition with_heap (h : list JsMap.t) (w : World) : World :=
  mkWorld h (hookState w) (updates w) (eagerDispatch w) (students w)
    (courseId w) (academicYearId w) (currentDate w) (todayAttendance w)
    (toasts w) (published w) (invalidated w) (bulkRequests w).

Definition with_hookState (l : loc) (w : World) : World :=
  mkWorld (heap w) l (updates w) (eagerDispatch w) (students w)
    (courseId w) (academicYearId w) (currentDate w) (todayAttendance w)
    (toasts w) (published w) (invalidated w) (bulkRequests w).

Definition with_updates (us : list Update) (w : World) : World :=
  mkWorld (heap w) (hookState w) us (eagerDispatch w) (students w)
    (courseId w) (academicYearId w) (currentDate w) (todayAttendance w)
    (toasts w) (published w) (invalidated w) (bulkRequests w).

Definition with_eagerDispatch (eager : bool) (w : World) : World :=
  mkWorld (heap w) (hookState w) (updates w) eager (students w)
    (courseId w) (academicYearId w) (currentDate w) (todayAttendance w)
    (toasts w) (published w) (invalidated w) (bulkRequests w).

Definition with_todayAttendance (rs : list Attendance.t) (w : World) : World :=
  mkWorld (heap w) (hookState w) (updates w) (eagerDispatch w) (students w)
    (courseId w) (academicYearId w) (currentDate w) rs
    (toasts w) (published w) (invalidated w) (bulkRequests w).

Definition with_toasts (ts : list Toast) (w : World) : World :=
  mkWorld (heap w) (hookState w) (updates w) (eagerDispatch w) (students w)
    (courseId w) (academicYearId w) (currentDate w) (todayAttendance w)
    ts (published w) (invalidated w) (bulkRequests w).

Definition with_published (ps : list Stats) (w : World) : World :=
  mkWorld (heap w) (hookState w) (updates w) (eagerDispatch w) (students w)
    (courseId w) (academicYearId w) (currentDate w) (todayAttendance w)
    (toasts w) ps (invalidated w) (bulkRequests w).

Definition with_invalidated (ks : list string) (w : World) : World :=
  mkWorld (heap w) (hookState w) (updates w) (eagerDispatch w) (students w)
    (courseId w) (academicYearId w) (currentDate w) (todayAttendance w)
    (toasts w) (published w) ks (bulkRequests w).

Definition with_bulkRequests (rs : list (list Payload.t)) (w : World) : World :=
  mkWorld (heap w) (hookState w) (updates w) (eagerDispatch w) (students w)
    (courseId w) (academicYearId w) (currentDate w) (todayAttendance w)
    (toasts w) (published w) (invalidated w) rs.

(** Reading a reference; every reference the component holds was
    allocated, so the default is never met on a well-formed world. *)
Definition deref (w : World) (l : loc) : JsMap.t :=
  default JsMap.empty (heap w !! l).

(** ** Handlers as state transformers *)

Definition M (A : Type) : Type := World -> A * World.

#[global] Instance M_ret : MRet M := fun A a w => (a, w).
#[global] Instance M_bind : MBind M :=
  fun A B f m w => let '(a, w') := m w in f a w'.

Definition exec {A} (m : M A) (w : World) : World := snd (m w).

Fixpoint forEach {A} (l : list A) (f : A -> M unit) : M unit :=
  match l with
  | [] => mret tt
  | x :: l' => f x ;; forEach l' f
  end.

(** Reading a prop or a value of the enclosing scope. *)
Definition asks {A} (f : World -> A) : M A := fun w => (f w, w).

(** [new Map(m)] *)
Definition newMap (m : JsMap.t) : M loc :=
  fun w => (length (heap w), with_heap (heap w ++ [m]) w).

(** The contents of the object behind a reference, now. *)
Definition readMap (l : loc) : M JsMap.t :=
  fun w => (deref w l, w).

(** [l.set(k, v)]: the object is changed in place. *)
Definition Map_set (l : loc) (k : Z) (v : string) : M unit :=
  fun w => (tt, with_heap (<[l := JsMap.set (deref w l) k v]> (heap w)) w).

Definition toast (t : Toast) : M unit :=
  fun w => (tt, with_toasts (toasts w ++ [t]) w).

(** [onAttendanceChange?.(stats)]; the attendance page always passes the
    observer, so the call is made. *)
Definition onAttendanceChange (s : Stats) : M unit :=
  fun w => (tt, with_published (published w ++ [s]) w).

Definition invalidateQueries (key : string) : M unit :=
  fun w => (tt, with_invalidated (invalidated w ++ [key]) w).

Definition bulkAttendanceMutation_mutate (records : list Payload.t) : M unit :=
  fun w => (tt, with_bulkRequests (bulkRequests w ++ [records]) w).

Definition enqueue (u : Update) : M unit :=
  fun w => (tt, with_updates (updates w ++ [u]) w).

(** The updater of [markAttendance], run on the current state:
    [prev.set] changes the object React holds, the copy is the new state. *)
Definition runUpdater (prev : loc) (studentId : Z) (status : string) : M loc :=
  Map_set prev studentId status ;;
  m ← readMap prev;
  newMap m.

(** [setAttendanceState(value)] *)
Definition setAttendanceState_value (l : loc) : M unit :=
  enqueue (Resolved l).

(** [setAttendanceState(prev => new Map(prev.set(studentId, status)))].
    With nothing queued React may compute the next state at once, on the
    state of the last render; otherwise the updater waits for the render.
    React decides this for every update on the state of its own queues;
    [eagerDispatch] is its decision for the update at hand, and the
    transition systems below leave it open at every step. *)
Definition setAttendanceState_updater (studentId : Z) (status : string) : M unit :=
  fun w =>
    match updates w with
    | [] =>
        if eagerDispatch w then
          (l ← runUpdater (hookState w) studentId status;
           enqueue (Resolved l)) w
        else enqueue (Updater studentId status) w
    | _ :: _ => enqueue (Updater studentId status) w
    end.

(** ** Render: the queue is applied, handlers close over the result *)

Definition applyUpdate (u : Update) : M unit :=
  fun w =>
    match u with
    | Resolved l => (tt, with_hookState l w)
    | Updater studentId status =>
        let '(l, w') := runUpdater (hookState w) studentId status w in
        (tt, with_hookState l w')
    end.

Definition commit : M unit :=
  fun w => forEach (updates w) applyUpdate (with_updates [] w).

(** What the body of the component binds in one render. *)
Record Render := mkRender {
  attendanceState : loc;
  existingAttendance : JsMap.t
}.

Definition view (w : World) : Render :=
  {| attendanceState := hookState w;
     existingAttendance :=
       JsMap.of_entries
         (map (fun r => (Attendance.studentId r, Attendance.status r))
              (todayAttendance w)) |}.

(** One interaction: a handler of the latest render runs, then React
    renders again. *)
Definition run (h : Render -> M unit) (w : World) : World :=
  exec commit (exec (h (view w)) w).

(** ** The handlers of [AttendanceTable] *)

Section Handlers.

Variable r : Render.

Definition countStatus (s : string) (vs : list string) : nat :=
  length (filter (fun status => String.eqb status s) vs).

Definition updateStats : M unit :=
  pending ← readMap (attendanceState r);
  let present :=
    (countStatus "present" (JsMap.values pending) +
     countStatus "present" (JsMap.values (existingAttendance r)))%nat in
  let absent :=
    (countStatus "absent" (JsMap.values pending) +
     countStatus "absent" (JsMap.values (existingAttendance r)))%nat in
  let late :=
    (countStatus "late" (JsMap.values pending) +
     countStatus "late" (JsMap.values (existingAttendance r)))%nat in
  onAttendanceChange (mkStats present absent late).

Definition alreadyMarkedToast : Toast :=
  mkToast "Error" "Attendance already marked for this student today"
    (Some "destructive").

Definition markAttendance (studentId : Z) (status : string) : M unit :=
  if JsMap.has (existingAttendance r) studentId then
    toast alreadyMarkedToast
  else
    setAttendanceState_updater studentId status ;;
    updateStats.

Definition markAllPresent : M unit :=
  old ← readMap (attendanceState r);
  newState ← newMap old;
  roster ← asks students;
  forEach roster (fun student =>
    if negb (JsMap.has (existingAttendance r) (Student.id student)) then
      Map_set newState (Student.id student) "present"
    else mret tt) ;;
  setAttendanceState_value newState ;;
  updateStats.

Definition noChangesToast : Toast :=
  mkToast "No Changes" "No new attendance records to save" None.

Definition saveAttendance : M unit :=
  pending ← readMap (attendanceState r);
  courseId ← asks courseId;
  academicYearId ← asks academicYearId;
  currentDate ← asks currentDate;
  let pendingRecords :=
    map (fun e =>
           Payload.mk (fst e) courseId academicYearId currentDate (snd e)
             "faculty")
        (JsMap.entries pending) in
  if Nat.eqb (length pendingRecords) 0 then toast noChangesToast
  else bulkAttendanceMutation_mutate pendingRecords.

Definition getStudentStatus (studentId : Z) : M string :=
  pending ← readMap (attendanceState r);
  if JsMap.has pending studentId then
    mret (default "undefined" (JsMap.get pending studentId))
  else if JsMap.has (existingAttendance r) studentId then
    mret (default "undefined" (JsMap.get (existingAttendance r) studentId))
  else mret "not-marked".

Definition isMarked (studentId : Z) : M bool :=
  pending ← readMap (attendanceState r);
  mret (JsMap.has (existingAttendance r) studentId || JsMap.has pending studentId).

(** *** Callbacks of [bulkAttendanceMutation] *)

(** A template literal prints a count in decimal. *)
Definition showCount (n : nat) : string :=
  NilZero.string_of_uint (Nat.to_uint n).

Definition savedToast (data : BulkResult) : Toast :=
  mkToast "Success"
    (showCount (success data) ++ " attendance records saved. " ++
     showCount (errors data) ++ " errors.")
    None.

Definition bulkAttendanceMutation_onSuccess (data : BulkResult) : M unit :=
  invalidateQueries "/api/attendance" ;;
  updateStats ;;
  empty ← newMap JsMap.empty;
  setAttendanceState_value empty ;;
  toast (savedToast data).

(** [error.message || "Failed to save bulk attendance"]: a missing or
    empty message gives way to the fixed text. *)
Definition errorDescription (error : ApiError) (fallback : string) : string :=
  match message error with
  | Some msg => if String.eqb msg "" then fallback else msg
  | None => fallback
  end.

Definition saveFailedToast (error : ApiError) : Toast :=
  mkToast "Error" (errorDescription error "Failed to save bulk attendance")
    (Some "destructive").

Definition bulkAttendanceMutation_onError (error : ApiError) : M unit :=
  toast (saveFailedToast error).

End Handlers.

(** ** The two record sets of the specification, read off a world *)

(** CommittedSet: the map the component builds from the fetched records. *)
Definition committedSet (w : World) : JsMap.t := existingAttendance (view w).

(** PendingSet: the staged marks, the value of the state cell. *)
Definition pendingSet (w : World) : JsMap.t := deref w (hookState w).

(** The last statistics handed to the observer. *)
Definition lastPublished (w : World) : option Stats := last (published w).

(** Per-status counts over the union of two record sets. *)
Definition countsOf (committed pending : JsMap.t) : Stats :=
  mkStats
    (countStatus "present" (JsMap.values pending) +
     countStatus "present" (JsMap.values committed))
    (countStatus "absent" (JsMap.values pending) +
     countStatus "absent" (JsMap.values committed))
    (countStatus "late" (JsMap.values pending) +
     countStatus "late" (JsMap.values committed)).

(** A world between two interactions: the state cell refers to an
    allocated object and no update is waiting. *)
Definition settled (w : World) : Prop :=
  (hookState w < length (heap w))%nat /\ updates w = [].

(** The world of a freshly mounted component. *)
Definition initial (eager : bool) (roster : list Student.t) (course year : Z)
    (date : string) (fetched : list Attendance.t) : World :=
  mkWorld [JsMap.empty] 0%nat [] eager roster course year date fetched
    [] [] [] [].

(** ** JavaScript numbers

    A [number] is an IEEE 754 binary64 value; the operations are those of
    the Standard Library's executable specification of binary64. *)

Module JsNumber.

Definition number := spec_float.

(** Precision and exponent bound of binary64. *)
Definition prec : Z := 53.
Definition emax : Z := 1024.

Definition of_Z (z : Z) : number := binary_normalize prec emax z 0 false.

Definition of_nat (n : nat) : number := of_Z (Z.of_nat n).

Definition add : number -> number -> number := SFadd prec emax.
Definition mul : number -> number -> number := SFmul prec emax.
Definition div : number -> number -> number := SFdiv prec emax.

(** [x === y] on numbers *)
Definition strictEq : number -> number -> bool := SFeqb.

(** [x > y] *)
Definition gt (x y : number) : bool := SFltb y x.

(** [Math.round]: the integer nearest to [x], a tie going to the larger
    one; [NaN], the infinities and the zeros are returned as they are, and
    a negative [x] that rounds to zero gives [-0].  A finite [x] is
    [±m·2^e] exactly, so the result is computed on integers. *)
Definition Math_round (x : number) : number :=
  match x with
  | S754_finite s m e =>
      if Z.leb 0 e then x
      else
        let d := Z.pow 2 (- e) in
        let n := if s then Z.neg m else Z.pos m in
        let k := Z.div (2 * n + d) (2 * d) in
        if Z.eqb k 0 && s then S754_zero true else of_Z k
  | _ => x
  end.

End JsNumber.

(** [calculateAttendancePercentage] of [lib/utils] *)
Definition calculateAttendancePercentage (present total : JsNumber.number)
    : JsNumber.number :=
  if JsNumber.strictEq total (JsNumber.of_Z 0) then JsNumber.of_Z 0
  else JsNumber.Math_round
         (JsNumber.mul (JsNumber.div present total) (JsNumber.of_Z 100)).

(** The state of the attendance page that [AttendanceStats] displays. *)
Record AttendanceStats := mkAttendanceStats {
  stats_present : JsNumber.number;
  stats_absent : JsNumber.number;
  stats_late : JsNumber.number;
  percentage : JsNumber.number
}.

(** [handleAttendanceStatsChange] of the attendance page, the observer
    given to the table as [onAttendanceChange]; it returns the value it
    passes to [setAttendanceStats].  The counts it receives are array
    lengths. *)
Definition handleAttendanceStatsChange (stats : Stats) : AttendanceStats :=
  let present := JsNumber.of_nat (present stats) in
  let absent := JsNumber.of_nat (absent stats) in
  let late := JsNumber.of_nat (late stats) in
  let total := JsNumber.add (JsNumber.add present absent) late in
  let percentage :=
    if JsNumber.gt total (JsNumber.of_Z 0) then
      JsNumber.Math_round
        (JsNumber.mul (JsNumber.div present total) (JsNumber.of_Z 100))
    else JsNumber.of_Z 0 in
  mkAttendanceStats present absent late percentage.

(** The percentage as the specification words it, on exact rationals:
    [round(present / (present+absent+late) × 100)], [0] when the
    denominator is [0]; [round] takes a tie to the larger integer, as
    [Math.round] does. *)
Definition spec_round (q : Q) : Z := Qfloor (q + (1 # 2))%Q.

Definition spec_percentage (present absent late : nat) : Z :=
  let total := (present + absent + late)%nat in
  if Nat.eqb total 0 then 0
  else spec_round (inject_Z (Z.of_nat present) / inject_Z (Z.of_nat total)
                   * inject_Z 100)%Q.

(** [100·present/total] lies exactly halfway between two integers. *)
Definition exactHalf (present total : nat) : bool :=
  negb (Nat.eqb total 0)
  && Z.eqb ((200 * Z.of_nat present) mod (2 * Z.of_nat total)) (Z.of_nat total).

(** ** Deleting an academic year *)

Module YearManagement.

(** The fields of [AcademicYearWithStats] that [handleDeleteYear] reads. *)
Record AcademicYear := mkYear {
  id : Z;
  name : string;
  isActive : bool
}.

(** An HTTP request issued through [apiRequest]. *)
Record Request := mkRequest { method : string; url : string }.

Record Page := mkPage {
  years : list AcademicYear;        (* data of the academic-years query *)
  toasts : list Toast;              (* toasts shown, oldest first *)
  confirmations : list string;      (* questions put to the user by confirm *)
  requests : list Request           (* requests sent to the backend *)
}.

Definition showId (z : Z) : string := NilZero.string_of_int (Z.to_int z).

Definition cannotDeleteToast : Toast :=
  mkToast "Error" "Cannot delete the active academic year" (Some "destructive").

(** [deleteYearMutation.mutate(id)]: the mutation function sends the
    request. *)
Definition deleteYearMutation_mutate (id : Z) (p : Page) : Page :=
  mkPage (years p) (toasts p) (confirmations p)
    (requests p ++ [mkRequest "DELETE" ("/api/academic-years/" ++ showId id)]).

(** [handleDeleteYear]; [confirm] stands for the user's answer to the
    dialog of [window.confirm]. *)
Definition handleDeleteYear (confirm : string -> bool) (year : AcademicYear)
    (p : Page) : Page :=
  if isActive year then
    mkPage (years p) (toasts p ++ [cannotDeleteToast]) (confirmations p)
      (requests p)
  else
    let question :=
      "Are you sure you want to delete academic year " ++ name year ++ "?" in
    let asked :=
      mkPage (years p) (toasts p) (confirmations p ++ [question]) (requests p) in
    if confirm question then deleteYearMutation_mutate (id year) asked
    else asked.

End YearManagement.

(** ** The workflow as a transition system *)

(** One interaction of the table followed by the render it causes: a
    click on a status button, on "Mark All Present" or on "Save
    Attendance", or the answer to a bulk request.  React decides at every
    click on a status button whether the updater runs at dispatch. *)
Inductive handler_step : World -> World -> Prop :=
| handler_mark w eager studentId status :
    handler_step w
      (run (fun r => markAttendance r studentId status)
         (with_eagerDispatch eager w))
| handler_markAll w :
    handler_step w (run markAllPresent w)
| handler_save w :
    handler_step w (run saveAttendance w)
| handler_saved w data :
    handler_step w (run (fun r => bulkAttendanceMutation_onSuccess r data) w)
| handler_save_failed w error :
    handler_step w (run (fun _ => bulkAttendanceMutation_onError error) w).

(** A step of the workflow is an interaction, or the arrival of records
    of the attendance query, which is a render of its own.  [onSuccess]
    only invalidates the query: the promise of [invalidateQueries] is
    dropped, so the records fetched again arrive after any number of
    further interactions, and they may be any list. *)
Inductive step : World -> World -> Prop :=
| step_handler w w' :
    handler_step w w' -> step w w'
| step_fetched w records :
    step w (with_todayAttendance records w).

(** Records arrive in order when none of them is for a student who has
    a staged mark at that moment. *)
Definition arrivesInOrder (w : World) (records : list Attendance.t) : Prop :=
  forall record,
    In record records ->
    JsMap.has (pendingSet w) (Attendance.studentId record) = false.

Inductive orderly_step : World -> World -> Prop :=
| orderly_handler w w' :
    handler_step w w' -> orderly_step w w'
| orderly_fetched w records :
    arrivesInOrder w records ->
    orderly_step w (with_todayAttendance records w).

(** No student has an entry in both sets. *)
Definition disjointSets (w : World) : Prop :=
  forall studentId,
    JsMap.has (committedSet w) studentId && JsMap.has (pendingSet w) studentId
    = false.

(** ** Auxiliary functions of the proofs *)

(** The loop of [markAllPresent] as a function on the contents of
    [newState]. *)
Definition stageAll (committed : JsMap.t) (roster : list Student.t)
    (m : JsMap.t) : JsMap.t :=
  fold_left
    (fun m student =>
       if negb (JsMap.has committed (Student.id student))
       then JsMap.set m (Student.id student) "present" else m)
    roster m.

(** Membership of the roster, by id. *)
Definition onRoster (roster : list Student.t) (studentId : Z) : bool :=
  existsb (fun s => Z.eqb (Student.id s) studentId) roster.

(** The array [saveAttendance] builds from the staged marks. *)
Definition pendingRecordsOf (w : World) : list Payload.t :=
  map (fun e => Payload.mk (fst e) (courseId w) (academicYearId w)
                  (currentDate w) (snd e) "faculty")
      (JsMap.entries (pendingSet w)).

(** The branch of the observer for a positive total. *)
Definition roundedPercentage (present total : nat) : JsNumber.number :=
  JsNumber.Math_round
    (JsNumber.mul (JsNumber.div (JsNumber.of_nat present) (JsNumber.of_nat total))
       (JsNumber.of_Z 100)).

(** *** Rounding in binary64

    What the operations of [JsNumber] compute, in terms of exact
    integers and rationals. *)

(** [mrs] is the record of the quotient [A / D]: its integer part, whether
    the remainder reaches one half of [D], and whether it differs from
    both zero and that half. *)
Definition located (A D : Z) (mrs : shr_record) : Prop :=
  shr_m mrs = A / D /\
  shr_r mrs = Z.leb D (2 * (A mod D)) /\
  shr_s mrs = negb (Z.eqb (A mod D) 0 || Z.eqb (2 * (A mod D)) D).

(** [A / D] rounded to the nearest integer, a tie going to the even one. *)
Definition rne (A D : Z) : Z :=
  let q := A / D in
  let r := A mod D in
  if Z.ltb (2 * r) D then q
  else if Z.eqb (2 * r) D then (if Z.even q then q else q + 1)
  else q + 1.

(** The binary64 number of a positive integer below [2^53]: the mantissa
    is shifted to 53 bits. *)
Definition canonical (n : Z) : JsNumber.number :=
  S754_finite false (Z.to_pos (n * 2 ^ (53 - Zdigits2 n))) (Zdigits2 n - 53).

(** The rational a finite number stands for. *)
Definition value (x : JsNumber.number) : Q :=
  match x with
  | S754_finite s m e =>
      ((if s then -1 else 1) * (inject_Z (Z.pos m) * 2 ^ e))%Q
  | _ => 0%Q
  end.

(** Half a unit in the last place of a 53-bit mantissa, relative to it:
    [2^-53]. *)
Definition halfUlp : Q := 1 # 9007199254740992.

(** [y] is within the rounding error of [x]. *)
Definition rounds (x y : Q) : Prop :=
  ((1 - halfUlp) * y <= x /\ x <= (1 + halfUlp) * y)%Q.

(** A positive normal number with an exponent of at most [E] in absolute
    value. *)
Definition normalNumber (E : Z) (x : JsNumber.number) : Prop :=
  exists m e, x = S754_finite false m e /\ Zdigits2 (Z.pos m) = 53 /\
              - E <= e <= E.

(** The counts that reach the observer are lengths of arrays:
    [updateStats] adds, for each status, the length of the filtered
    staged statuses and the length of the filtered committed ones.  An
    array has at most [2^32 - 1] elements. *)
Definition maxArrayLength : Z := 2 ^ 32 - 1.

Definition countInRange (n : nat) : Prop :=
  Z.of_nat n <= 2 * maxArrayLength.

(** ** Sample worlds *)

Definition student (id : Z) : Student.t := Student.mk id "" "".

Definition C2_world : World :=
  run (fun r => markAttendance r 5 "late")
    (initial true [student 1; student 2] 7 3 "2024-09-02"
       [Attendance.mk 2 "absent"]).

Definition C4_world : World :=
  run (fun r => markAttendance r 2 "absent")
    (initial true [student 1; student 2] 7 3 "2024-09-02" []).

Definition C5_world : World :=
  run markAllPresent
    (initial true [student 1; student 2; student 3] 7 3 "2024-09-02" []).

Definition C8_start : World :=
  initial true [student 1; student 2; student 3] 7 3 "2024-09-02"
    [Attendance.mk 1 "present"].

(** A mark of student 2 is saved, the records fetched again arrive, and
    then student 3 is marked. *)
Definition X18_world : World :=
  run (fun r => markAttendance r 3 "absent")
    (with_eagerDispatch false
       (with_todayAttendance
          [Attendance.mk 1 "present"; Attendance.mk 2 "late"]
          (run (fun r => bulkAttendanceMutation_onSuccess r (mkBulkResult 1 0))
             (run saveAttendance
                (run (fun r => markAttendance r 2 "late")
                   (with_eagerDispatch true C8_start)))))).


(** ** What the table renders *)

(** The props of the [Badge] that [getStatusBadge] returns, its icon and
    its text. *)
Record Badge := mkBadge {
  badgeClassName : option string;
  badgeVariant : option string;
  badgeIcon : string;
  badgeLabel : string
}.

Definition getStatusBadge (status : string) : Badge :=
  if String.eqb status "present" then
    mkBadge (Some "svlns-badge-success") None "Check" "Present"
  else if String.eqb status "absent" then
    mkBadge (Some "svlns-badge-error") None "X" "Absent"
  else if String.eqb status "late" then
    mkBadge (Some "svlns-badge-warning") None "Clock" "Late"
  else
    mkBadge None (Some "outline") "Clock" "Not Marked".

(** One row of the table body: the badge of the student's status and the
    statuses of the mark buttons shown; a marked student gets the text
    "Marked" and no button. *)
Record Row := mkRow {
  rowBadge : Badge;
  rowButtons : list string
}.

Definition renderRow (r : Render) (student : Student.t) : M Row :=
  status ← getStudentStatus r (Student.id student);
  marked ← isMarked r (Student.id student);
  let buttons :=
    match marked with
    | true => []
    | false => ["present"; "late"; "absent"]
    end in
  mret (mkRow (getStatusBadge status) buttons).

(** The table with the state of the bulk mutation: [bulkPending] is
    [bulkAttendanceMutation.isPending], true from [mutate] to the answer. *)
Record Table := mkTable {
  world : World;
  bulkPending : bool
}.

(** [disabled] of the two buttons of the header. *)
Definition markAllDisabled (t : Table) : bool := bulkPending t.

Definition saveDisabled (t : Table) : bool :=
  bulkPending t || Nat.eqb (JsMap.size (pendingSet (world t))) 0.

(** What the user can do with the rendered table: press a mark button of
    a row (their [disabled] is [markAttendanceMutation.isPending], and
    that mutation is never started), press an enabled button of the
    header; the two answers to a bulk request in flight; and the arrival
    of records of the attendance query, at any time. *)
Inductive ui_step : Table -> Table -> Prop :=
| ui_mark t eager student status row :
    In student (students (world t)) ->
    row = fst (renderRow (view (world t)) student (world t)) ->
    In status (rowButtons row) ->
    ui_step t
      (mkTable (run (fun r => markAttendance r (Student.id student) status)
                  (with_eagerDispatch eager (world t)))
         (bulkPending t))
| ui_markAll t :
    markAllDisabled t = false ->
    ui_step t (mkTable (run markAllPresent (world t)) (bulkPending t))
| ui_save t :
    saveDisabled t = false ->
    ui_step t (mkTable (run saveAttendance (world t)) true)
| ui_saved t data :
    bulkPending t = true ->
    ui_step t
      (mkTable (run (fun r => bulkAttendanceMutation_onSuccess r data) (world t))
         false)
| ui_save_failed t error :
    bulkPending t = true ->
    ui_step t
      (mkTable (run (fun _ => bulkAttendanceMutation_onError error) (world t))
         false)
| ui_fetched t records :
    ui_step t (mkTable (with_todayAttendance records (world t)) (bulkPending t)).

(** The three statuses the application knows. *)
Definition knownStatus (status : string) : bool :=
  String.eqb status "present" || String.eqb status "absent"
  || String.eqb status "late".

(** Every staged mark is for a student of the roster and has a known
    status. *)
Definition stagedFromRoster (w : World) : Prop :=
  forall studentId status,
    In (studentId, status) (JsMap.entries (pendingSet w)) ->
    onRoster (students w) studentId = true /\ knownStatus status = true.


(** The user-driven table keeps its staged marks on the roster and never
    has to report that there is nothing to save. *)
Definition tableInvariant (t : Table) : Prop :=
  settled (world t) /\ stagedFromRoster (world t) /\
  ~ In noChangesToast (toasts (world t)).

(** ** The name of an academic year *)

(** The regular expressions [yearPattern] is one of: a sequence of
    character classes, each repeated a fixed number of times, anchored at
    both ends of the input. *)
Module Regex.

Inductive CharClass :=
| Digit                 (* \d *)
| Literal (c : ascii).

(** [\d] matches the ten ASCII digits. *)
Definition isDigit (ch : ascii) : bool :=
  Nat.leb 48 (nat_of_ascii ch) && Nat.leb (nat_of_ascii ch) 57.

Definition matchesClass (cl : CharClass) (ch : ascii) : bool :=
  match cl with
  | Digit => isDigit ch
  | Literal c => Ascii.eqb c ch
  end.

(** [cl{n}] at the start of [s]: the rest of [s] after [n] characters of
    the class. *)
Fixpoint matchRepeat (cl : CharClass) (n : nat) (s : string) : option string :=
  match n with
  | O => Some s
  | S n' =>
      match s with
      | String ch s' =>
          if matchesClass cl ch then matchRepeat cl n' s' else None
      | EmptyString => None
      end
  end.

Fixpoint matchSeq (items : list (CharClass * nat)) (s : string) : option string :=
  match items with
  | [] => Some s
  | (cl, n) :: items' =>
      match matchRepeat cl n s with
      | Some rest => matchSeq items' rest
      | None => None
      end
  end.

(** [/^items$/.test(s)] *)
Definition test (items : list (CharClass * nat)) (s : string) : bool :=
  match matchSeq items s with
  | Some EmptyString => true
  | _ => false
  end.

End Regex.

(** [/^\d{4}-\d{2}$/] *)
Definition yearPattern : list (Regex.CharClass * nat) :=
  [(Regex.Digit, 4%nat); (Regex.Literal "-", 1%nat); (Regex.Digit, 2%nat)].

(** [validateAcademicYear] of [lib/utils] *)
Definition validateAcademicYear (yearName : string) : bool :=
  Regex.test yearPattern yearName.

(** ** The cards of the academic years *)

Module YearPage.

(** The component state beside the page: the modal and the year it
    edits, the query keys handed to [invalidateQueries], and how many of
    the delete and of the activate requests have been answered.  A
    mutation is pending from [mutate] to its answer. *)
Record View := mkView {
  page : YearManagement.Page;
  isModalOpen : bool;
  editingYear : option YearManagement.AcademicYear;
  invalidated : list string;
  deletesSettled : nat;
  activationsSettled : nat
}.

Definition with_page (p : YearManagement.Page) (v : View) : View :=
  mkView p (isModalOpen v) (editingYear v) (invalidated v) (deletesSettled v)
    (activationsSettled v).

Definition initial (years : list YearManagement.AcademicYear) : View :=
  mkView (YearManagement.mkPage years [] [] []) false None [] 0 0.

Definition handleAddYear (v : View) : View :=
  mkView (page v) true None (invalidated v) (deletesSettled v)
    (activationsSettled v).

Definition handleEditYear (year : YearManagement.AcademicYear) (v : View) : View :=
  mkView (page v) true (Some year) (invalidated v) (deletesSettled v)
    (activationsSettled v).

(** [activateYearMutation.mutate(id)] *)
Definition activateYearMutation_mutate (id : Z) (p : YearManagement.Page)
    : YearManagement.Page :=
  YearManagement.mkPage (YearManagement.years p) (YearManagement.toasts p)
    (YearManagement.confirmations p)
    (YearManagement.requests p ++
     [YearManagement.mkRequest "POST"
        ("/api/academic-years/" ++ YearManagement.showId id ++ "/activate")]).

Definition handleActivateYear (confirm : string -> bool)
    (year : YearManagement.AcademicYear) (p : YearManagement.Page)
    : YearManagement.Page :=
  let question :=
    "Set " ++ YearManagement.name year ++ " as the active academic year?" in
  let asked :=
    YearManagement.mkPage (YearManagement.years p) (YearManagement.toasts p)
      (YearManagement.confirmations p ++ [question])
      (YearManagement.requests p) in
  if confirm question
  then activateYearMutation_mutate (YearManagement.id year) asked
  else asked.

(** *** The callbacks of the two mutations *)

Definition toast (t : Toast) (v : View) : View :=
  with_page
    (YearManagement.mkPage (YearManagement.years (page v))
       (YearManagement.toasts (page v) ++ [t])
       (YearManagement.confirmations (page v))
       (YearManagement.requests (page v)))
    v.

Definition invalidateQueries (key : string) (v : View) : View :=
  mkView (page v) (isModalOpen v) (editingYear v) (invalidated v ++ [key])
    (deletesSettled v) (activationsSettled v).

Definition activatedToast : Toast :=
  mkToast "Success" "Academic year activated successfully" None.

Definition activateFailedToast (error : ApiError) : Toast :=
  mkToast "Error" (errorDescription error "Failed to activate academic year")
    (Some "destructive").

Definition activateYearMutation_onSuccess (v : View) : View :=
  toast activatedToast (invalidateQueries "/api/academic-years" v).

Definition activateYearMutation_onError (error : ApiError) (v : View) : View :=
  toast (activateFailedToast error) v.

Definition deletedToast : Toast :=
  mkToast "Success" "Academic year deleted successfully" None.

Definition deleteFailedToast (error : ApiError) : Toast :=
  mkToast "Error" (errorDescription error "Failed to delete academic year")
    (Some "destructive").

Definition deleteYearMutation_onSuccess (v : View) : View :=
  toast deletedToast (invalidateQueries "/api/academic-years" v).

Definition deleteYearMutation_onError (error : ApiError) (v : View) : View :=
  toast (deleteFailedToast error) v.

(** *** The mutations in flight *)

(** The page sends a DELETE only to delete a year and a POST only to
    activate one. *)
Definition isDelete (r : YearManagement.Request) : bool :=
  String.eqb (YearManagement.method r) "DELETE".

Definition isActivation (r : YearManagement.Request) : bool :=
  String.eqb (YearManagement.method r) "POST".

Definition deletesSent (v : View) : nat :=
  length (List.filter isDelete (YearManagement.requests (page v))).

Definition activationsSent (v : View) : nat :=
  length (List.filter isActivation (YearManagement.requests (page v))).

(** [activateYearMutation.isPending] *)
Definition activateYearMutation_isPending (v : View) : bool :=
  Nat.ltb (activationsSettled v) (activationsSent v).

Definition settleDelete (v : View) : View :=
  mkView (page v) (isModalOpen v) (editingYear v) (invalidated v)
    (S (deletesSettled v)) (activationsSettled v).

Definition settleActivation (v : View) : View :=
  mkView (page v) (isModalOpen v) (editingYear v) (invalidated v)
    (deletesSettled v) (S (activationsSettled v)).

(** *** The cards *)

(** The buttons on the card of a year, each with its [disabled]: edit
    always, delete and "Set as Active" for a year that is not active,
    the latter disabled while an activation is pending. *)
Inductive CardButton := EditButton | DeleteButton | ActivateButton.

Definition cardButtons (v : View) (year : YearManagement.AcademicYear)
    : list (CardButton * bool) :=
  [(EditButton, false)]
  ++ (if negb (YearManagement.isActive year) then [(DeleteButton, false)] else [])
  ++ (if negb (YearManagement.isActive year)
      then [(ActivateButton, activateYearMutation_isPending v)] else []).

(** The [onClick] of a button. *)
Definition click (confirm : string -> bool) (b : CardButton)
    (year : YearManagement.AcademicYear) (v : View) : View :=
  match b with
  | EditButton => handleEditYear year v
  | DeleteButton =>
      with_page (YearManagement.handleDeleteYear confirm year (page v)) v
  | ActivateButton =>
      with_page (handleActivateYear confirm year (page v)) v
  end.

(** What happens on the page: the user presses "Add New Year" or an
    enabled button on the card of one of the years shown and answers
    the question as they like; a request in flight is answered, with
    success or with an error; the years of the query arrive, any list. *)
Inductive step : View -> View -> Prop :=
| step_add v :
    step v (handleAddYear v)
| step_click v confirm year b :
    In year (YearManagement.years (page v)) ->
    In (b, false) (cardButtons v year) ->
    step v (click confirm b year v)
| step_deleted v :
    (deletesSettled v < deletesSent v)%nat ->
    step v (settleDelete (deleteYearMutation_onSuccess v))
| step_delete_failed v error :
    (deletesSettled v < deletesSent v)%nat ->
    step v (settleDelete (deleteYearMutation_onError error v))
| step_activated v :
    activateYearMutation_isPending v = true ->
    step v (settleActivation (activateYearMutation_onSuccess v))
| step_activate_failed v error :
    activateYearMutation_isPending v = true ->
    step v (settleActivation (activateYearMutation_onError error v))
| step_fetched v years :
    step v
      (with_page
         (YearManagement.mkPage years (YearManagement.toasts (page v))
            (YearManagement.confirmations (page v))
            (YearManagement.requests (page v)))
         v).



End YearPage.

(** ** Date ranges of the forms *)

(** Two forms compare dates given as strings through [new Date(s)].  The
    time value of a date is taken as a parameter: [timeValue s] is the
    number the comparison uses, [None] for an invalid date, whose
    comparisons are all false. *)
Module JsDate.

Definition ge (a b : option Z) : bool :=
  match a, b with
  | Some x, Some y => Z.geb x y
  | _, _ => false
  end.

Definition gt (a b : option Z) : bool :=
  match a, b with
  | Some x, Some y => Z.gtb x y
  | _, _ => false
  end.

End JsDate.

Module YearModal.

Record FormData := mkFormData {
  name : string;
  startDate : string;
  endDate : string;
  description : string;
  isActive : bool
}.

(** A call of [mutation.mutate]: the request of the mutation function. *)
Record Submission := mkSubmission {
  method : string;
  url : string;
  body : FormData
}.

Record Modal := mkModal {
  fieldErrors : list (string * string);   (* calls of form.setError *)
  submissions : list Submission
}.

Section OnSubmit.

Variable timeValue : string -> option Z.
Variable editingYear : option YearManagement.AcademicYear.

Definition mutation_mutate (data : FormData) (m : Modal) : Modal :=
  let url :=
    match editingYear with
    | Some year => "/api/academic-years/" ++ YearManagement.showId (YearManagement.id year)
    | None => "/api/academic-years"
    end in
  let method :=
    match editingYear with Some _ => "PUT" | None => "POST" end in
  mkModal (fieldErrors m) (submissions m ++ [mkSubmission method url data]).

Definition onSubmit (data : FormData) (m : Modal) : Modal :=
  if JsDate.ge (timeValue (startDate data)) (timeValue (endDate data)) then
    mkModal (fieldErrors m ++ [("endDate", "End date must be after start date")])
      (submissions m)
  else mutation_mutate data m.

End OnSubmit.

End YearModal.

(** ** The reports page *)

Module Reports.

Record ReportFormData := mkReportFormData {
  reportType : string;
  courseId : string;
  yearOfStudy : string;
  academicYearId : string;
  fromDate : string;
  toDate : string
}.

Record Form := mkForm {
  fieldErrors : list (string * string);       (* calls of form.setError *)
  generated : list ReportFormData             (* calls of generateReport *)
}.

Definition onSubmit (timeValue : string -> option Z) (data : ReportFormData)
    (f : Form) : Form :=
  if JsDate.gt (timeValue (fromDate data)) (timeValue (toDate data)) then
    mkForm (fieldErrors f ++ [("toDate", "To date must be after from date")])
      (generated f)
  else mkForm (fieldErrors f) (generated f ++ [data]).

(** The fields of an attendance record that the report reads. *)
Record Detail := mkDetail {
  date : string;
  student : option (string * string);   (* name and roll number *)
  status : string;
  markedAt : option string
}.

(** [new Set(xs)]: the distinct elements, in the order of their first
    occurrence. *)
Definition Set_add (s : list string) (x : string) : list string :=
  if existsb (String.eqb x) s then s else s ++ [x].

Definition Set_of (xs : list string) : list string :=
  fold_left Set_add xs [].

Record Summary := mkSummary {
  totalStudents : nat;
  totalClasses : nat;
  present : nat;
  absent : nat;
  late : nat;
  attendancePercentage : JsNumber.number
}.

Definition countDetails (s : string) (records : list Detail) : nat :=
  length (List.filter (fun record => String.eqb (status record) s) records).

(** The summary [generateReport] computes from the fetched records and
    students. *)
Definition summarize (records : list Detail) (students : list Student.t)
    : Summary :=
  let present := countDetails "present" records in
  let absent := countDetails "absent" records in
  let late := countDetails "late" records in
  let totalMarked :=
    JsNumber.add (JsNumber.add (JsNumber.of_nat present) (JsNumber.of_nat absent))
      (JsNumber.of_nat late) in
  let uniqueDates := Set_of (map date records) in
  let totalClasses := length uniqueDates in
  mkSummary (length students) totalClasses present absent late
    (calculateAttendancePercentage (JsNumber.of_nat present) totalMarked).

(** *** The CSV export *)

Definition doubleQuote : ascii := ascii_of_nat 34.
Definition lineFeed : ascii := ascii_of_nat 10.

(** [xs.join(sep)] *)
Fixpoint join (sep : string) (xs : list string) : string :=
  match xs with
  | [] => EmptyString
  | [x] => x
  | x :: xs' => x ++ sep ++ join sep xs'
  end.

(** [v || "Unknown"] for a string that may be missing. *)
Definition orUnknown (v : option string) : string :=
  match v with
  | Some s => if String.eqb s EmptyString then "Unknown" else s
  | None => "Unknown"
  end.

Definition csvHeaders : list string :=
  ["Date"; "Student Name"; "Roll Number"; "Status"; "Marked At"].

(** The cell in double quotes, as the template literal writes it. *)
Definition quoted (cell : string) : string :=
  String doubleQuote (cell ++ String doubleQuote EmptyString).

Record Browser := mkBrowser {
  downloads : list (string * string);   (* file name and content *)
  toasts : list Toast
}.

Section Csv.

(** [new Date(markedAt).toLocaleString()] depends on the locale. *)
Variable toLocaleString : string -> string.

Definition csvRow (record : Detail) : list string :=
  [date record;
   orUnknown (option_map fst (student record));
   orUnknown (option_map snd (student record));
   status record;
   match markedAt record with
   | Some at_ => if String.eqb at_ EmptyString then "Unknown"
                 else toLocaleString at_
   | None => "Unknown"
   end].

Definition csvContent (details : list Detail) : string :=
  join (String lineFeed EmptyString)
    (join "," csvHeaders
     :: map (fun row => join "," (map quoted row)) (map csvRow details)).

(** [downloadCSV]; [generatedReport] holds the details of the report,
    if one was generated. *)
Definition downloadCSV (currentDate : string)
    (generatedReport : option (list Detail)) (b : Browser) : Browser :=
  match generatedReport with
  | None => b
  | Some details =>
      mkBrowser
        (downloads b ++
         [("attendance-report-" ++ currentDate ++ ".csv", csvContent details)])
        (toasts b ++ [mkToast "Success" "Report downloaded successfully" None])
  end.

End Csv.

(** A cell without double quote and without line feed. *)
Fixpoint hasChar (c : ascii) (s : string) : bool :=
  match s with
  | EmptyString => false
  | String ch s' => Ascii.eqb ch c || hasChar c s'
  end.

Definition plainCell (cell : string) : bool :=
  negb (hasChar doubleQuote cell) && negb (hasChar lineFeed cell).

End Reports.

(** The line of the export for a row of cells. *)
Definition rowLine (row : list string) : string :=
  Reports.join "," (map Reports.quoted row).

(** ** Further sample inputs *)

(** A mark of student 2 is saved, the student is marked once more before
    the records fetched again are there, and then they arrive. *)
Definition C8_mounted : Table := mkTable C8_start false.

Definition C8_marked : Table :=
  mkTable (run (fun r => markAttendance r (Student.id (student 2)) "late")
             (with_eagerDispatch true (world C8_mounted)))
    (bulkPending C8_mounted).

Definition C8_saving : Table :=
  mkTable (run saveAttendance (world C8_marked)) true.

Definition C8_saved : Table :=
  mkTable (run (fun r => bulkAttendanceMutation_onSuccess r (mkBulkResult 1 0))
             (world C8_saving))
    false.

Definition C8_marked_again : Table :=
  mkTable (run (fun r => markAttendance r (Student.id (student 2)) "absent")
             (with_eagerDispatch false (world C8_saved)))
    (bulkPending C8_saved).

Definition C8_refetched : Table :=
  mkTable (with_todayAttendance
             [Attendance.mk 1 "present"; Attendance.mk 2 "late"]
             (world C8_marked_again))
    (bulkPending C8_marked_again).

Definition C8_world : World := world C8_refetched.

Definition X10_start : Table := mkTable C8_start false.

Definition X10_marked : Table :=
  mkTable (run (fun r => markAttendance r (Student.id (student 2)) "late")
             (with_eagerDispatch true (world X10_start)))
    (bulkPending X10_start).

Definition X10_saving : Table :=
  mkTable (run saveAttendance (world X10_marked)) true.

(** A calendar that knows two days. *)
Definition daysOfSeptember (s : string) : option Z :=
  if String.eqb s "2024-09-02" then Some 2
  else if String.eqb s "2024-09-03" then Some 3
  else None.

(** * Properties *)

(** ** The model on small inputs *)

Example JsMap_set_keeps_position :
  JsMap.set [(1, "absent"); (2, "late")] 1 "present"
  = [(1, "present"); (2, "late")].
Proof. reflexivity. Qed.

Example JsMap_of_entries_last_value_first_position :
  JsMap.of_entries [(1, "absent"); (2, "late"); (1, "present")]
  = [(1, "present"); (2, "late")].
Proof. reflexivity. Qed.

Example Math_round_half_goes_up :
  JsNumber.Math_round (JsNumber.div (JsNumber.of_Z 5) (JsNumber.of_Z 2))
    = JsNumber.of_Z 3 /\
  JsNumber.Math_round (JsNumber.div (JsNumber.of_Z (-5)) (JsNumber.of_Z 2))
    = JsNumber.of_Z (-2) /\
  JsNumber.Math_round (JsNumber.div (JsNumber.of_Z (-1)) (JsNumber.of_Z 4))
    = S754_zero true.
Proof. vm_compute. repeat split; reflexivity. Qed.

Example percentage_of_nothing_marked :
  percentage (handleAttendanceStatsChange (mkStats 0 0 0)) = JsNumber.of_Z 0.
Proof. vm_compute. reflexivity. Qed.

(** Saving with nothing staged shows "No Changes" and sends nothing. *)
Example save_with_nothing_staged :
  let w := run saveAttendance C8_start in
  toasts w = [noChangesToast] /\ bulkRequests w = [].
Proof. split; reflexivity. Qed.

(** The scenario of the specification for "Mark All Present": the staged
    marks. *)
Example markAllPresent_scenario :
  pendingSet (run markAllPresent C8_start) = [(2, "present"); (3, "present")].
Proof. reflexivity. Qed.

(** ** [Map] operations *)

Module JsMapFacts.
Import JsMap.

Lemma has_get m k : has m k = match get m k with Some _ => true | None => false end.
Proof.
  induction m as [|[k' v'] m IH]; simpl; [reflexivity|].
  destruct (Z.eqb k' k); [reflexivity | exact IH].
Qed.

Lemma get_set_eq m k v : get (set m k v) k = Some v.
Proof.
  induction m as [|[k' v'] m IH]; simpl.
  - now rewrite Z.eqb_refl.
  - destruct (Z.eqb k' k) eqn:E; simpl; rewrite E; [reflexivity | exact IH].
Qed.

Lemma get_set_ne m k v k' : k <> k' -> get (set m k v) k' = get m k'.
Proof.
  intros Hne. induction m as [|[k0 v0] m IH]; simpl.
  - destruct (Z.eqb_spec k k'); [contradiction | reflexivity].
  - destruct (Z.eqb_spec k0 k) as [->|]; simpl.
    + destruct (Z.eqb_spec k k'); [contradiction | reflexivity].
    + destruct (Z.eqb k0 k'); [reflexivity | exact IH].
Qed.

Lemma get_set m k v k' :
  get (set m k v) k' = if Z.eqb k k' then Some v else get m k'.
Proof.
  destruct (Z.eqb_spec k k') as [->|Hne].
  - apply get_set_eq.
  - now apply get_set_ne.
Qed.

Lemma has_set m k v k' : has (set m k v) k' = Z.eqb k k' || has m k'.
Proof. rewrite !has_get, get_set. now destruct (Z.eqb k k'). Qed.

(** Setting a key to the value it has changes nothing, order included. *)
Lemma set_same m k v : get m k = Some v -> set m k v = m.
Proof.
  induction m as [|[k' v'] m IH]; simpl; [discriminate|].
  destruct (Z.eqb k' k).
  - now intros [= ->].
  - intros H. now rewrite IH.
Qed.

End JsMapFacts.

(** ** The store *)

Lemma deref_insert_eq w l m :
  (l < length (heap w))%nat ->
  deref (with_heap (<[l := m]> (heap w)) w) l = m.
Proof.
  intros Hl. unfold deref. simpl.
  now rewrite list_lookup_insert_eq.
Qed.

Lemma lookup_snoc_new {A} (h : list A) (x : A) :
  (h ++ [x])%list !! length h = Some x.
Proof.
  rewrite lookup_app_r by lia. now rewrite Nat.sub_diag.
Qed.

Lemma lookup_snoc_old {A} (h : list A) (x : A) l :
  (l < length h)%nat -> (h ++ [x])%list !! l = h !! l.
Proof. intros Hl. now apply lookup_app_l. Qed.

(** ** What [markAttendance] does to a settled world *)

(** A student with a committed record: the mark is refused, a toast says
    so and nothing else changes. *)
Lemma run_markAttendance_committed w studentId status :
  updates w = [] ->
  JsMap.has (committedSet w) studentId = true ->
  run (fun r => markAttendance r studentId status) w =
  with_toasts (toasts w ++ [alreadyMarkedToast]) w.
Proof.
  intros Hq Hc. unfold run, markAttendance, committedSet in *.
  rewrite Hc. destruct w as [h s q e st c y d ta ts ps iv br].
  simpl in Hq. subst q. reflexivity.
Qed.

Ltac unfold_handlers :=
  repeat (progress (unfold
    run, exec, commit, view, applyUpdate, asks, newMap, readMap, Map_set, toast,
    onAttendanceChange, invalidateQueries, bulkAttendanceMutation_mutate, enqueue, runUpdater,
    setAttendanceState_value, setAttendanceState_updater,
    updateStats, markAttendance, saveAttendance,
    bulkAttendanceMutation_onSuccess, bulkAttendanceMutation_onError,
    mbind, mret, M_bind, M_ret,
    with_heap, with_hookState, with_updates, with_eagerDispatch,
    with_todayAttendance, with_toasts,
    with_published, with_invalidated, with_bulkRequests,
    pendingSet, committedSet, lastPublished, deref, settled in *; simpl in *)).

(** A student without a committed record: the mark is staged, whatever
    the staged marks already say and whoever is on the roster. *)
Lemma run_markAttendance_staged w studentId status :
  settled w ->
  JsMap.has (committedSet w) studentId = false ->
  let w' := run (fun r => markAttendance r studentId status) w in
  pendingSet w' = JsMap.set (pendingSet w) studentId status /\
  settled w' /\
  todayAttendance w' = todayAttendance w /\
  students w' = students w /\
  toasts w' = toasts w.
Proof.
  destruct w as [h s q e st c y d ta ts ps iv br].
  unfold_handlers. intros [Hs ->] Hc. rewrite Hc.
  destruct e; unfold_handlers;
    rewrite lookup_snoc_new, list_lookup_insert_eq by exact Hs;
    rewrite length_app, length_insert; simpl; repeat split; lia.
Qed.

(** The statistics [markAttendance] hands to the observer depend on when
    React runs the updater.  Run at dispatch, it has already changed the
    [Map] the handler closes over, and the new mark is counted. *)
Lemma markAttendance_published_eager w studentId status :
  settled w -> eagerDispatch w = true ->
  JsMap.has (committedSet w) studentId = false ->
  lastPublished (run (fun r => markAttendance r studentId status) w) =
  Some (countsOf (committedSet w) (JsMap.set (pendingSet w) studentId status)).
Proof.
  destruct w as [h s q e st c y d ta ts ps iv br].
  unfold_handlers. intros [Hs ->] -> Hc. rewrite Hc. unfold_handlers.
  rewrite last_snoc. f_equal. unfold countsOf.
  rewrite lookup_snoc_old by (rewrite length_insert; exact Hs).
  now rewrite list_lookup_insert_eq by exact Hs.
Qed.

(** Left for the render, the updater has not run when [updateStats]
    reads the [Map]: the statistics are those of the marks staged before. *)
Lemma markAttendance_published_deferred w studentId status :
  settled w -> eagerDispatch w = false ->
  JsMap.has (committedSet w) studentId = false ->
  lastPublished (run (fun r => markAttendance r studentId status) w) =
  Some (countsOf (committedSet w) (pendingSet w)).
Proof.
  destruct w as [h s q e st c y d ta ts ps iv br].
  unfold_handlers. intros [Hs ->] -> Hc. rewrite Hc. unfold_handlers.
  now rewrite last_snoc.
Qed.

(** ** What [markAllPresent] does to a settled world *)

Lemma with_heap_id w : with_heap (heap w) w = w.
Proof. now destruct w. Qed.

(** The loop changes the object behind [newState] and nothing else. *)
Lemma forEach_stage committed l roster w :
  (l < length (heap w))%nat ->
  forEach roster (fun student =>
    if negb (JsMap.has committed (Student.id student)) then
      Map_set l (Student.id student) "present"
    else mret tt) w =
  (tt, with_heap (<[l := stageAll committed roster (deref w l)]> (heap w)) w).
Proof.
  revert w. induction roster as [|s roster IH]; intros w Hl; simpl.
  - unfold deref. destruct (heap w !! l) as [m|] eqn:Hm.
    + simpl. rewrite list_insert_id by exact Hm. now rewrite with_heap_id.
    + apply lookup_ge_None in Hm. lia.
  - unfold mbind, M_bind.
    destruct (negb (JsMap.has committed (Student.id s))).
    + unfold Map_set at 1. rewrite IH by (simpl; now rewrite length_insert).
      rewrite deref_insert_eq by exact Hl. unfold with_heap; simpl.
      now rewrite list_insert_insert_eq.
    + unfold mret, M_ret. now rewrite IH.
Qed.

Lemma run_markAllPresent w :
  settled w ->
  let w' := run markAllPresent w in
  pendingSet w' = stageAll (committedSet w) (students w) (pendingSet w) /\
  lastPublished w' = Some (countsOf (committedSet w) (pendingSet w)) /\
  settled w' /\
  todayAttendance w' = todayAttendance w /\
  students w' = students w /\
  toasts w' = toasts w.
Proof.
  intros [Hs Hq].
  unfold run, markAllPresent, exec.
  unfold mbind, M_bind, readMap, newMap, asks.
  rewrite forEach_stage by (simpl; rewrite length_app; simpl; lia).
  destruct w as [h s q e st c y d ta ts ps iv br].
  simpl in Hs, Hq. subst q. unfold_handlers.
  rewrite last_snoc.
  rewrite !lookup_snoc_new. simpl.
  rewrite list_lookup_insert_eq by (rewrite length_app; simpl; lia).
  rewrite list_lookup_insert_ne by lia.
  rewrite lookup_snoc_old by exact Hs.
  rewrite length_insert, length_app. simpl.
  repeat split; lia.
Qed.

Lemma committedSet_todayAttendance w w' :
  todayAttendance w' = todayAttendance w -> committedSet w' = committedSet w.
Proof. unfold committedSet, view. simpl. now intros ->. Qed.

(** ** What saving does to a settled world *)

(** [saveAttendance] reads the staged marks and either reports that there
    is nothing to save or hands them all to the mutation. *)
Lemma run_saveAttendance w :
  updates w = [] ->
  run saveAttendance w =
  if Nat.eqb (length (pendingRecordsOf w)) 0
  then with_toasts (toasts w ++ [noChangesToast]) w
  else with_bulkRequests (bulkRequests w ++ [pendingRecordsOf w]) w.
Proof.
  destruct w as [h s q e st c y d ta ts ps iv br].
  unfold pendingRecordsOf. unfold_handlers. intros ->.
  rewrite !length_map.
  destruct (Nat.eqb (length (JsMap.entries (default JsMap.empty (h !! s)))) 0);
    reflexivity.
Qed.

Lemma run_bulkAttendanceMutation_onError w error :
  updates w = [] ->
  run (fun _ => bulkAttendanceMutation_onError error) w =
  with_toasts (toasts w ++ [saveFailedToast error]) w.
Proof.
  destruct w as [h s q e st c y d ta ts ps iv br].
  unfold_handlers. now intros ->.
Qed.

Lemma run_bulkAttendanceMutation_onSuccess w data :
  settled w ->
  let w' := run (fun r => bulkAttendanceMutation_onSuccess r data) w in
  pendingSet w' = JsMap.empty /\
  settled w' /\
  invalidated w' = (invalidated w ++ ["/api/attendance"])%list /\
  toasts w' = (toasts w ++ [savedToast data])%list /\
  lastPublished w' = Some (countsOf (committedSet w) (pendingSet w)) /\
  todayAttendance w' = todayAttendance w /\
  students w' = students w.
Proof.
  destruct w as [h s q e st c y d ta ts ps iv br].
  unfold_handlers. intros [Hs ->]. unfold_handlers.
  rewrite lookup_snoc_new, last_snoc, length_app. simpl.
  repeat split; lia.
Qed.

(** ** Claims about [markAttendance] *)

(** C1, as stated, fails.  One student on the roster, nothing committed:
    after [markAttendance(1, "present")] the student is marked
    ([isMarked] is [true]), yet [markAttendance(1, "absent")] is not
    refused: no toast is shown and the staged status becomes ["absent"]. *)
Lemma C1_staged_student_is_marked_again :
  let w0 := initial true [student 1] 7 3 "2024-09-02" [] in
  let w1 := run (fun r => markAttendance r 1 "present") w0 in
  let w2 := run (fun r => markAttendance r 1 "absent") w1 in
  fst (isMarked (view w1) 1 w1) = true /\
  pendingSet w1 = [(1, "present")] /\
  pendingSet w2 = [(1, "absent")] /\
  toasts w2 = [].
Proof. repeat split; reflexivity. Qed.

(** C1, amended: for a student who has an entry in CommittedSet,
    [markAttendance] with any status is refused.  PendingSet and every
    other part of the state stay as they were; the one effect is the toast
    "Attendance already marked for this student today". *)
Theorem C1_mark_committed_student_rejected w studentId status :
  settled w ->
  JsMap.has (committedSet w) studentId = true ->
  let w' := run (fun r => markAttendance r studentId status) w in
  pendingSet w' = pendingSet w /\
  w' = with_toasts (toasts w ++ [alreadyMarkedToast]) w /\
  last (toasts w') = Some alreadyMarkedToast.
Proof.
  intros [_ Hq] Hc. simpl.
  rewrite (run_markAttendance_committed w studentId status Hq Hc).
  repeat split. simpl. apply last_snoc.
Qed.

Lemma C1_mark_committed_student_rejected_witness :
  let w := initial true [student 1] 7 3 "2024-09-02"
             [Attendance.mk 1 "late"] in
  let w' := run (fun r => markAttendance r 1 "present") w in
  pendingSet w' = pendingSet w /\
  w' = with_toasts (toasts w ++ [alreadyMarkedToast]) w /\
  last (toasts w') = Some alreadyMarkedToast.
Proof.
  apply (C1_mark_committed_student_rejected
           (initial true [student 1] 7 3 "2024-09-02" [Attendance.mk 1 "late"])
           1 "present").
  - split; [simpl; lia | reflexivity].
  - reflexivity.
Defined.

(** C6, as stated, fails.  With an empty roster, [markAttendance(7, "present")]
    is not refused: student 7 is staged and no toast is shown. *)
Lemma C6_unknown_student_is_staged :
  let w0 := initial true [] 7 3 "2024-09-02" [] in
  let w1 := run (fun r => markAttendance r 7 "present") w0 in
  existsb (fun s => Z.eqb (Student.id s) 7) (students w0) = false /\
  pendingSet w0 = [] /\
  pendingSet w1 = [(7, "present")] /\
  toasts w1 = [].
Proof. repeat split; reflexivity. Qed.

(** C6, amended: [markAttendance] does not consult the roster.  For a
    studentId that is not on the loaded roster the call is refused exactly
    when the student has an entry in CommittedSet, and PendingSet is then
    unchanged; otherwise the mark is staged in PendingSet like any other
    and no message is shown. *)
Theorem C6_mark_ignores_roster w studentId status :
  settled w ->
  existsb (fun s => Z.eqb (Student.id s) studentId) (students w) = false ->
  let w' := run (fun r => markAttendance r studentId status) w in
  if JsMap.has (committedSet w) studentId
  then pendingSet w' = pendingSet w /\
       toasts w' = (toasts w ++ [alreadyMarkedToast])%list
  else pendingSet w' = JsMap.set (pendingSet w) studentId status /\
       toasts w' = toasts w.
Proof.
  intros Hw _. simpl.
  destruct (JsMap.has (committedSet w) studentId) eqn:Hc.
  - rewrite (run_markAttendance_committed w studentId status (proj2 Hw) Hc).
    now split.
  - destruct (run_markAttendance_staged w studentId status Hw Hc)
      as (Hp & _ & _ & _ & Ht).
    now split.
Qed.

Lemma C6_mark_ignores_roster_witness :
  let w := initial false [student 1] 7 3 "2024-09-02" [] in
  let w' := run (fun r => markAttendance r 9 "late") w in
  pendingSet w' = JsMap.set (pendingSet w) 9 "late" /\ toasts w' = toasts w.
Proof.
  apply (C6_mark_ignores_roster
           (initial false [student 1] 7 3 "2024-09-02" []) 9 "late").
  - split; [simpl; lia | reflexivity].
  - reflexivity.
Defined.

(** ** Claims about [markAllPresent] *)

Lemma get_stageAll committed roster m k :
  JsMap.get (stageAll committed roster m) k =
  if onRoster roster k && negb (JsMap.has committed k)
  then Some "present" else JsMap.get m k.
Proof.
  revert m. induction roster as [|s roster IH]; intros m; simpl; [reflexivity|].
  unfold stageAll in *. simpl. rewrite IH. clear IH.
  destruct (Z.eqb_spec (Student.id s) k) as [->|Hne]; simpl.
  - destruct (JsMap.has committed k) eqn:Hc; simpl.
    + now rewrite andb_false_r.
    + rewrite andb_true_r. rewrite JsMapFacts.get_set_eq.
      now destruct (onRoster roster k).
  - destruct (onRoster roster k && negb (JsMap.has committed k)); [reflexivity|].
    destruct (negb (JsMap.has committed (Student.id s))); [|reflexivity].
    now apply JsMapFacts.get_set_ne.
Qed.

Lemma has_stageAll committed roster m k :
  JsMap.has (stageAll committed roster m) k =
  onRoster roster k && negb (JsMap.has committed k) || JsMap.has m k.
Proof.
  rewrite (JsMapFacts.has_get (stageAll committed roster m) k).
  rewrite (JsMapFacts.has_get m k), get_stageAll.
  now destruct (onRoster roster k && negb (JsMap.has committed k)).
Qed.

(** Where every roster student without a committed record is already
    staged as present, the loop changes nothing. *)
Lemma stageAll_fixed committed roster m :
  (forall s, In s roster -> JsMap.has committed (Student.id s) = false ->
             JsMap.get m (Student.id s) = Some "present") ->
  stageAll committed roster m = m.
Proof.
  induction roster as [|s roster IH]; intros H; [reflexivity|].
  unfold stageAll in *. simpl.
  destruct (JsMap.has committed (Student.id s)) eqn:Hc; simpl.
  - apply IH. intros s' Hs'. apply H. now right.
  - rewrite JsMapFacts.set_same by (apply H; [now left | exact Hc]).
    apply IH. intros s' Hs'. apply H. now right.
Qed.

Lemma onRoster_In roster s : In s roster -> onRoster roster (Student.id s) = true.
Proof.
  intros Hs. apply existsb_exists. exists s. split; [exact Hs | apply Z.eqb_refl].
Qed.

Lemma stageAll_idempotent committed roster m :
  stageAll committed roster (stageAll committed roster m) =
  stageAll committed roster m.
Proof.
  apply stageAll_fixed. intros s Hs Hc.
  rewrite get_stageAll, (onRoster_In roster s Hs), Hc. reflexivity.
Qed.

(** C2, as stated, fails.  Student 1 is staged as absent, hence marked;
    [markAllPresent] replaces that staged entry by present. *)
Lemma C2_staged_entry_is_overwritten :
  let w0 := initial true [student 1; student 2] 7 3 "2024-09-02" [] in
  let w1 := run (fun r => markAttendance r 1 "absent") w0 in
  let w2 := run markAllPresent w1 in
  fst (isMarked (view w1) 1 w1) = true /\
  JsMap.get (pendingSet w1) 1 = Some "absent" /\
  JsMap.get (pendingSet w2) 1 = Some "present".
Proof. repeat split; reflexivity. Qed.

(** C2, amended: [markAllPresent] sets the status present in PendingSet
    for exactly the students of the roster that have no entry in
    CommittedSet, those already staged included (their staged status is
    replaced); the PendingSet entry of every other studentId is left as it
    was. *)
Theorem C2_markAllPresent_stages_uncommitted_roster w studentId :
  settled w ->
  JsMap.get (pendingSet (run markAllPresent w)) studentId =
  if onRoster (students w) studentId
     && negb (JsMap.has (committedSet w) studentId)
  then Some "present"
  else JsMap.get (pendingSet w) studentId.
Proof.
  intros Hw. destruct (run_markAllPresent w Hw) as (Hp & _).
  rewrite Hp. apply get_stageAll.
Qed.

Lemma C2_markAllPresent_stages_uncommitted_roster_witness :
  JsMap.get (pendingSet (run markAllPresent C2_world)) 1 = Some "present" /\
  JsMap.get (pendingSet (run markAllPresent C2_world)) 2 = None /\
  JsMap.get (pendingSet (run markAllPresent C2_world)) 5 = Some "late".
Proof.
  assert (Hw : settled C2_world) by (split; [vm_compute; lia | reflexivity]).
  pose proof (C2_markAllPresent_stages_uncommitted_roster C2_world 1 Hw) as H1.
  pose proof (C2_markAllPresent_stages_uncommitted_roster C2_world 2 Hw) as H2.
  pose proof (C2_markAllPresent_stages_uncommitted_roster C2_world 5 Hw) as H5.
  vm_compute in H1, H2, H5 |- *.
  split; [exact H1 | split; [exact H2 | exact H5]].
Defined.

(** C9: calling [markAllPresent] twice in a row leaves the same PendingSet
    as calling it once, for every roster, every fetched CommittedSet and
    every staged PendingSet; the order of the entries is the same too. *)
Theorem C9_markAllPresent_idempotent w :
  settled w ->
  pendingSet (run markAllPresent (run markAllPresent w)) =
  pendingSet (run markAllPresent w).
Proof.
  intros Hw.
  destruct (run_markAllPresent w Hw) as (Hp & _ & Hw' & Hta & Hst & _).
  destruct (run_markAllPresent _ Hw') as (Hp' & _).
  rewrite Hp', Hp, Hst, (committedSet_todayAttendance _ _ Hta).
  apply stageAll_idempotent.
Qed.

Lemma C9_markAllPresent_idempotent_witness :
  let w := run (fun r => markAttendance r 3 "late")
             (initial false [student 1; student 2; student 3] 7 3 "2024-09-02"
                [Attendance.mk 1 "present"]) in
  pendingSet (run markAllPresent (run markAllPresent w)) =
  pendingSet (run markAllPresent w).
Proof.
  apply C9_markAllPresent_idempotent.
  split; [vm_compute; lia | reflexivity].
Defined.

(** ** Claims about the published statistics *)

(** C3 fails on the code, at the scenario of the specification: roster
    S1, S2, S3 with S1 committed as present.  [markAllPresent] stages S2
    and S3, so the union of the two sets counts three present; the
    statistics it publishes count one, because [updateStats] reads the
    [attendanceState] of the render the handler was created in, not the
    [Map] just passed to [setAttendanceState].  This does not depend on
    when React applies updates. *)
Theorem C3_markAllPresent_publishes_stale_statistics (eager : bool) :
  let w0 := initial eager [student 1; student 2; student 3] 7 3 "2024-09-02"
              [Attendance.mk 1 "present"] in
  let w1 := run markAllPresent w0 in
  pendingSet w1 = [(2, "present"); (3, "present")] /\
  countsOf (committedSet w1) (pendingSet w1) = mkStats 3 0 0 /\
  lastPublished w1 = Some (mkStats 1 0 0).
Proof. destruct eager; repeat split; reflexivity. Qed.

(** ** Claims about saving *)

(** C4: a failed save leaves PendingSet as it was: the [Map] objects, the
    state cell and the (empty) update queue are untouched by
    [saveAttendance] and by [onError], so that saving again submits the
    same records; the toast shown carries the message of the error, or
    the fixed text when the error has none. *)
Theorem C4_failed_save_keeps_pendingSet w error :
  settled w ->
  let w1 := run saveAttendance w in
  let w2 := run (fun _ => bulkAttendanceMutation_onError error) w1 in
  pendingSet w2 = pendingSet w /\
  (forall studentId,
     JsMap.get (pendingSet w2) studentId = JsMap.get (pendingSet w) studentId) /\
  heap w2 = heap w /\ hookState w2 = hookState w /\ updates w2 = [] /\
  pendingRecordsOf w2 = pendingRecordsOf w /\
  toasts w2 =
    (toasts w1 ++
     [mkToast "Error"
        (match message error with
         | Some msg => if String.eqb msg "" then "Failed to save bulk attendance"
                       else msg
         | None => "Failed to save bulk attendance"
         end)
        (Some "destructive")])%list.
Proof.
  intros [Hs Hq]. simpl.
  rewrite (run_saveAttendance w Hq).
  destruct (Nat.eqb (length (pendingRecordsOf w)) 0);
    rewrite run_bulkAttendanceMutation_onError by exact Hq;
    destruct w as [h s q e st c y d ta ts ps iv br]; simpl in *; subst q;
    repeat split.
Qed.

Lemma C4_failed_save_keeps_pendingSet_witness :
  let w2 := run (fun _ => bulkAttendanceMutation_onError (mkApiError (Some "503: Service Unavailable")))
              (run saveAttendance C4_world) in
  pendingSet C4_world = [(2, "absent")] /\
  pendingSet w2 = [(2, "absent")] /\
  toasts w2 = [mkToast "Error" "503: Service Unavailable" (Some "destructive")].
Proof.
  assert (Hw : settled C4_world) by (split; [vm_compute; lia | reflexivity]).
  pose proof (C4_failed_save_keeps_pendingSet C4_world
                (mkApiError (Some "503: Service Unavailable")) Hw) as H.
  vm_compute in H |- *.
  destruct H as (Hp & _ & _ & _ & _ & _ & Ht).
  split; [reflexivity | split; [exact Hp | exact Ht]].
Defined.

(** C5: when the bulk request succeeds, whatever numbers of saved and
    failed records the response reports, PendingSet is cleared, the
    attendance query is invalidated so that CommittedSet is fetched again,
    and a toast shows both numbers. *)
Theorem C5_successful_save_clears_pendingSet w data :
  settled w ->
  let w' := run (fun r => bulkAttendanceMutation_onSuccess r data) w in
  pendingSet w' = JsMap.empty /\
  invalidated w' = (invalidated w ++ ["/api/attendance"])%list /\
  toasts w' =
    (toasts w ++
     [mkToast "Success"
        (showCount (success data) ++ " attendance records saved. " ++
         showCount (errors data) ++ " errors.")
        None])%list.
Proof.
  intros Hw.
  destruct (run_bulkAttendanceMutation_onSuccess w data Hw) as (Hp & _ & Hi & Ht & _).
  repeat split; assumption.
Qed.

Lemma C5_successful_save_clears_pendingSet_witness :
  let w' := run (fun r => bulkAttendanceMutation_onSuccess r (mkBulkResult 2 1)) C5_world in
  pendingSet C5_world = [(1, "present"); (2, "present"); (3, "present")] /\
  pendingSet w' = [] /\
  invalidated w' = ["/api/attendance"] /\
  toasts w' = [mkToast "Success" "2 attendance records saved. 1 errors." None].
Proof.
  assert (Hw : settled C5_world) by (split; [vm_compute; lia | reflexivity]).
  pose proof (C5_successful_save_clears_pendingSet C5_world (mkBulkResult 2 1) Hw)
    as H.
  vm_compute in H |- *.
  destruct H as (Hp & Hi & Ht).
  split; [reflexivity | split; [exact Hp | split; [exact Hi | exact Ht]]].
Defined.

(** ** The invariant of the two sets *)

Lemma disjointSets_frame w w' :
  pendingSet w' = pendingSet w -> todayAttendance w' = todayAttendance w ->
  disjointSets w -> disjointSets w'.
Proof.
  intros Hp Hta H k. rewrite Hp, (committedSet_todayAttendance _ _ Hta). apply H.
Qed.

Lemma settled_with_toasts ts w : settled w -> settled (with_toasts ts w).
Proof. now destruct w. Qed.

Lemma settled_with_bulkRequests rs w : settled w -> settled (with_bulkRequests rs w).
Proof. now destruct w. Qed.

Lemma settled_with_todayAttendance rs w :
  settled w -> settled (with_todayAttendance rs w).
Proof. now destruct w. Qed.

Lemma settled_with_eagerDispatch eager w :
  settled w -> settled (with_eagerDispatch eager w).
Proof. now destruct w. Qed.

Lemma pendingSet_with_eagerDispatch eager w :
  pendingSet (with_eagerDispatch eager w) = pendingSet w.
Proof. now destruct w. Qed.

Lemma committedSet_with_eagerDispatch eager w :
  committedSet (with_eagerDispatch eager w) = committedSet w.
Proof. now destruct w. Qed.

Lemma pendingSet_with_todayAttendance rs w :
  pendingSet (with_todayAttendance rs w) = pendingSet w.
Proof. now destruct w. Qed.

Lemma handler_step_preserves w w' :
  handler_step w w' -> settled w /\ disjointSets w -> settled w' /\ disjointSets w'.
Proof.
  intros Hstep [Hw Hd]. destruct Hstep as [w eager k v|w|w|w data|w error].
  - pose proof (settled_with_eagerDispatch eager w Hw) as Hw0.
    pose proof (pendingSet_with_eagerDispatch eager w) as Hp0.
    pose proof (committedSet_with_eagerDispatch eager w) as Hc0.
    set (w0 := with_eagerDispatch eager w) in *.
    destruct (JsMap.has (committedSet w0) k) eqn:Hc.
    + rewrite (run_markAttendance_committed w0 k v (proj2 Hw0) Hc).
      split; [now apply settled_with_toasts|].
      apply (disjointSets_frame w); [now destruct w | now destruct w | exact Hd].
    + destruct (run_markAttendance_staged w0 k v Hw0 Hc) as (Hp & Hw' & Hta & _).
      split; [exact Hw'|]. intros k'.
      rewrite Hp, (committedSet_todayAttendance _ _ Hta), Hp0, Hc0,
        JsMapFacts.has_set.
      rewrite Hc0 in Hc.
      destruct (Z.eqb_spec k k') as [<-|Hne]; simpl.
      * rewrite Hc. reflexivity.
      * apply Hd.
  - destruct (run_markAllPresent w Hw) as (Hp & _ & Hw' & Hta & _).
    split; [exact Hw'|]. intros k.
    rewrite Hp, (committedSet_todayAttendance _ _ Hta), has_stageAll.
    specialize (Hd k).
    destruct (JsMap.has (committedSet w) k); simpl in *; [|reflexivity].
    rewrite andb_false_r. exact Hd.
  - rewrite (run_saveAttendance w (proj2 Hw)).
    destruct (Nat.eqb (length (pendingRecordsOf w)) 0).
    + split; [now apply settled_with_toasts|].
      apply (disjointSets_frame w); [now destruct w | now destruct w | exact Hd].
    + split; [now apply settled_with_bulkRequests|].
      apply (disjointSets_frame w); [now destruct w | now destruct w | exact Hd].
  - destruct (run_bulkAttendanceMutation_onSuccess w data Hw) as (Hp & Hw' & _).
    split; [exact Hw'|]. intros k. rewrite Hp. simpl. apply andb_false_r.
  - rewrite (run_bulkAttendanceMutation_onError w error (proj2 Hw)).
    split; [now apply settled_with_toasts|].
    apply (disjointSets_frame w); [now destruct w | now destruct w | exact Hd].
Qed.

Lemma JsMap_has_fold_set es : forall m k,
  JsMap.has (fold_left (fun m e => JsMap.set m (fst e) (snd e)) es m) k =
  JsMap.has m k || existsb (fun e => Z.eqb (fst e) k) es.
Proof.
  induction es as [|e es IH]; intros m k; simpl.
  - now rewrite orb_false_r.
  - rewrite IH, JsMapFacts.has_set.
    destruct (Z.eqb (fst e) k), (JsMap.has m k); reflexivity.
Qed.

(** A student is committed exactly when a fetched record is theirs. *)
Lemma has_committedSet w k :
  JsMap.has (committedSet w) k =
  existsb (fun record => Z.eqb (Attendance.studentId record) k) (todayAttendance w).
Proof.
  unfold committedSet, view, JsMap.of_entries. simpl.
  rewrite JsMap_has_fold_set. simpl.
  induction (todayAttendance w) as [|record rs IH]; simpl; [reflexivity|].
  now rewrite IH.
Qed.

(** Records that arrive in order keep the two sets apart. *)
Lemma orderly_step_preserves w w' :
  orderly_step w w' -> settled w /\ disjointSets w -> settled w' /\ disjointSets w'.
Proof.
  intros Hstep [Hw Hd]. destruct Hstep as [w w' Hstep|w records Harr].
  - now apply (handler_step_preserves w).
  - split; [now apply settled_with_todayAttendance|]. intros k.
    rewrite pendingSet_with_todayAttendance.
    destruct (JsMap.has (pendingSet w) k) eqn:Hp; [|apply andb_false_r].
    rewrite andb_true_r, has_committedSet.
    replace (todayAttendance (with_todayAttendance records w)) with records
      by now destruct w.
    destruct (existsb _ records) eqn:He; [|reflexivity].
    apply existsb_exists in He as (record & Hin & Hk).
    apply Z.eqb_eq in Hk. specialize (Harr record Hin). congruence.
Qed.

Lemma initial_settled eager roster course year date fetched :
  settled (initial eager roster course year date fetched).
Proof. split; [simpl; lia | reflexivity]. Qed.

Lemma initial_disjointSets eager roster course year date fetched :
  disjointSets (initial eager roster course year date fetched).
Proof. intros k. unfold pendingSet, deref. simpl. apply andb_false_r. Qed.

Lemma orderly_reachable_preserves w0 w :
  rtc orderly_step w0 w -> settled w0 /\ disjointSets w0 ->
  settled w /\ disjointSets w.
Proof.
  induction 1 as [|w0 w1 w Hstep _ IH]; [trivial|].
  intros H0. apply IH. now apply (orderly_step_preserves w0).
Qed.

(** Every step the rendered table allows is a step of the workflow. *)
Lemma ui_step_step t t' : ui_step t t' -> step (world t) (world t').
Proof.
  intros Hstep.
  destruct Hstep as [t eager s status row _ _ _|t _|t _|t data _|t error _|t records];
    simpl.
  - apply step_handler, handler_mark.
  - apply step_handler, handler_markAll.
  - apply step_handler, handler_save.
  - apply step_handler, handler_saved.
  - apply step_handler, handler_save_failed.
  - apply step_fetched.
Qed.

Lemma ui_reachable_step t t' : rtc ui_step t t' -> rtc step (world t) (world t').
Proof.
  induction 1 as [|t0 t1 t Hstep _ IH]; [apply rtc_refl|].
  eapply rtc_l; [apply (ui_step_step _ _ Hstep) | exact IH].
Qed.

(** C8, as stated, fails on the code.  A table shows student 1 committed
    and students 2 and 3 unmarked.  The user marks student 2 late and
    saves; the request succeeds, [onSuccess] clears the staged marks and
    invalidates the attendance query without waiting for the records
    fetched again.  Until they arrive the row of student 2 still offers
    its buttons, for [existingAttendance] is built from the records of
    before; the user presses "Absent".  Then the records arrive: student
    2 is committed as late and staged as absent, and the next save sends
    a second record for this student.  Every step is one the rendered
    table allows. *)
Theorem C8_late_records_put_a_student_in_both_sets :
  rtc ui_step C8_mounted C8_refetched /\
  rtc step C8_start C8_world /\
  disjointSets C8_start /\
  JsMap.get (committedSet C8_world) 2 = Some "late" /\
  JsMap.get (pendingSet C8_world) 2 = Some "absent" /\
  map (map (fun p => (Payload.studentId p, Payload.status p)))
    (bulkRequests (run saveAttendance C8_world))
  = [[(2, "late")]; [(2, "absent")]].
Proof.
  assert (Hui : rtc ui_step C8_mounted C8_refetched).
  { apply rtc_l with C8_marked.
    { apply (ui_mark C8_mounted true (student 2) "late"
               (fst (renderRow (view (world C8_mounted)) (student 2)
                       (world C8_mounted)))).
      - right; left; reflexivity.
      - reflexivity.
      - vm_compute. right; left; reflexivity. }
    apply rtc_l with C8_saving.
    { apply (ui_save C8_marked). vm_compute. reflexivity. }
    apply rtc_l with C8_saved.
    { apply (ui_saved C8_saving (mkBulkResult 1 0)). reflexivity. }
    apply rtc_l with C8_marked_again.
    { apply (ui_mark C8_saved false (student 2) "absent"
               (fst (renderRow (view (world C8_saved)) (student 2)
                       (world C8_saved)))).
      - right; left; reflexivity.
      - reflexivity.
      - vm_compute. right; right; left; reflexivity. }
    apply rtc_once.
    apply (ui_fetched C8_marked_again
             [Attendance.mk 1 "present"; Attendance.mk 2 "late"]). }
  split; [exact Hui|].
  split; [exact (ui_reachable_step _ _ Hui)|].
  split; [apply initial_disjointSets|].
  vm_compute. repeat split; reflexivity.
Qed.

(** ** The two sets while the records arrive in order *)

(** X18: from a freshly mounted table, the handlers never put a student
    into both sets, and neither do fetched records that arrive while
    none of their students has a staged mark: in every state reached
    that way no student has an entry in both CommittedSet and
    PendingSet.  (Records that arrive after a further mark are what
    breaks this.) *)
Theorem X18_sets_stay_disjoint_while_records_arrive_in_order
    eager roster course year date fetched w studentId :
  rtc orderly_step (initial eager roster course year date fetched) w ->
  JsMap.has (committedSet w) studentId && JsMap.has (pendingSet w) studentId
  = false.
Proof.
  intros Hreach.
  destruct (orderly_reachable_preserves _ _ Hreach) as [_ Hd]; [|apply Hd].
  split; [apply initial_settled | apply initial_disjointSets].
Qed.

Lemma X18_sets_stay_disjoint_while_records_arrive_in_order_witness :
  JsMap.has (committedSet X18_world) 1 = true /\
  JsMap.has (committedSet X18_world) 2 = true /\
  JsMap.has (pendingSet X18_world) 3 = true /\
  JsMap.has (committedSet X18_world) 3 && JsMap.has (pendingSet X18_world) 3
  = false.
Proof.
  split; [reflexivity|]. split; [reflexivity|]. split; [reflexivity|].
  apply (X18_sets_stay_disjoint_while_records_arrive_in_order true
           [student 1; student 2; student 3] 7 3 "2024-09-02"
           [Attendance.mk 1 "present"] X18_world 3).
  unfold X18_world.
  eapply rtc_r; [|apply orderly_handler, handler_mark].
  eapply rtc_r.
  2:{ apply orderly_fetched. intros record Hin. vm_compute. reflexivity. }
  eapply rtc_r; [|apply orderly_handler, handler_saved].
  eapply rtc_r; [|apply orderly_handler, handler_save].
  eapply rtc_r; [|apply orderly_handler, handler_mark].
  apply rtc_refl.
Defined.

(** C10: deleting the active academic year is refused on the spot: the
    toast "Cannot delete the active academic year" is shown, no request
    is sent, the user is not asked and the collection of years is as it
    was.  A DELETE request is sent only for an inactive year that the
    user confirmed, and it is the one request for that year. *)
Theorem C10_active_year_is_not_deleted confirm year p :
  let p' := YearManagement.handleDeleteYear confirm year p in
  (YearManagement.isActive year = true ->
     p' = YearManagement.mkPage (YearManagement.years p)
            (YearManagement.toasts p ++ [YearManagement.cannotDeleteToast])
            (YearManagement.confirmations p) (YearManagement.requests p)) /\
  YearManagement.years p' = YearManagement.years p /\
  (YearManagement.requests p' <> YearManagement.requests p ->
     YearManagement.isActive year = false /\
     confirm ("Are you sure you want to delete academic year " ++
              YearManagement.name year ++ "?") = true /\
     YearManagement.requests p' =
       (YearManagement.requests p ++
        [YearManagement.mkRequest "DELETE"
           ("/api/academic-years/" ++
            YearManagement.showId (YearManagement.id year))])%list).
Proof.
  unfold YearManagement.handleDeleteYear. simpl.
  destruct (YearManagement.isActive year).
  - split; [reflexivity|]. split; [reflexivity|]. intros H. now contradiction H.
  - split; [discriminate|].
    destruct (confirm _) eqn:Hc.
    + split; [reflexivity|]. intros _. repeat split.
    + split; [reflexivity|]. intros H. now contradiction H.
Qed.

Lemma C10_active_year_is_not_deleted_witness :
  let current := YearManagement.mkYear 4 "2024-25" true in
  let previous := YearManagement.mkYear 3 "2023-24" false in
  let p := YearManagement.mkPage [previous; current] [] [] [] in
  YearManagement.handleDeleteYear (fun _ => true) current p =
    YearManagement.mkPage [previous; current]
      [YearManagement.cannotDeleteToast] [] [] /\
  YearManagement.requests
    (YearManagement.handleDeleteYear (fun _ => true) previous p) =
    [YearManagement.mkRequest "DELETE" "/api/academic-years/3"].
Proof.
  split.
  - apply (proj1 (C10_active_year_is_not_deleted (fun _ => true)
                    (YearManagement.mkYear 4 "2024-25" true)
                    (YearManagement.mkPage
                       [YearManagement.mkYear 3 "2023-24" false;
                        YearManagement.mkYear 4 "2024-25" true] [] [] []))).
    reflexivity.
  - apply (proj2 (proj2 (C10_active_year_is_not_deleted (fun _ => true)
                    (YearManagement.mkYear 3 "2023-24" false)
                    (YearManagement.mkPage
                       [YearManagement.mkYear 3 "2023-24" false;
                        YearManagement.mkYear 4 "2024-25" true] [] [] [])))).
    discriminate.
Defined.

(** * The attendance percentage *)

(** The rounding of the specification, on integers: [⌊(200·p + t) / 2t⌋]. *)
Lemma spec_percentage_closed_form present absent late :
  spec_percentage present absent late =
  let total := Z.of_nat (present + absent + late) in
  if Z.eqb total 0 then 0 else (200 * Z.of_nat present + total) / (2 * total).
Proof.
  unfold spec_percentage, spec_round. simpl.
  destruct (present + absent + late)%nat as [|n] eqn:E; [reflexivity|].
  change (Nat.eqb (S n) 0) with false. cbv iota.
  destruct (Z.eqb_spec (Z.of_nat (S n)) 0) as [H0|_]; [lia|].
  generalize (Z.of_nat present). intros p.
  unfold Qfloor, Qplus, Qmult, Qdiv, Qinv, inject_Z. simpl.
  rewrite Pos.mul_1_r.
  f_equal; [|apply Pos2Z.inj_mul || lia]. ring_simplify.
  rewrite Pos2Z.inj_mul. lia.
Qed.

(** ** Rounding in binary64

    The operations of the Standard Library's specification shift the
    exact result to 53 bits and round it to nearest, ties to even.  This
    section proves that of [binary_round_aux] once, for a quotient of
    integers, and derives the error of a division and of a
    multiplication and the exactness of sums of counts. *)

Lemma digits2_pos_size p : digits2_pos p = Pos.size p.
Proof. induction p as [p IH|p IH|]; simpl; congruence. Qed.

Lemma Zdigits2_bounds m :
  0 < m -> 2 ^ (Zdigits2 m - 1) <= m < 2 ^ Zdigits2 m.
Proof.
  destruct m as [|p|p]; try lia. intros _. simpl Zdigits2.
  rewrite digits2_pos_size.
  pose proof (Pos.size_gt p) as Hgt. pose proof (Pos.size_le p) as Hle.
  apply Pos2Z.pos_lt_pos in Hgt. apply Pos2Z.pos_le_pos in Hle.
  rewrite Pos2Z.inj_pow in Hgt, Hle.
  change (Z.pos p~0) with (2 * Z.pos p) in Hle.
  replace (Z.pos (Pos.size p)) with (Z.succ (Z.pos (Pos.size p) - 1)) in Hle at 1 by lia.
  rewrite Z.pow_succ_r in Hle by lia. lia.
Qed.

Lemma Zdigits2_unique m d :
  2 ^ (d - 1) <= m < 2 ^ d -> 0 < d -> Zdigits2 m = d.
Proof.
  intros [Hlo Hhi] Hd.
  assert (Hm : 0 < m) by (pose proof (Z.pow_pos_nonneg 2 (d - 1)); lia).
  destruct (Zdigits2_bounds m Hm) as [Hlo' Hhi'].
  assert (Hpos : 0 < Zdigits2 m) by (destruct m; simpl; lia).
  destruct (Z.lt_trichotomy (Zdigits2 m) d) as [H|[H|H]]; [|exact H|].
  - assert (2 ^ Zdigits2 m <= 2 ^ (d - 1)) by (apply Z.pow_le_mono_r; lia). lia.
  - assert (2 ^ d <= 2 ^ (Zdigits2 m - 1)) by (apply Z.pow_le_mono_r; lia). lia.
Qed.

Lemma Zdigits2_nonneg m : 0 <= Zdigits2 m.
Proof. destruct m; simpl; lia. Qed.

(** *** Shifting to the right *)

Lemma shr_1_located A D mrs :
  0 <= A -> 0 < D -> located A D mrs -> located A (2 * D) (shr_1 mrs).
Proof.
  intros HA HD (Hm & Hr & Hs).
  pose proof (Z.div_mod A D ltac:(lia)) as Hdm.
  pose proof (Z.mod_pos_bound A D HD) as Hrem.
  pose proof (Z.div_pos A D HA HD) as Hq.
  set (q := A / D) in *. set (rem := A mod D) in *.
  assert (Hdiv : forall q' b, q = 2 * q' + b -> 0 <= b < 2 ->
            A / (2 * D) = q' /\ A mod (2 * D) = b * D + rem).
  { intros q' b Hqb Hb.
    assert (Hb' : 0 <= b * D + rem < 2 * D) by nia.
    assert (HA' : A = (2 * D) * q' + (b * D + rem)) by nia.
    split.
    - symmetry. apply (Z.div_unique_pos A (2 * D) q' (b * D + rem)); assumption.
    - symmetry. apply (Z.mod_unique_pos A (2 * D) q' (b * D + rem)); assumption. }
  destruct mrs as [m r s]. simpl in Hm, Hr, Hs. subst m.
  unfold located.
  destruct q as [|[p|p|]|p] eqn:Eq; try lia; simpl shr_1; cbn [shr_m shr_r shr_s].
  - destruct (Hdiv 0 0 ltac:(lia) ltac:(lia)) as [-> ->].
    subst r s. split; [reflexivity|].
    destruct (Z.leb_spec D (2 * rem)), (Z.leb_spec (2 * D) (2 * (0 * D + rem))),
      (Z.eqb_spec rem 0), (Z.eqb_spec (2 * rem) D),
      (Z.eqb_spec (0 * D + rem) 0), (Z.eqb_spec (2 * (0 * D + rem)) (2 * D));
      simpl; split; try reflexivity; lia.
  - destruct (Hdiv (Z.pos p) 1 ltac:(lia) ltac:(lia)) as [-> ->].
    subst r s. split; [reflexivity|].
    destruct (Z.leb_spec D (2 * rem)), (Z.leb_spec (2 * D) (2 * (1 * D + rem))),
      (Z.eqb_spec rem 0), (Z.eqb_spec (2 * rem) D),
      (Z.eqb_spec (1 * D + rem) 0), (Z.eqb_spec (2 * (1 * D + rem)) (2 * D));
      simpl; split; try reflexivity; lia.
  - destruct (Hdiv (Z.pos p) 0 ltac:(lia) ltac:(lia)) as [-> ->].
    subst r s. split; [reflexivity|].
    destruct (Z.leb_spec D (2 * rem)), (Z.leb_spec (2 * D) (2 * (0 * D + rem))),
      (Z.eqb_spec rem 0), (Z.eqb_spec (2 * rem) D),
      (Z.eqb_spec (0 * D + rem) 0), (Z.eqb_spec (2 * (0 * D + rem)) (2 * D));
      simpl; split; try reflexivity; lia.
  - destruct (Hdiv 0 1 ltac:(lia) ltac:(lia)) as [-> ->].
    subst r s. split; [reflexivity|].
    destruct (Z.leb_spec D (2 * rem)), (Z.leb_spec (2 * D) (2 * (1 * D + rem))),
      (Z.eqb_spec rem 0), (Z.eqb_spec (2 * rem) D),
      (Z.eqb_spec (1 * D + rem) 0), (Z.eqb_spec (2 * (1 * D + rem)) (2 * D));
      simpl; split; try reflexivity; lia.
Qed.

Lemma iter_shr_1_located p : forall A D mrs,
  0 <= A -> 0 < D -> located A D mrs ->
  located A (D * 2 ^ Z.pos p) (SpecFloat.iter_pos shr_1 p mrs).
Proof.
  induction p as [p IH|p IH|]; intros A D mrs HA HD Hl; simpl SpecFloat.iter_pos.
  - replace (D * 2 ^ Z.pos p~1) with (2 * D * 2 ^ Z.pos p * 2 ^ Z.pos p).
    + apply IH; [assumption | nia |]. apply IH; [assumption | lia |].
      now apply shr_1_located.
    + replace (Z.pos p~1) with (Z.pos p + Z.pos p + 1) by lia.
      rewrite !Z.pow_add_r, Z.pow_1_r by lia. ring.
  - replace (D * 2 ^ Z.pos p~0) with (D * 2 ^ Z.pos p * 2 ^ Z.pos p).
    + apply IH; [assumption | nia |]. now apply IH.
    + replace (Z.pos p~0) with (Z.pos p + Z.pos p) by lia.
      rewrite Z.pow_add_r by lia. ring.
  - rewrite Z.pow_1_r, Z.mul_comm. now apply shr_1_located.
Qed.

Lemma shr_located A D mrs e n :
  0 <= A -> 0 < D -> 0 <= n -> located A D mrs ->
  located A (D * 2 ^ n) (fst (shr mrs e n)) /\ snd (shr mrs e n) = e + n.
Proof.
  intros HA HD Hn Hl. unfold shr. destruct n as [|p|p]; try lia; simpl.
  - rewrite Z.mul_1_r, Z.add_0_r. now split.
  - split; [|reflexivity]. now apply iter_shr_1_located.
Qed.

(** *** Rounding to nearest *)

Lemma round_located A D mrs :
  0 < D -> located A D mrs ->
  round_nearest_even (shr_m mrs) (loc_of_shr_record mrs) = rne A D.
Proof.
  intros HD (Hm & Hr & Hs). destruct mrs as [m r s]. simpl in *. subst m.
  unfold rne. pose proof (Z.mod_pos_bound A D HD) as Hrem.
  destruct (Z.ltb_spec (2 * (A mod D)) D), (Z.eqb_spec (2 * (A mod D)) D),
    (Z.leb_spec D (2 * (A mod D))), (Z.eqb_spec (A mod D) 0);
    subst r s; simpl; try reflexivity; lia.
Qed.

Lemma rne_error A D :
  0 < D -> - D <= 2 * (rne A D * D) - 2 * A <= D.
Proof.
  intros HD. unfold rne.
  pose proof (Z.div_mod A D ltac:(lia)) as Hdm.
  pose proof (Z.mod_pos_bound A D HD) as Hrem.
  destruct (Z.ltb_spec (2 * (A mod D)) D), (Z.eqb_spec (2 * (A mod D)) D);
    try destruct (Z.even (A / D)); nia.
Qed.

Lemma rne_range A D :
  0 < D -> A / D <= rne A D <= A / D + 1.
Proof.
  intros HD. unfold rne.
  destruct (Z.ltb_spec (2 * (A mod D)) D), (Z.eqb_spec (2 * (A mod D)) D);
    try destruct (Z.even (A / D)); lia.
Qed.

Lemma rne_exact A D : 0 < D -> A mod D = 0 -> rne A D = A / D.
Proof.
  intros HD H0. unfold rne. rewrite H0.
  destruct (Z.ltb_spec (2 * 0) D); [reflexivity | lia].
Qed.

(** *** The rounding step of every operation *)

Lemma fexp_normal d : -1021 <= d -> fexp 53 1024 d = d - 53.
Proof.
  intros H. unfold fexp. change (emin 53 1024) with (-1074). lia.
Qed.

Lemma rne_mantissa A D m :
  0 <= A -> 0 < D -> m = A / D -> 53 <= Zdigits2 m ->
  2 ^ 52 <= rne A (D * 2 ^ (Zdigits2 m - 53)) <= 2 ^ 53.
Proof.
  intros HA HD Hm Hd.
  assert (Hm0 : 0 < m).
  { pose proof (Z.div_pos A D HA HD). destruct m; simpl in Hd; lia. }
  destruct (Zdigits2_bounds m Hm0) as [Hlo Hhi].
  set (n := Zdigits2 m - 53) in *.
  assert (Hn : 0 <= n) by lia.
  assert (Hp : 0 < 2 ^ n) by (apply Z.pow_pos_nonneg; lia).
  pose proof (rne_range A (D * 2 ^ n) ltac:(nia)) as Hr.
  rewrite <- Z.div_div in Hr by lia. rewrite <- Hm in Hr.
  replace (Zdigits2 m - 1) with (52 + n) in Hlo by lia.
  replace (Zdigits2 m) with (53 + n) in Hhi by lia.
  rewrite Z.pow_add_r in Hlo, Hhi by lia.
  assert (2 ^ 52 <= m / 2 ^ n) by (apply Z.div_le_lower_bound; lia).
  assert (m / 2 ^ n < 2 ^ 53) by (apply Z.div_lt_upper_bound; lia).
  lia.
Qed.

(** The rounding step in closed form: the mantissa is [A / (D·2^n)]
    rounded to nearest even, where [n] is the number of bits shifted
    out; a mantissa that rounds up to [2^53] is renormalised. *)
Lemma binary_round_aux_located s m e l A D :
  0 <= A -> 0 < D ->
  located A D (shr_record_of_loc m l) ->
  53 <= Zdigits2 m ->
  -1074 <= Zdigits2 m + e - 53 < 971 ->
  binary_round_aux 53 1024 s m e l =
  let n := Zdigits2 m - 53 in
  let mr := rne A (D * 2 ^ n) in
  if Z.ltb mr (2 ^ 53) then S754_finite s (Z.to_pos mr) (e + n)
  else S754_finite s (Z.to_pos (2 ^ 52)) (e + n + 1).
Proof.
  intros HA HD Hl Hd He. cbv zeta.
  assert (Hm : m = A / D).
  { destruct Hl as (Hm & _). now destruct l as [|[| |]]. }
  pose proof (rne_mantissa A D m HA HD Hm Hd) as Hmr.
  set (n := Zdigits2 m - 53) in *.
  assert (Hn : 0 <= n) by lia.
  set (mr := rne A (D * 2 ^ n)) in *.
  unfold binary_round_aux, shr_fexp.
  rewrite fexp_normal by lia.
  replace (Zdigits2 m + e - 53 - e) with n by lia.
  destruct (shr_located A D (shr_record_of_loc m l) e n HA HD Hn Hl) as [Hl' He'].
  destruct (shr (shr_record_of_loc m l) e n) as [mrs' e']. simpl in Hl', He'.
  subst e'.
  rewrite (round_located A (D * 2 ^ n) mrs') by (assumption || nia).
  fold mr.
  destruct (Z.ltb_spec mr (2 ^ 53)) as [Hlt|Hge].
  - rewrite (Zdigits2_unique mr 53) by lia.
    rewrite fexp_normal by lia.
    replace (53 + (e + n) - 53 - (e + n)) with 0 by lia.
    cbn [shr shr_record_of_loc shr_m].
    destruct mr as [|mm|mm] eqn:Emr; try lia.
    replace (Z.leb (e + n) (1024 - 53)) with true by (symmetry; apply Z.leb_le; lia).
    reflexivity.
  - assert (Emr : mr = 2 ^ 53) by lia. rewrite Emr.
    change (Zdigits2 (2 ^ 53)) with 54.
    rewrite fexp_normal by lia.
    replace (54 + (e + n) - 53 - (e + n)) with 1 by lia.
    change (2 ^ 53) with 9007199254740992.
    cbn [shr shr_record_of_loc shr_m SpecFloat.iter_pos shr_1 orb].
    replace (Z.leb (e + n + 1) (1024 - 53)) with true by (symmetry; apply Z.leb_le; lia).
    reflexivity.
Qed.

(** *** Integers as numbers *)

Lemma located_exact m : located m 1 (shr_record_of_loc m loc_Exact).
Proof.
  unfold located. simpl. rewrite Z.div_1_r, Z.mod_1_r. now repeat split.
Qed.

Lemma binary_round_aux_exact s m e :
  0 < m -> 53 <= Zdigits2 m ->
  -1074 <= Zdigits2 m + e - 53 < 971 ->
  m mod 2 ^ (Zdigits2 m - 53) = 0 ->
  binary_round_aux 53 1024 s m e loc_Exact =
  S754_finite s (Z.to_pos (m / 2 ^ (Zdigits2 m - 53))) (e + (Zdigits2 m - 53)).
Proof.
  intros Hm Hd He Hmod.
  rewrite (binary_round_aux_located s m e loc_Exact m 1)
    by (lia || apply located_exact).
  cbv zeta. rewrite Z.mul_1_l.
  assert (Hp : 0 < 2 ^ (Zdigits2 m - 53)) by (apply Z.pow_pos_nonneg; lia).
  rewrite rne_exact by assumption.
  destruct (Zdigits2_bounds m Hm) as [_ Hhi].
  assert (Hsplit : 2 ^ Zdigits2 m = 2 ^ 53 * 2 ^ (Zdigits2 m - 53)).
  { rewrite <- Z.pow_add_r by lia. f_equal. lia. }
  assert (Hlt : m / 2 ^ (Zdigits2 m - 53) < 2 ^ 53)
    by (apply Z.div_lt_upper_bound; lia).
  apply Z.ltb_lt in Hlt. now rewrite Hlt.
Qed.

Lemma Pos_iter_xO m k : Z.pos (Pos.iter xO m k) = Z.pos m * 2 ^ Z.pos k.
Proof.
  induction k as [|k IH] using Pos.peano_ind.
  - simpl. lia.
  - rewrite Pos.iter_succ, Pos2Z.inj_xO, IH, Pos2Z.inj_succ, Z.pow_succ_r by lia.
    ring.
Qed.

Lemma shl_align_spec mx ex ex' :
  ex' <= ex ->
  Z.pos (fst (shl_align mx ex ex')) = Z.pos mx * 2 ^ (ex - ex') /\
  snd (shl_align mx ex ex') = ex'.
Proof.
  intros H. unfold shl_align.
  destruct (ex' - ex) as [|d|d] eqn:E; try lia; simpl.
  - replace (ex - ex') with 0 by lia. split; lia.
  - rewrite Pos_iter_xO. replace (ex - ex') with (Z.pos d) by lia. split; lia.
Qed.

Lemma Zdigits2_shift n k :
  0 < n -> 0 <= k -> Zdigits2 (n * 2 ^ k) = Zdigits2 n + k.
Proof.
  intros Hn Hk. destruct (Zdigits2_bounds n Hn) as [Hlo Hhi].
  assert (Hd : 0 < Zdigits2 n) by (destruct n; simpl; lia).
  assert (Hp : 0 < 2 ^ k) by (apply Z.pow_pos_nonneg; lia).
  apply Zdigits2_unique; [|lia].
  replace (Zdigits2 n + k - 1) with (Zdigits2 n - 1 + k) by lia.
  rewrite !Z.pow_add_r by lia. nia.
Qed.

Lemma Zdigits2_le n d : 0 < n -> n < 2 ^ d -> 0 <= d -> Zdigits2 n <= d.
Proof.
  intros Hn Hlt Hd. destruct (Zdigits2_bounds n Hn) as [Hlo _].
  destruct (Z.le_gt_cases (Zdigits2 n) d) as [H|H]; [exact H|].
  assert (2 ^ d <= 2 ^ (Zdigits2 n - 1)) by (apply Z.pow_le_mono_r; lia). lia.
Qed.

Lemma Zdigits2_pos n : 0 < n -> 0 < Zdigits2 n.
Proof. destruct n; simpl; lia. Qed.

(** A positive integer [N] below [2^53] written as [M·2^e] is normalised
    to its canonical form without rounding. *)
Lemma binary_normalize_integer M e N :
  0 < N < 2 ^ 53 -> -52 <= e <= 0 -> M = N * 2 ^ (- e) ->
  binary_normalize JsNumber.prec JsNumber.emax M e false = canonical N.
Proof.
  intros HN He HM.
  pose proof (Zdigits2_pos N ltac:(lia)) as HdN.
  pose proof (Zdigits2_le N 53 ltac:(lia) ltac:(lia) ltac:(lia)) as HdN'.
  assert (Hp : 0 < 2 ^ (- e)) by (apply Z.pow_pos_nonneg; lia).
  assert (HM0 : 0 < M) by nia.
  assert (HdM : Zdigits2 M = Zdigits2 N - e).
  { subst M. rewrite Zdigits2_shift by lia. lia. }
  destruct M as [|pM|pM]; try lia.
  unfold binary_normalize, binary_round.
  change (Z.pos (digits2_pos pM)) with (Zdigits2 (Z.pos pM)).
  rewrite HdM. unfold JsNumber.prec, JsNumber.emax.
  rewrite fexp_normal by lia.
  replace (Zdigits2 N - e + e - 53) with (Zdigits2 N - 53) by lia.
  unfold canonical.
  destruct (Z.le_gt_cases (Zdigits2 N - 53) e) as [Hle|Hgt].
  - destruct (shl_align_spec pM e (Zdigits2 N - 53) Hle) as [Hmz Hez].
    destruct (shl_align pM e (Zdigits2 N - 53)) as [mz ez]. simpl in Hmz, Hez.
    subst ez.
    assert (Emz : Z.pos mz = N * 2 ^ (53 - Zdigits2 N)).
    { rewrite Hmz, HM, <- Z.mul_assoc, <- Z.pow_add_r by lia.
      f_equal. f_equal. lia. }
    assert (Hdz : Zdigits2 (Z.pos mz) = 53).
    { rewrite Emz, Zdigits2_shift by lia. lia. }
    rewrite (binary_round_aux_exact false (Z.pos mz) (Zdigits2 N - 53));
      rewrite ?Hdz; try lia.
    + change (2 ^ (53 - 53)) with 1. rewrite Z.div_1_r, Z.add_0_r, Emz.
      reflexivity.
    + change (2 ^ (53 - 53)) with 1. apply Z.mod_1_r.
  - unfold shl_align.
    destruct (Zdigits2 N - 53 - e) as [|k|k] eqn:Ek; try lia.
    assert (Hn : Zdigits2 (Z.pos pM) - 53 = Z.pos k) by lia.
    assert (Hsplit : Z.pos pM = N * 2 ^ (53 - Zdigits2 N) * 2 ^ Z.pos k).
    { rewrite HM, <- Z.mul_assoc, <- Z.pow_add_r by lia.
      f_equal. f_equal. lia. }
    assert (Hpk : 0 < 2 ^ Z.pos k) by (apply Z.pow_pos_nonneg; lia).
    rewrite (binary_round_aux_exact false (Z.pos pM) e);
      rewrite ?Hn; try lia.
    + rewrite Hsplit, Z.div_mul by lia. f_equal. lia.
    + rewrite Hsplit. apply Z.mod_mul. lia.
Qed.

Lemma of_Z_canonical n : 0 < n < 2 ^ 53 -> JsNumber.of_Z n = canonical n.
Proof.
  intros H. unfold JsNumber.of_Z.
  apply binary_normalize_integer; [assumption | lia |].
  change (2 ^ (- 0)) with 1. lia.
Qed.

Lemma canonical_mantissa_eq n :
  0 < n < 2 ^ 53 ->
  Z.pos (Z.to_pos (n * 2 ^ (53 - Zdigits2 n))) = n * 2 ^ (53 - Zdigits2 n) /\
  Zdigits2 (n * 2 ^ (53 - Zdigits2 n)) = 53 /\
  1 <= Zdigits2 n <= 53.
Proof.
  intros H.
  pose proof (Zdigits2_pos n ltac:(lia)) as Hd.
  pose proof (Zdigits2_le n 53 ltac:(lia) ltac:(lia) ltac:(lia)) as Hd'.
  assert (Hp : 0 < 2 ^ (53 - Zdigits2 n)) by (apply Z.pow_pos_nonneg; lia).
  split; [apply Z2Pos.id; nia|].
  split; [rewrite Zdigits2_shift by lia; lia | lia].
Qed.

(** Two counts add up without rounding. *)
Lemma add_of_Z x y :
  0 <= x -> 0 <= y -> x + y < 2 ^ 53 ->
  JsNumber.add (JsNumber.of_Z x) (JsNumber.of_Z y) = JsNumber.of_Z (x + y).
Proof.
  intros Hx Hy Hxy.
  destruct (Z.eq_dec x 0) as [->|Hx0].
  { rewrite Z.add_0_l. destruct (Z.eq_dec y 0) as [->|Hy0]; [reflexivity|].
    now rewrite (of_Z_canonical y) by lia. }
  destruct (Z.eq_dec y 0) as [->|Hy0].
  { rewrite Z.add_0_r. now rewrite (of_Z_canonical x) by lia. }
  rewrite (of_Z_canonical x), (of_Z_canonical y), (of_Z_canonical (x + y)) by lia.
  destruct (canonical_mantissa_eq x ltac:(lia)) as (Hmx & _ & Hdx).
  destruct (canonical_mantissa_eq y ltac:(lia)) as (Hmy & _ & Hdy).
  unfold canonical at 1 2. unfold JsNumber.add, SFadd.
  set (ex := Zdigits2 x - 53) in *. set (ey := Zdigits2 y - 53) in *.
  set (ez := Z.min ex ey).
  destruct (shl_align_spec (Z.to_pos (x * 2 ^ (53 - Zdigits2 x))) ex ez
              ltac:(lia)) as [Hax _].
  destruct (shl_align_spec (Z.to_pos (y * 2 ^ (53 - Zdigits2 y))) ey ez
              ltac:(lia)) as [Hay _].
  cbn [cond_Zopp]. rewrite Hax, Hay, Hmx, Hmy.
  apply binary_normalize_integer; [lia | lia |].
  rewrite <- !Z.mul_assoc, <- !Z.pow_add_r by lia.
  replace (53 - Zdigits2 x + (ex - ez)) with (- ez) by lia.
  replace (53 - Zdigits2 y + (ey - ez)) with (- ez) by lia.
  ring.
Qed.

(** *** The value of a number *)

Lemma pow2_pos e : (0 < 2 ^ e)%Q.
Proof. now apply Qpower_0_lt. Qed.

Lemma pow2_add a b : (2 ^ (a + b) == 2 ^ a * 2 ^ b)%Q.
Proof. now apply Qpower_plus. Qed.

Lemma pow2_inject n : 0 <= n -> (inject_Z (2 ^ n) == 2 ^ n)%Q.
Proof. intros H. now rewrite Zpower_Qpower. Qed.

Lemma value_canonical n :
  0 < n < 2 ^ 53 -> (value (canonical n) == inject_Z n)%Q.
Proof.
  intros H. destruct (canonical_mantissa_eq n H) as (Hm & _ & Hd).
  unfold canonical, value. rewrite Hm, inject_Z_mult, pow2_inject by lia.
  rewrite Qmult_1_l, <- Qmult_assoc, <- pow2_add.
  replace (53 - Zdigits2 n + (Zdigits2 n - 53)) with 0 by lia.
  simpl. ring.
Qed.

Lemma normalNumber_canonical n : 0 < n < 2 ^ 53 -> normalNumber 52 (canonical n).
Proof.
  intros H. destruct (canonical_mantissa_eq n H) as (Hm & Hd & Hr).
  exists (Z.to_pos (n * 2 ^ (53 - Zdigits2 n))), (Zdigits2 n - 53).
  split; [reflexivity|]. rewrite Hm. split; [exact Hd | lia].
Qed.

Lemma normalNumber_weaken E E' x : E <= E' -> normalNumber E x -> normalNumber E' x.
Proof.
  intros H (m & e & -> & Hd & He). exists m, e. repeat split; (assumption || lia).
Qed.

Lemma value_normal_pos E x : normalNumber E x -> (0 < value x)%Q.
Proof.
  intros (m & e & -> & _ & _). simpl. rewrite Qmult_1_l.
  apply Qmult_lt_0_compat; [reflexivity | apply pow2_pos].
Qed.

(** The rounding step in terms of values: the result is the value
    [(A/D)·2^e] rounded. *)
Lemma binary_round_aux_value m e l A D :
  0 <= A -> 0 < D ->
  located A D (shr_record_of_loc m l) ->
  53 <= Zdigits2 m ->
  -1074 <= Zdigits2 m + e - 53 < 971 ->
  exists mf ef,
    binary_round_aux 53 1024 false m e l = S754_finite false mf ef /\
    Zdigits2 (Z.pos mf) = 53 /\
    e + (Zdigits2 m - 53) <= ef <= e + (Zdigits2 m - 53) + 1 /\
    rounds (inject_Z A / inject_Z D * 2 ^ e)
           (inject_Z (Z.pos mf) * 2 ^ ef).
Proof.
  intros HA HD Hl Hd He.
  rewrite (binary_round_aux_located false m e l A D) by assumption.
  cbv zeta.
  assert (Hm : m = A / D).
  { destruct Hl as (Hm & _). now destruct l as [|[| |]]. }
  pose proof (rne_mantissa A D m HA HD Hm Hd) as Hmr.
  set (n := Zdigits2 m - 53) in *.
  assert (Hn : 0 <= n) by lia.
  assert (Hpn : 0 < 2 ^ n) by (apply Z.pow_pos_nonneg; lia).
  pose proof (rne_error A (D * 2 ^ n) ltac:(nia)) as Herr.
  set (mr := rne A (D * 2 ^ n)) in *.
  (* the value of the result, whichever way it is normalised *)
  assert (Hval : forall mf ef,
            (inject_Z (Z.pos mf) * 2 ^ ef == inject_Z mr * 2 ^ (e + n))%Q ->
            rounds (inject_Z A / inject_Z D * 2 ^ e)
                   (inject_Z (Z.pos mf) * 2 ^ ef)).
  { intros mf ef Heq. unfold rounds, halfUlp. rewrite Heq.
    rewrite (pow2_add e n), <- (pow2_inject n Hn).
    pose proof (pow2_pos e) as HE. set (P := (2 ^ e)%Q) in *.
    assert (HDq : (0 < inject_Z D)%Q) by (rewrite <- (Zlt_Qlt 0); exact HD).
    assert (Hlo : (inject_Z (2 ^ 52 * (D * 2 ^ n)) <= inject_Z (mr * (D * 2 ^ n)))%Q).
    { rewrite <- Zle_Qle. nia. }
    assert (H1 : (inject_Z (2 * A) <= inject_Z (2 * (mr * (D * 2 ^ n)) + D * 2 ^ n))%Q).
    { rewrite <- Zle_Qle. lia. }
    assert (H2 : (inject_Z (2 * (mr * (D * 2 ^ n))) <= inject_Z (2 * A + D * 2 ^ n))%Q).
    { rewrite <- Zle_Qle. lia. }
    rewrite ?inject_Z_plus, ?inject_Z_mult in H1, H2.
    change (inject_Z 2) with (2 # 1)%Q in H1, H2.
    rewrite !inject_Z_mult in Hlo.
    set (a := inject_Z A) in *. set (d := inject_Z D) in *.
    set (N := inject_Z (2 ^ n)) in *. set (r := inject_Z mr) in *.
    change (inject_Z (2 ^ 52)) with (4503599627370496 # 1)%Q in Hlo.
    assert (Hx : (a / d * P == (a * P) / d)%Q) by (field; lra).
    rewrite Hx.
    split.
    - apply Qle_shift_div_l; [exact HDq|].
      match goal with |- (?L <= _)%Q =>
        assert (Hg : (L == ((1 - (1 # 9007199254740992)) * (r * (d * N))) * P)%Q)
          by ring; rewrite Hg end.
      apply Qmult_le_compat_r; lra.
    - apply Qle_shift_div_r; [exact HDq|].
      match goal with |- (_ <= ?R)%Q =>
        assert (Hg : (R == ((1 + (1 # 9007199254740992)) * (r * (d * N))) * P)%Q)
          by ring; rewrite Hg end.
      apply Qmult_le_compat_r; lra. }
  destruct (Z.ltb_spec mr (2 ^ 53)) as [Hlt|Hge].
  - exists (Z.to_pos mr), (e + n).
    assert (Hid : Z.pos (Z.to_pos mr) = mr) by (apply Z2Pos.id; lia).
    split; [reflexivity|].
    split; [rewrite Hid; apply Zdigits2_unique; lia|]. split; [lia|].
    apply Hval. now rewrite Hid.
  - exists (Z.to_pos (2 ^ 52)), (e + n + 1).
    split; [reflexivity|]. split; [reflexivity|]. split; [lia|].
    apply Hval. replace mr with (2 ^ 53) by lia.
    rewrite pow2_add.
    change (inject_Z (Z.pos (Z.to_pos (2 ^ 52)))) with (4503599627370496 # 1)%Q.
    change (inject_Z (2 ^ 53)) with (9007199254740992 # 1)%Q.
    change (2 ^ 1)%Q with (2 # 1)%Q. ring.
Qed.

Lemma rounds_compat x x' y y' :
  (x == x')%Q -> (y == y')%Q -> rounds x y -> rounds x' y'.
Proof. unfold rounds. intros Hx Hy. now rewrite Hx, Hy. Qed.

Lemma Zdigits2_ge n d : 0 < n -> 2 ^ (d - 1) <= n -> d <= Zdigits2 n.
Proof.
  intros Hn Hlo. destruct (Zdigits2_bounds n Hn) as [_ Hhi].
  destruct (Z.le_gt_cases d (Zdigits2 n)) as [H|H]; [exact H|].
  pose proof (Zdigits2_pos n Hn).
  assert (2 ^ Zdigits2 n <= 2 ^ (d - 1)) by (apply Z.pow_le_mono_r; lia). lia.
Qed.

(** *** Division *)

Lemma new_location_located nb k q A :
  0 < nb -> 0 <= k < nb -> A = nb * q + k ->
  located A nb (shr_record_of_loc q (new_location nb k)).
Proof.
  intros Hnb Hk HA.
  assert (Hq : A / nb = q) by (symmetry; now apply (Z.div_unique_pos A nb q k)).
  assert (Hr : A mod nb = k) by (symmetry; now apply (Z.mod_unique_pos A nb q k)).
  unfold located. rewrite Hq, Hr.
  unfold new_location, new_location_even, new_location_odd.
  destruct (Z.even nb) eqn:Heven.
  - destruct (Z.eqb_spec k 0) as [->|Hk0]; simpl.
    + destruct (Z.leb_spec nb 0), (Z.eqb_spec 0 nb); repeat split; lia.
    + change (Z.pos 2 * k) with (2 * k).
      destruct (Z.compare_spec (2 * k) nb); simpl;
        destruct (Z.leb_spec nb (2 * k)), (Z.eqb_spec (2 * k) nb),
          (Z.eqb_spec k 0); repeat split; lia.
  - assert (Hodd : 2 * k <> nb).
    { intros <-. rewrite Z.even_mul in Heven. discriminate. }
    destruct (Z.eqb_spec k 0) as [->|Hk0]; simpl.
    + destruct (Z.leb_spec nb 0), (Z.eqb_spec 0 nb); repeat split; lia.
    + change (Z.pos 2 * k + Z.pos 1) with (2 * k + 1).
      destruct (Z.compare_spec (2 * k + 1) nb); simpl;
        destruct (Z.leb_spec nb (2 * k)), (Z.eqb_spec (2 * k) nb),
          (Z.eqb_spec k 0); repeat split; lia.
Qed.

Lemma SFdiv_core_binary_normal mx ex my ey :
  Zdigits2 (Z.pos mx) = 53 -> Zdigits2 (Z.pos my) = 53 ->
  -1021 <= ex - ey ->
  SFdiv_core_binary 53 1024 (Z.pos mx) ex (Z.pos my) ey =
  (Z.pos mx * 2 ^ 53 / Z.pos my, ex - ey - 53,
   new_location (Z.pos my) ((Z.pos mx * 2 ^ 53) mod Z.pos my)).
Proof.
  intros Hdx Hdy He. unfold SFdiv_core_binary. rewrite Hdx, Hdy.
  replace (53 + ex - (53 + ey)) with (ex - ey) by lia.
  rewrite fexp_normal by lia.
  rewrite Z.min_l by lia.
  replace (ex - ey - (ex - ey - 53)) with 53 by lia.
  cbv zeta iota. rewrite Z.shiftl_mul_pow2 by lia.
  unfold Z.div, Z.modulo.
  now destruct (Z.div_eucl (Z.pos mx * 2 ^ 53) (Z.pos my)).
Qed.

(** The quotient of two normal numbers is the exact quotient rounded. *)
Lemma div_value E x y :
  normalNumber E x -> normalNumber E y -> 0 <= E <= 400 ->
  normalNumber (2 * E + 54) (JsNumber.div x y) /\
  rounds (value x / value y) (value (JsNumber.div x y)).
Proof.
  intros (mx & ex & -> & Hdx & Hex) (my & ey & -> & Hdy & Hey) HE.
  unfold JsNumber.div, SFdiv, JsNumber.prec, JsNumber.emax.
  rewrite SFdiv_core_binary_normal by (assumption || lia).
  cbn [xorb].
  destruct (Zdigits2_bounds (Z.pos mx) ltac:(lia)) as [Hxlo Hxhi].
  destruct (Zdigits2_bounds (Z.pos my) ltac:(lia)) as [Hylo Hyhi].
  rewrite Hdx in Hxlo, Hxhi. rewrite Hdy in Hylo, Hyhi.
  change (2 ^ (53 - 1)) with (2 ^ 52) in Hxlo, Hylo.
  set (A := Z.pos mx * 2 ^ 53). set (D := Z.pos my).
  assert (HD : 0 < D) by (unfold D; lia).
  assert (HA : 0 <= A) by (unfold A; lia).
  pose proof (Z.div_mod A D ltac:(lia)) as Hdm.
  pose proof (Z.mod_pos_bound A D HD) as Hrem.
  assert (Hqlo : 2 ^ 52 <= A / D).
  { apply Z.div_le_lower_bound; [exact HD|]. unfold A, D.
    change (2 ^ 53) with 9007199254740992 in *.
    change (2 ^ 52) with 4503599627370496 in *. nia. }
  assert (Hqhi : A / D < 2 ^ 54).
  { apply Z.div_lt_upper_bound; [exact HD|]. unfold A, D.
    change (2 ^ 54) with 18014398509481984.
    change (2 ^ 53) with 9007199254740992 in *.
    change (2 ^ 52) with 4503599627370496 in *. nia. }
  assert (Hq0 : 0 < A / D) by (change (2 ^ 52) with 4503599627370496 in Hqlo; lia).
  pose proof (Zdigits2_ge (A / D) 53 Hq0 Hqlo) as Hdlo.
  pose proof (Zdigits2_le (A / D) 54 Hq0 Hqhi ltac:(lia)) as Hdhi.
  destruct (binary_round_aux_value (A / D) (ex - ey - 53)
              (new_location D (A mod D)) A D HA HD)
    as (mf & ef & -> & Hdf & Hef & Hr).
  { apply new_location_located; [exact HD | exact Hrem | lia]. }
  { exact Hdlo. }
  { lia. }
  split.
  - exists mf, ef. split; [reflexivity|]. split; [exact Hdf | lia].
  - refine (rounds_compat _ _ _ _ _ _ Hr); [|simpl; ring].
    unfold A, D. simpl value.
    rewrite inject_Z_mult.
    replace (ex - ey - 53) with (ex + (- ey + - 53)) by lia.
    rewrite !pow2_add, Qpower_opp.
    change (inject_Z (2 ^ 53)) with (9007199254740992 # 1)%Q.
    change (2 ^ (-53))%Q with (1 # 9007199254740992)%Q.
    pose proof (pow2_pos ey).
    field. split; [lra|]. 
    assert (0 < inject_Z (Z.pos my))%Q by (rewrite <- (Zlt_Qlt 0); lia). lra.
Qed.

(** *** Multiplication *)

(** The product of two normal numbers is the exact product rounded. *)
Lemma mul_value E x y :
  normalNumber E x -> normalNumber E y -> 0 <= E <= 400 ->
  normalNumber (2 * E + 54) (JsNumber.mul x y) /\
  rounds (value x * value y) (value (JsNumber.mul x y)).
Proof.
  intros (mx & ex & -> & Hdx & Hex) (my & ey & -> & Hdy & Hey) HE.
  unfold JsNumber.mul, SFmul, JsNumber.prec, JsNumber.emax.
  cbn [xorb].
  destruct (Zdigits2_bounds (Z.pos mx) ltac:(lia)) as [Hxlo Hxhi].
  destruct (Zdigits2_bounds (Z.pos my) ltac:(lia)) as [Hylo Hyhi].
  rewrite Hdx in Hxlo, Hxhi. rewrite Hdy in Hylo, Hyhi.
  change (2 ^ (53 - 1)) with 4503599627370496 in Hxlo, Hylo.
  change (2 ^ 53) with 9007199254740992 in Hxhi, Hyhi.
  set (A := Z.pos (mx * my)).
  assert (HA : A = Z.pos mx * Z.pos my) by (unfold A; lia).
  assert (Hlo : 2 ^ (105 - 1) <= A).
  { change (2 ^ (105 - 1)) with (4503599627370496 * 4503599627370496). nia. }
  assert (Hhi : A < 2 ^ 106).
  { change (2 ^ 106) with (9007199254740992 * 9007199254740992). nia. }
  pose proof (Zdigits2_ge A 105 ltac:(lia) Hlo) as Hdlo.
  pose proof (Zdigits2_le A 106 ltac:(lia) Hhi ltac:(lia)) as Hdhi.
  destruct (binary_round_aux_value A (ex + ey) loc_Exact A 1
              ltac:(lia) ltac:(lia) (located_exact A))
    as (mf & ef & -> & Hdf & Hef & Hr); [lia | lia |].
  split.
  - exists mf, ef. split; [reflexivity|]. split; [exact Hdf | lia].
  - refine (rounds_compat _ _ _ _ _ _ Hr); [|simpl; ring].
    rewrite HA. simpl value. rewrite inject_Z_mult, pow2_add.
    change (inject_Z 1) with 1%Q. field.
Qed.

(** *** [Math.round] *)

Lemma Math_round_finite m e K :
  e < 0 ->
  (2 * K - 1) * 2 ^ (- e) <= 2 * Z.pos m < (2 * K + 1) * 2 ^ (- e) ->
  JsNumber.Math_round (S754_finite false m e) = JsNumber.of_Z K.
Proof.
  intros He H. unfold JsNumber.Math_round.
  destruct (Z.leb_spec 0 e) as [Hge|_]; [lia|]. cbv zeta.
  rewrite andb_false_r. f_equal.
  assert (Hd : 0 < 2 ^ (- e)) by (apply Z.pow_pos_nonneg; lia).
  set (d := 2 ^ (- e)) in *.
  symmetry.
  apply (Z.div_unique_pos _ _ K (2 * Z.pos m + d - 2 * d * K)); nia.
Qed.

Lemma pow2_neg e : e < 0 -> (2 ^ e == / inject_Z (2 ^ (- e)))%Q.
Proof.
  intros He. rewrite pow2_inject by lia.
  rewrite <- Qpower_opp. now rewrite Z.opp_involutive.
Qed.

(** A normal number within one half of the integer [K] is rounded to
    [K] by [Math.round]. *)
Lemma Math_round_value E x K :
  normalNumber E x -> 0 <= K <= 1000 ->
  (inject_Z K - (1 # 2) <= value x)%Q ->
  (value x < inject_Z K + (1 # 2))%Q ->
  JsNumber.Math_round x = JsNumber.of_Z K.
Proof.
  intros (m & e & -> & Hd & _) HK Hlo Hhi. simpl value in Hlo, Hhi.
  rewrite Qmult_1_l in Hlo, Hhi.
  destruct (Zdigits2_bounds (Z.pos m) ltac:(lia)) as [Hmlo _].
  rewrite Hd in Hmlo. change (2 ^ (53 - 1)) with 4503599627370496 in Hmlo.
  assert (Hmq : (4503599627370496 <= inject_Z (Z.pos m))%Q).
  { change 4503599627370496%Q with (inject_Z 4503599627370496).
    now rewrite <- Zle_Qle. }
  assert (HKq : (inject_Z K <= 1000)%Q).
  { change 1000%Q with (inject_Z 1000). rewrite <- Zle_Qle. lia. }
  assert (He : e < 0).
  { destruct (Z.lt_ge_cases e 0) as [H|H]; [exact H|exfalso].
    assert (H1 : (1 <= 2 ^ e)%Q) by (apply Qpower_1_le; [lra | exact H]).
    assert (H2 : (inject_Z (Z.pos m) * 1 <= inject_Z (Z.pos m) * 2 ^ e)%Q)
      by (apply Qmult_le_l; lra).
    lra. }
  apply Math_round_finite; [exact He|].
  assert (Hdz : 0 < 2 ^ (- e)) by (apply Z.pow_pos_nonneg; lia).
  rewrite (pow2_neg e He) in Hlo, Hhi.
  set (d := 2 ^ (- e)) in *.
  assert (Hdq : (0 < inject_Z d)%Q) by (rewrite <- (Zlt_Qlt 0); exact Hdz).
  assert (Hm : (inject_Z (Z.pos m) == inject_Z (Z.pos m) * / inject_Z d * inject_Z d)%Q)
    by (field; lra).
  set (v := (inject_Z (Z.pos m) * / inject_Z d)%Q) in *.
  assert (H1 : ((inject_Z K - (1 # 2)) * inject_Z d <= v * inject_Z d)%Q)
    by (apply Qmult_le_compat_r; lra).
  assert (H2 : (v * inject_Z d < (inject_Z K + (1 # 2)) * inject_Z d)%Q)
    by (apply Qmult_lt_compat_r; lra).
  rewrite <- Hm in H1, H2.
  assert (Hz1 : 2 * (K * d) <= 2 * Z.pos m + d).
  { rewrite Zle_Qle, ?inject_Z_plus, ?inject_Z_mult.
    change (inject_Z 2) with 2%Q. lra. }
  assert (Hz2 : 2 * Z.pos m < 2 * (K * d) + d).
  { rewrite Zlt_Qlt, ?inject_Z_plus, ?inject_Z_mult.
    change (inject_Z 2) with 2%Q. lra. }
  nia.
Qed.

(** *** The percentage of any class *)

(** [100·P/T] is halfway between two integers exactly when
    [200·P + T] is a multiple of [2·T]. *)
Lemma exactHalf_iff P T :
  0 < T -> 0 <= P ->
  (200 * P) mod (2 * T) = T <->
  200 * P + T = 2 * T * ((200 * P + T) / (2 * T)).
Proof.
  intros HT HP.
  pose proof (Z.div_mod (200 * P + T) (2 * T) ltac:(lia)) as Hdm.
  pose proof (Z.mod_pos_bound (200 * P + T) (2 * T) ltac:(lia)) as Hr.
  set (K := (200 * P + T) / (2 * T)) in *.
  set (r := (200 * P + T) mod (2 * T)) in *.
  split.
  - intros Hmod.
    pose proof (Z.div_mod (200 * P) (2 * T) ltac:(lia)) as Hdm'.
    rewrite Hmod in Hdm'.
    assert (Hr0 : r = 0).
    { unfold r. replace (200 * P + T) with ((200 * P / (2 * T) + 1) * (2 * T)) by lia.
      apply Z.mod_mul. lia. }
    lia.
  - intros HK. symmetry.
    apply (Z.mod_unique_pos _ _ (K - 1)); lia.
Qed.

(** The two roundings move [100·p/t] by less than [2^-45], and a value
    that is not halfway between two integers is at least [1/(2t)] away
    from the half: for [t <= 2^40] the integer [Math.round] returns is the
    exactly rounded one.  At a half it is one of the two neighbours. *)
Lemma roundedPercentage_general p t :
  (0 < p <= t)%nat -> Z.of_nat t <= 2 ^ 40 ->
  let K := (200 * Z.of_nat p + Z.of_nat t) / (2 * Z.of_nat t) in
  (exactHalf p t = false -> roundedPercentage p t = JsNumber.of_Z K) /\
  (exactHalf p t = true ->
     roundedPercentage p t = JsNumber.of_Z K \/
     roundedPercentage p t = JsNumber.of_Z (K - 1)).
Proof.
  intros Hpt Ht K.
  set (P := Z.of_nat p) in *. set (T := Z.of_nat t) in *.
  assert (HP : 0 < P <= T) by lia.
  change (2 ^ 40) with 1099511627776 in Ht.
  assert (HP53 : 0 < P < 2 ^ 53) by (change (2 ^ 53) with 9007199254740992; lia).
  assert (HT53 : 0 < T < 2 ^ 53) by (change (2 ^ 53) with 9007199254740992; lia).
  assert (H100 : 0 < 100 < 2 ^ 53) by (change (2 ^ 53) with 9007199254740992; lia).
  unfold roundedPercentage, JsNumber.of_nat. fold P T.
  rewrite (of_Z_canonical P HP53), (of_Z_canonical T HT53),
    (of_Z_canonical 100 H100).
  destruct (div_value 52 (canonical P) (canonical T)
              (normalNumber_canonical P HP53) (normalNumber_canonical T HT53)
              ltac:(lia)) as [Hn1 Hr1].
  set (r1 := JsNumber.div (canonical P) (canonical T)) in *.
  destruct (mul_value 158 r1 (canonical 100) Hn1
              (normalNumber_weaken 52 158 _ ltac:(lia)
                 (normalNumber_canonical 100 H100))
              ltac:(lia)) as [Hn2 Hr2].
  set (r2 := JsNumber.mul r1 (canonical 100)) in *.
  pose proof (value_normal_pos _ _ Hn1) as Hy1.
  pose proof (value_normal_pos _ _ Hn2) as Hy2.
  unfold rounds, halfUlp in Hr1, Hr2.
  rewrite (value_canonical P HP53), (value_canonical T HT53) in Hr1.
  rewrite (value_canonical 100 H100) in Hr2.
  change (inject_Z 100) with 100%Q in Hr2.
  (* the exact quotient *)
  assert (HTq : (0 < inject_Z T)%Q) by (rewrite <- (Zlt_Qlt 0); lia).
  assert (HTq' : (inject_Z T <= 1099511627776)%Q).
  { change 1099511627776%Q with (inject_Z 1099511627776).
    now rewrite <- Zle_Qle. }
  assert (Hx1 : (inject_Z P / inject_Z T <= 1)%Q).
  { apply Qle_shift_div_r; [exact HTq|]. rewrite Qmult_1_l, <- Zle_Qle. lia. }
  (* the rounded integer *)
  pose proof (Z.div_mod (200 * P + T) (2 * T) ltac:(lia)) as Hdm.
  pose proof (Z.mod_pos_bound (200 * P + T) (2 * T) ltac:(lia)) as Hrem.
  fold K in Hdm.
  assert (HK : 0 <= K <= 100).
  { split; [apply Z.div_pos; lia|].
    apply Z.lt_succ_r. apply Z.div_lt_upper_bound; lia. }
  assert (Hlo : 2 * (K * T) <= 200 * P + T) by lia.
  assert (Hhi : 200 * P + T + 1 <= 2 * (K * T) + 2 * T) by lia.
  assert (Hhiq : (100 * (inject_Z P / inject_Z T)
                  <= inject_Z K + (1 # 2) - (1 # 2199023255552))%Q).
  { assert (Hg : (100 * (inject_Z P / inject_Z T)
                  == (100 * inject_Z P) / inject_Z T)%Q) by (field; lra).
    rewrite Hg. apply Qle_shift_div_r; [exact HTq|].
    rewrite Zle_Qle, ?inject_Z_plus, ?inject_Z_mult in Hhi.
    change (inject_Z 200) with 200%Q in Hhi. change (inject_Z 2) with 2%Q in Hhi.
    change (inject_Z 1) with 1%Q in Hhi. lra. }
  pose proof (exactHalf_iff P T ltac:(lia) ltac:(lia)) as Htie. fold K in Htie.
  assert (Heh : exactHalf p t = Z.eqb ((200 * P) mod (2 * T)) T).
  { unfold exactHalf. fold P T. destruct (Nat.eqb_spec t 0); [lia | reflexivity]. }
  rewrite Heh.
  split; intros Hh.
  - apply Z.eqb_neq in Hh.
    assert (Hlo' : 2 * (K * T) + 1 <= 200 * P + T) by lia.
    assert (Hloq : (inject_Z K - (1 # 2) + (1 # 2199023255552)
                    <= 100 * (inject_Z P / inject_Z T))%Q).
    { assert (Hg : (100 * (inject_Z P / inject_Z T)
                    == (100 * inject_Z P) / inject_Z T)%Q) by (field; lra).
      rewrite Hg. apply Qle_shift_div_l; [exact HTq|].
      rewrite Zle_Qle, ?inject_Z_plus, ?inject_Z_mult in Hlo'.
      change (inject_Z 200) with 200%Q in Hlo'.
      change (inject_Z 2) with 2%Q in Hlo'.
      change (inject_Z 1) with 1%Q in Hlo'. lra. }
    apply (Math_round_value _ _ K Hn2); [lia | lra | lra].
  - apply Z.eqb_eq in Hh. apply Htie in Hh.
    assert (Hloq : (inject_Z K - (1 # 2) <= 100 * (inject_Z P / inject_Z T))%Q).
    { assert (Hg : (100 * (inject_Z P / inject_Z T)
                    == (100 * inject_Z P) / inject_Z T)%Q) by (field; lra).
      rewrite Hg. apply Qle_shift_div_l; [exact HTq|].
      rewrite Zle_Qle, ?inject_Z_plus, ?inject_Z_mult in Hlo.
      change (inject_Z 200) with 200%Q in Hlo.
      change (inject_Z 2) with 2%Q in Hlo. lra. }
    assert (Hhiq' : (100 * (inject_Z P / inject_Z T) <= inject_Z K - (1 # 2))%Q).
    { assert (Hg : (100 * (inject_Z P / inject_Z T)
                    == (100 * inject_Z P) / inject_Z T)%Q) by (field; lra).
      rewrite Hg. apply Qle_shift_div_r; [exact HTq|].
      assert (Hh' : 200 * P + T <= 2 * (K * T)) by lia.
      rewrite Zle_Qle, ?inject_Z_plus, ?inject_Z_mult in Hh'.
      change (inject_Z 200) with 200%Q in Hh'.
      change (inject_Z 2) with 2%Q in Hh'. lra. }
    assert (HK1 : 1 <= K) by nia.
    destruct (Qlt_le_dec (value r2) (inject_Z K - (1 # 2))) as [Hlt|Hge].
    + assert (HKm : (inject_Z (K - 1) == inject_Z K - 1)%Q).
      { unfold Z.sub. rewrite inject_Z_plus, inject_Z_opp. reflexivity. }
      right. apply (Math_round_value _ _ (K - 1) Hn2); [lia | |];
        rewrite HKm; lra.
    + left. apply (Math_round_value _ _ K Hn2); [lia | lra | lra].
Qed.


(** *** The observer on any counts *)

Lemma total_general p a l :
  Z.of_nat (p + a + l) < 2 ^ 53 ->
  JsNumber.add (JsNumber.add (JsNumber.of_nat p) (JsNumber.of_nat a))
    (JsNumber.of_nat l) =
  JsNumber.of_nat (p + a + l).
Proof.
  intros H. unfold JsNumber.of_nat.
  rewrite add_of_Z by lia. rewrite add_of_Z by lia.
  f_equal. lia.
Qed.

Lemma total_tests t :
  Z.of_nat t < 2 ^ 53 ->
  JsNumber.gt (JsNumber.of_nat t) (JsNumber.of_Z 0) = negb (Nat.eqb t 0) /\
  JsNumber.strictEq (JsNumber.of_nat t) (JsNumber.of_Z 0) = Nat.eqb t 0.
Proof.
  intros H. destruct t as [|t]; [split; reflexivity|].
  unfold JsNumber.of_nat. rewrite of_Z_canonical by lia.
  split; reflexivity.
Qed.

(** The observer and [calculateAttendancePercentage] compute the same
    number from the published counts, whatever the size of the class. *)
Lemma handleAttendanceStatsChange_general p a l :
  Z.of_nat (p + a + l) < 2 ^ 53 ->
  let total := (p + a + l)%nat in
  percentage (handleAttendanceStatsChange (mkStats p a l)) =
  calculateAttendancePercentage (JsNumber.of_nat p) (JsNumber.of_nat total) /\
  percentage (handleAttendanceStatsChange (mkStats p a l)) =
  if Nat.eqb total 0 then JsNumber.of_Z 0 else roundedPercentage p total.
Proof.
  intros H total.
  unfold handleAttendanceStatsChange, calculateAttendancePercentage.
  cbn [percentage present absent late].
  rewrite (total_general p a l H). fold total.
  destruct (total_tests total H) as [-> ->].
  destruct (Nat.eqb total 0); split; reflexivity.
Qed.

Lemma roundedPercentage_none_present t :
  0 < Z.of_nat t < 2 ^ 53 -> roundedPercentage 0 t = JsNumber.of_Z 0.
Proof.
  intros H. unfold roundedPercentage, JsNumber.of_nat.
  rewrite (of_Z_canonical (Z.of_nat t)) by lia. reflexivity.
Qed.

Lemma countInRange_total p a l :
  countInRange p -> countInRange a -> countInRange l ->
  Z.of_nat (p + a + l) <= 2 ^ 40.
Proof.
  unfold countInRange, maxArrayLength.
  change (2 ^ 32) with 4294967296. change (2 ^ 40) with 1099511627776. lia.
Qed.

(** C7, as stated, fails.  With 23 students present and 17 absent the
    exact value of [present / total × 100] is 57.5, which rounds to 58;
    in binary64 the quotient 23/40 times 100 is 57.49999999999999 and
    [Math.round] gives 57. *)
Lemma C7_half_is_rounded_down :
  percentage (handleAttendanceStatsChange (mkStats 23 17 0)) = JsNumber.of_Z 57 /\
  calculateAttendancePercentage (JsNumber.of_nat 23) (JsNumber.of_nat 40)
    = JsNumber.of_Z 57 /\
  (inject_Z 23 / inject_Z 40 * inject_Z 100 == 115 # 2)%Q /\
  spec_percentage 23 17 0 = 58.
Proof. vm_compute. repeat split; reflexivity. Qed.

(** The same quotient in a class of 240. *)
Example half_is_rounded_down_in_a_large_class :
  percentage (handleAttendanceStatsChange (mkStats 138 100 2)) = JsNumber.of_Z 57 /\
  spec_percentage 138 100 2 = 58.
Proof. vm_compute. split; reflexivity. Qed.

Lemma percentage_5_2_1 :
  percentage (handleAttendanceStatsChange (mkStats 5 2 1)) = JsNumber.of_Z 63.
Proof. vm_compute. reflexivity. Qed.

(** C7, amended: for all counts the table can publish (each a sum of two
    array lengths) the percentage is [0] when nothing is marked and
    otherwise [present / (present+absent+late) × 100] rounded to the
    nearest integer, except that a value exactly halfway between two
    integers is rounded to one of the two: up where the binary64 product
    is exact (5, 2, 1 gives 63), down where it falls just below the half.
    The denominator is the sum of the three counts; the roster is no
    input.  [calculateAttendancePercentage] on the same counts gives the
    same number. *)
Theorem C7_percentage_of_marked_students p a l :
  countInRange p -> countInRange a -> countInRange l ->
  let total := (p + a + l)%nat in
  let pct := percentage (handleAttendanceStatsChange (mkStats p a l)) in
  (total = 0%nat -> pct = JsNumber.of_Z 0) /\
  (exactHalf p total = false -> pct = JsNumber.of_Z (spec_percentage p a l)) /\
  (exactHalf p total = true ->
     pct = JsNumber.of_Z (spec_percentage p a l) \/
     pct = JsNumber.of_Z (spec_percentage p a l - 1)) /\
  (p = 5%nat -> a = 2%nat -> l = 1%nat -> pct = JsNumber.of_Z 63) /\
  pct = calculateAttendancePercentage (JsNumber.of_nat p) (JsNumber.of_nat total).
Proof.
  intros Hp Ha Hl total pct.
  pose proof (countInRange_total p a l Hp Ha Hl) as Hb. fold total in Hb.
  assert (H53 : Z.of_nat total < 2 ^ 53).
  { change (2 ^ 40) with 1099511627776 in Hb.
    change (2 ^ 53) with 9007199254740992. lia. }
  assert (H521 : p = 5%nat -> a = 2%nat -> l = 1%nat -> pct = JsNumber.of_Z 63).
  { intros -> -> ->. exact percentage_5_2_1. }
  destruct (handleAttendanceStatsChange_general p a l H53) as [Hcalc Hpct].
  fold total pct in Hcalc, Hpct.
  rewrite spec_percentage_closed_form. fold total. cbv zeta.
  destruct (Nat.eqb_spec total 0) as [H0|H0].
  - rewrite H0 in *. simpl. unfold exactHalf. simpl. repeat split; auto.
  - destruct (Z.eqb_spec (Z.of_nat total) 0) as [Hz|_]; [lia|].
    split; [intros; contradiction|].
    destruct (Nat.eq_dec p 0%nat) as [->|Hp0].
    + rewrite roundedPercentage_none_present in Hpct by lia.
      assert (Hk : (200 * Z.of_nat 0 + Z.of_nat total) / (2 * Z.of_nat total) = 0)
        by (apply Z.div_small; lia).
      assert (Hh : exactHalf 0 total = false).
      { unfold exactHalf. change (200 * Z.of_nat 0) with 0.
        rewrite Z.mod_0_l by lia.
        destruct (Z.eqb_spec 0 (Z.of_nat total)); [lia|]. apply andb_false_r. }
      rewrite Hk, Hh.
      split; [intros _; exact Hpct|].
      split; [discriminate|]. split; [exact H521 | exact Hcalc].
    + assert (Hpt : (0 < p <= total)%nat) by (unfold total; lia).
      destruct (roundedPercentage_general p total Hpt Hb) as [Hn Ht].
      rewrite <- Hpct in Hn, Ht.
      split; [exact Hn|]. split; [exact Ht|]. split; [exact H521 | exact Hcalc].
Qed.

Lemma C7_percentage_of_marked_students_witness :
  percentage (handleAttendanceStatsChange (mkStats 5 2 1)) = JsNumber.of_Z 63 /\
  percentage (handleAttendanceStatsChange (mkStats 2 0 1)) = JsNumber.of_Z 67 /\
  percentage (handleAttendanceStatsChange (mkStats 0 0 0)) = JsNumber.of_Z 0 /\
  percentage (handleAttendanceStatsChange (mkStats 171 69 0)) = JsNumber.of_Z 71.
Proof.
  assert (Hr : forall n, (n <= 1000)%nat -> countInRange n).
  { intros n Hn. unfold countInRange, maxArrayLength.
    change (2 ^ 32) with 4294967296. lia. }
  pose proof (C7_percentage_of_marked_students 5 2 1
                (Hr 5%nat ltac:(lia)) (Hr 2%nat ltac:(lia)) (Hr 1%nat ltac:(lia)))
    as (_ & _ & _ & H63 & _).
  pose proof (C7_percentage_of_marked_students 2 0 1
                (Hr 2%nat ltac:(lia)) (Hr 0%nat ltac:(lia)) (Hr 1%nat ltac:(lia)))
    as (_ & H67 & _).
  pose proof (C7_percentage_of_marked_students 0 0 0
                (Hr 0%nat ltac:(lia)) (Hr 0%nat ltac:(lia)) (Hr 0%nat ltac:(lia)))
    as (Hz & _).
  pose proof (C7_percentage_of_marked_students 171 69 0
                (Hr 171%nat ltac:(lia)) (Hr 69%nat ltac:(lia)) (Hr 0%nat ltac:(lia)))
    as (_ & H71 & _).
  split; [|split; [|split]].
  - apply H63; reflexivity.
  - apply H67. reflexivity.
  - apply Hz. reflexivity.
  - apply H71. reflexivity.
Defined.

(** * Further properties of the table *)
(** ** Reading the table after an operation *)

Lemma JsMap_set_absent m k v :
  JsMap.has m k = false -> JsMap.set m k v = (m ++ [(k, v)])%list.
Proof.
  induction m as [|[k' v'] m IH]; simpl; [reflexivity|].
  destruct (Z.eqb k' k); [discriminate|].
  intros H. now rewrite IH.
Qed.

Lemma isMarked_view w studentId :
  fst (isMarked (view w) studentId w) =
  JsMap.has (committedSet w) studentId || JsMap.has (pendingSet w) studentId.
Proof. reflexivity. Qed.

Lemma getStudentStatus_view w studentId :
  fst (getStudentStatus (view w) studentId w) =
  match JsMap.get (pendingSet w) studentId with
  | Some status => status
  | None =>
      match JsMap.get (committedSet w) studentId with
      | Some status => status
      | None => "not-marked"
      end
  end.
Proof.
  unfold getStudentStatus, committedSet, pendingSet.
  unfold mbind, M_bind, readMap, mret, M_ret. simpl.
  rewrite !JsMapFacts.has_get.
  destruct (JsMap.get (deref w (hookState w)) studentId); [reflexivity|].
  simpl.
  destruct (JsMap.get (JsMap.of_entries _) studentId); reflexivity.
Qed.

(** What [markAttendance] leaves alone when it stages a mark. *)
Lemma run_markAttendance_staged_frame w studentId status :
  settled w ->
  JsMap.has (committedSet w) studentId = false ->
  let w' := run (fun r => markAttendance r studentId status) w in
  bulkRequests w' = bulkRequests w /\ invalidated w' = invalidated w /\
  courseId w' = courseId w /\ academicYearId w' = academicYearId w /\
  currentDate w' = currentDate w.
Proof.
  destruct w as [h s q e st c y d ta ts ps iv br].
  unfold_handlers. intros [Hs ->] Hc. rewrite Hc.
  destruct e; unfold_handlers; repeat split.
Qed.

(** X1: pressing a mark button of an unmarked student appends the mark
    to the staged ones: no message is shown and no request is sent, the
    student then reads as marked with that status, and every other
    student reads as before. *)
Theorem X1_mark_unmarked_student_is_staged_last w studentId status :
  settled w ->
  fst (isMarked (view w) studentId w) = false ->
  let w' := run (fun r => markAttendance r studentId status) w in
  pendingSet w' = (pendingSet w ++ [(studentId, status)])%list /\
  toasts w' = toasts w /\ bulkRequests w' = bulkRequests w /\
  fst (isMarked (view w') studentId w') = true /\
  fst (getStudentStatus (view w') studentId w') = status /\
  (forall other, other <> studentId ->
     fst (isMarked (view w') other w') = fst (isMarked (view w) other w) /\
     fst (getStudentStatus (view w') other w')
     = fst (getStudentStatus (view w) other w)).
Proof.
  intros Hw Hm. rewrite isMarked_view in Hm.
  apply orb_false_iff in Hm as [Hc Hp].
  destruct (run_markAttendance_staged w studentId status Hw Hc)
    as (Hset & _ & Hta & _ & Ht).
  destruct (run_markAttendance_staged_frame w studentId status Hw Hc)
    as (Hbr & _).
  cbv zeta.
  set (w' := run (fun r => markAttendance r studentId status) w) in *.
  pose proof (committedSet_todayAttendance w w' Hta) as Hcs.
  split; [rewrite Hset; now apply JsMap_set_absent|].
  split; [exact Ht|]. split; [exact Hbr|].
  split; [rewrite isMarked_view, Hset, JsMapFacts.has_set, Z.eqb_refl;
          apply orb_true_r|].
  split; [rewrite getStudentStatus_view, Hset, JsMapFacts.get_set_eq;
          reflexivity|].
  intros other Hne.
  rewrite !isMarked_view, !getStudentStatus_view, Hset, Hcs.
  rewrite JsMapFacts.has_set, JsMapFacts.get_set_ne by congruence.
  destruct (Z.eqb_spec studentId other); [congruence|]. now split.
Qed.

Lemma X1_mark_unmarked_student_is_staged_last_witness :
  let w' := run (fun r => markAttendance r 3 "late") C4_world in
  pendingSet w' = [(2, "absent"); (3, "late")] /\
  fst (getStudentStatus (view w') 3 w') = "late".
Proof.
  assert (Hw : settled C4_world) by (split; [vm_compute; lia | reflexivity]).
  assert (Hm : fst (isMarked (view C4_world) 3 C4_world) = false)
    by (vm_compute; reflexivity).
  pose proof (X1_mark_unmarked_student_is_staged_last C4_world 3 "late" Hw Hm)
    as H.
  vm_compute in H |- *.
  destruct H as (Hp & _ & _ & _ & Hs & _).
  split; [exact Hp | exact Hs].
Defined.

Lemma renderRow_view w student :
  fst (renderRow (view w) student w) =
  mkRow (getStatusBadge (fst (getStudentStatus (view w) (Student.id student) w)))
    (if fst (isMarked (view w) (Student.id student) w) then []
     else ["present"; "late"; "absent"]).
Proof.
  unfold renderRow, mbind, M_bind.
  destruct (getStudentStatus (view w) (Student.id student) w) as [status w1] eqn:E1.
  assert (Hw1 : w1 = w).
  { revert E1. unfold getStudentStatus, mbind, M_bind, readMap, mret, M_ret.
    destruct (JsMap.has _ _); [now intros [= _ <-]|].
    destruct (JsMap.has _ _); now intros [= _ <-]. }
  subst w1. simpl.
  destruct (JsMap.has _ _ || JsMap.has _ _); reflexivity.
Qed.

(** X2: after "Mark All Present" every student of the roster reads as
    marked, so no row offers a mark button any more; a student without a
    committed record reads as present. *)
Theorem X2_markAllPresent_leaves_no_mark_button w student :
  settled w ->
  In student (students w) ->
  let w' := run markAllPresent w in
  fst (isMarked (view w') (Student.id student) w') = true /\
  rowButtons (fst (renderRow (view w') student w')) = [] /\
  (JsMap.has (committedSet w) (Student.id student) = false ->
   fst (getStudentStatus (view w') (Student.id student) w') = "present").
Proof.
  intros Hw Hin. cbv zeta.
  destruct (run_markAllPresent w Hw) as (Hp & _ & _ & Hta & _).
  set (w' := run markAllPresent w) in *.
  pose proof (committedSet_todayAttendance w w' Hta) as Hcs.
  assert (Hm : fst (isMarked (view w') (Student.id student) w') = true).
  { rewrite isMarked_view, Hp, Hcs, has_stageAll, (onRoster_In _ _ Hin).
    now destruct (JsMap.has (committedSet w) (Student.id student)). }
  split; [exact Hm|]. split.
  - rewrite renderRow_view, Hm. reflexivity.
  - intros Hc.
    rewrite getStudentStatus_view, Hp, get_stageAll, (onRoster_In _ _ Hin), Hc.
    reflexivity.
Qed.

Lemma X2_markAllPresent_leaves_no_mark_button_witness :
  let w' := run markAllPresent C8_start in
  rowButtons (fst (renderRow (view C8_start) (student 2) C8_start))
  = ["present"; "late"; "absent"] /\
  rowButtons (fst (renderRow (view w') (student 2) w')) = [] /\
  fst (getStudentStatus (view w') 2 w') = "present".
Proof.
  assert (Hw : settled C8_start) by (split; [vm_compute; lia | reflexivity]).
  assert (Hin : In (student 2) (students C8_start)) by (right; left; reflexivity).
  pose proof (X2_markAllPresent_leaves_no_mark_button C8_start (student 2) Hw Hin)
    as H.
  vm_compute in H |- *.
  destruct H as (_ & Hb & Hs).
  split; [reflexivity | split; [exact Hb | exact (Hs eq_refl)]].
Defined.

(** ** Saving *)

Lemma run_bulkAttendanceMutation_onSuccess_frame w data :
  settled w ->
  let w' := run (fun r => bulkAttendanceMutation_onSuccess r data) w in
  bulkRequests w' = bulkRequests w /\
  courseId w' = courseId w /\ academicYearId w' = academicYearId w /\
  currentDate w' = currentDate w.
Proof.
  destruct w as [h s q e st c y d ta ts ps iv br].
  unfold_handlers. intros [Hs ->]. unfold_handlers. repeat split.
Qed.

Lemma pendingRecordsOf_entries w :
  map (fun p => (Payload.studentId p, Payload.status p)) (pendingRecordsOf w)
  = JsMap.entries (pendingSet w).
Proof.
  unfold pendingRecordsOf. rewrite map_map. simpl.
  induction (JsMap.entries (pendingSet w)) as [|[k v] l IH]; simpl;
    [reflexivity | now rewrite IH].
Qed.

(** X3: "Save Attendance" sends a request exactly when something is
    staged: with nothing staged it shows "No Changes" and sends nothing;
    otherwise it sends one request that holds one record per staged mark,
    in the order of staging, and shows nothing.  In both cases the staged
    marks stay until the answer arrives. *)
Theorem X3_save_sends_the_staged_marks w :
  settled w ->
  let w' := run saveAttendance w in
  pendingSet w' = pendingSet w /\
  (pendingSet w = [] ->
     bulkRequests w' = bulkRequests w /\
     toasts w' = (toasts w ++ [noChangesToast])%list) /\
  (pendingSet w <> [] ->
     bulkRequests w' = (bulkRequests w ++ [pendingRecordsOf w])%list /\
     toasts w' = toasts w /\
     map (fun p => (Payload.studentId p, Payload.status p)) (pendingRecordsOf w)
     = JsMap.entries (pendingSet w)).
Proof.
  intros [Hs Hq]. cbv zeta. rewrite (run_saveAttendance w Hq).
  assert (He : Nat.eqb (length (pendingRecordsOf w)) 0
               = match pendingSet w with [] => true | _ => false end).
  { unfold pendingRecordsOf. rewrite length_map. unfold JsMap.entries.
    now destruct (pendingSet w). }
  rewrite He. clear He.
  destruct (pendingSet w) as [|e m] eqn:Hp.
  - split; [rewrite <- Hp; now destruct w|].
    split; [intros _; now destruct w|].
    intros H. now contradiction H.
  - split; [rewrite <- Hp; now destruct w|]. split; [discriminate|]. intros _.
    split; [now destruct w|]. split; [now destruct w|].
    rewrite <- Hp. apply pendingRecordsOf_entries.
Qed.

Lemma X3_save_sends_the_staged_marks_witness :
  let w' := run saveAttendance C5_world in
  pendingSet w' = [(1, "present"); (2, "present"); (3, "present")] /\
  map (fun p => (Payload.studentId p, Payload.status p, Payload.date p))
      (concat (bulkRequests w'))
  = [(1, "present", "2024-09-02"); (2, "present", "2024-09-02");
     (3, "present", "2024-09-02")].
Proof.
  assert (Hw : settled C5_world) by (split; [vm_compute; lia | reflexivity]).
  pose proof (X3_save_sends_the_staged_marks C5_world Hw) as H.
  vm_compute in H |- *.
  destruct H as (Hp & _ & _).
  split; [exact Hp | reflexivity].
Defined.

Lemma pendingSet_with_bulkRequests rs w :
  pendingSet (with_bulkRequests rs w) = pendingSet w.
Proof. now destruct w. Qed.

Lemma committedSet_with_bulkRequests rs w :
  committedSet (with_bulkRequests rs w) = committedSet w.
Proof. now destruct w. Qed.

Lemma JsMap_In_get m k v :
  In (k, v) (JsMap.entries m) -> exists v', JsMap.get m k = Some v'.
Proof.
  induction m as [|[k' v'] m IH]; simpl; [contradiction|].
  intros [[= -> ->]|Hin].
  - rewrite Z.eqb_refl. eauto.
  - destruct (Z.eqb k' k); eauto.
Qed.

Lemma run_saveAttendance_nonempty w :
  settled w ->
  pendingSet w <> [] ->
  let w1 := with_bulkRequests (bulkRequests w ++ [pendingRecordsOf w]) w in
  run saveAttendance w = w1 /\ settled w1 /\
  committedSet w1 = committedSet w /\ pendingSet w1 = pendingSet w.
Proof.
  intros Hw Hne. cbv zeta. rewrite (run_saveAttendance w (proj2 Hw)).
  assert (He : Nat.eqb (length (pendingRecordsOf w)) 0 = false).
  { unfold pendingRecordsOf. rewrite length_map. unfold JsMap.entries.
    destruct (pendingSet w); [now contradiction Hne | reflexivity]. }
  rewrite He. split; [reflexivity|].
  split; [now apply settled_with_bulkRequests|].
  split; [apply committedSet_with_bulkRequests | apply pendingSet_with_bulkRequests].
Qed.

(** X4: a mark staged while a bulk request is in flight is lost when the
    request succeeds: the request holds the marks staged before it and no
    record of the student, the mark is staged after it, and [onSuccess]
    empties the staged marks without a further request. *)
Theorem X4_mark_during_save_is_discarded w studentId status data :
  settled w ->
  pendingSet w <> [] ->
  fst (isMarked (view w) studentId w) = false ->
  let w1 := run saveAttendance w in
  let w2 := run (fun r => markAttendance r studentId status) w1 in
  let w3 := run (fun r => bulkAttendanceMutation_onSuccess r data) w2 in
  bulkRequests w3 = (bulkRequests w ++ [pendingRecordsOf w])%list /\
  (forall p, In p (pendingRecordsOf w) -> Payload.studentId p <> studentId) /\
  JsMap.get (pendingSet w2) studentId = Some status /\
  pendingSet w3 = [].
Proof.
  intros Hw Hne Hm. cbv zeta.
  rewrite isMarked_view in Hm. apply orb_false_iff in Hm as [Hc Hp].
  destruct (run_saveAttendance_nonempty w Hw Hne) as (Hrun & Hw1 & Hc1 & Hp1).
  rewrite Hrun.
  set (w1 := with_bulkRequests (bulkRequests w ++ [pendingRecordsOf w]) w) in *.
  assert (Hc1' : JsMap.has (committedSet w1) studentId = false)
    by now rewrite Hc1.
  destruct (run_markAttendance_staged w1 studentId status Hw1 Hc1')
    as (Hset & Hw2 & _).
  destruct (run_markAttendance_staged_frame w1 studentId status Hw1 Hc1')
    as (Hbr2 & _).
  set (w2 := run (fun r => markAttendance r studentId status) w1) in *.
  destruct (run_bulkAttendanceMutation_onSuccess w2 data Hw2) as (Hp3 & _).
  destruct (run_bulkAttendanceMutation_onSuccess_frame w2 data Hw2) as (Hbr3 & _).
  split; [rewrite Hbr3, Hbr2; now destruct w|].
  split.
  - intros p Hin Heq.
    assert (Hk : In (studentId, Payload.status p) (JsMap.entries (pendingSet w))).
    { rewrite <- pendingRecordsOf_entries. apply in_map_iff.
      exists p. now rewrite Heq. }
    rewrite JsMapFacts.has_get in Hp.
    apply JsMap_In_get in Hk. destruct Hk as [v Hv]. now rewrite Hv in Hp.
  - split; [rewrite Hset; apply JsMapFacts.get_set_eq | exact Hp3].
Qed.

(** ** The batch of a reachable world *)








(** ** Statistics *)

(** X6: the statistics [markAttendance] publishes for a newly staged
    mark depend on when React runs the updater: run at dispatch, the
    updater has changed the [Map] that [updateStats] reads and the mark
    is counted; left for the render, the counts are those from before
    the mark. *)
Theorem X6_markAttendance_statistics w studentId status :
  settled w ->
  JsMap.has (committedSet w) studentId = false ->
  lastPublished (run (fun r => markAttendance r studentId status) w) =
  Some (countsOf (committedSet w)
          (if eagerDispatch w then JsMap.set (pendingSet w) studentId status
           else pendingSet w)).
Proof.
  intros Hw Hc. destruct (eagerDispatch w) eqn:He.
  - now apply markAttendance_published_eager.
  - now apply markAttendance_published_deferred.
Qed.

Lemma X6_markAttendance_statistics_witness :
  lastPublished (run (fun r => markAttendance r 3 "late") C4_world)
  = Some (mkStats 0 1 1) /\
  lastPublished
    (run (fun r => markAttendance r 3 "late")
       (run (fun r => markAttendance r 2 "absent")
          (initial false [student 1; student 2] 7 3 "2024-09-02" [])))
  = Some (mkStats 0 1 0).
Proof.
  assert (Hw : settled C4_world) by (split; [vm_compute; lia | reflexivity]).
  pose proof (X6_markAttendance_statistics C4_world 3 "late" Hw eq_refl) as H1.
  assert (Hw' : settled (run (fun r => markAttendance r 2 "absent")
                           (initial false [student 1; student 2] 7 3
                              "2024-09-02" [])))
    by (split; [vm_compute; lia | reflexivity]).
  pose proof (X6_markAttendance_statistics _ 3 "late" Hw' eq_refl) as H2.
  vm_compute in H1, H2 |- *.
  split; [exact H1 | exact H2].
Defined.

(** X7: when a bulk request succeeds, the statistics published count the
    committed records and the marks that were staged, whatever number of
    failed records the answer reports: [updateStats] runs before the
    staged marks are cleared. *)
Theorem X7_onSuccess_counts_the_saved_marks w data :
  settled w ->
  let w' := run (fun r => bulkAttendanceMutation_onSuccess r data) w in
  lastPublished w' = Some (countsOf (committedSet w) (pendingSet w)) /\
  pendingSet w' = [] /\
  countsOf (committedSet w') (pendingSet w') = countsOf (committedSet w) [].
Proof.
  intros Hw. cbv zeta.
  destruct (run_bulkAttendanceMutation_onSuccess w data Hw)
    as (Hp & _ & _ & _ & Hpub & Hta & _).
  split; [exact Hpub|]. split; [exact Hp|].
  now rewrite Hp, (committedSet_todayAttendance _ _ Hta).
Qed.

Lemma X7_onSuccess_counts_the_saved_marks_witness :
  let w' := run (fun r => bulkAttendanceMutation_onSuccess r (mkBulkResult 0 3))
              C5_world in
  lastPublished w' = Some (mkStats 3 0 0) /\
  countsOf (committedSet w') (pendingSet w') = mkStats 0 0 0.
Proof.
  assert (Hw : settled C5_world) by (split; [vm_compute; lia | reflexivity]).
  pose proof (X7_onSuccess_counts_the_saved_marks C5_world (mkBulkResult 0 3) Hw)
    as H.
  vm_compute in H |- *.
  destruct H as (H1 & _ & _). split; [exact H1 | reflexivity].
Defined.





(** ** What the rendered table allows *)

Lemma badgeLabel_not_marked status :
  badgeLabel (getStatusBadge status) = "Not Marked" <-> knownStatus status = false.
Proof.
  unfold getStatusBadge, knownStatus.
  destruct (String.eqb status "present"); [simpl; split; discriminate|].
  destruct (String.eqb status "absent"); [simpl; split; discriminate|].
  destruct (String.eqb status "late"); simpl; split; intros; try discriminate;
    reflexivity.
Qed.

Lemma getStudentStatus_unmarked w studentId :
  fst (isMarked (view w) studentId w) = false ->
  fst (getStudentStatus (view w) studentId w) = "not-marked".
Proof.
  rewrite isMarked_view, getStudentStatus_view, !JsMapFacts.has_get.
  destruct (JsMap.get (pendingSet w) studentId);
    [rewrite orb_true_r; discriminate|].
  destruct (JsMap.get (committedSet w) studentId); [discriminate | reflexivity].
Qed.

(** X9: a row offers the three mark buttons exactly when the student is
    not marked, and then its badge reads "Not Marked"; the row of a
    marked student offers no button, and its badge reads "Not Marked"
    only if the recorded status is none of present, absent and late. *)
Theorem X9_row_offers_buttons_to_unmarked_students_only w student :
  let row := fst (renderRow (view w) student w) in
  let status := fst (getStudentStatus (view w) (Student.id student) w) in
  if fst (isMarked (view w) (Student.id student) w)
  then rowButtons row = [] /\
       (badgeLabel (rowBadge row) = "Not Marked" <-> knownStatus status = false)
  else rowButtons row = ["present"; "late"; "absent"] /\
       badgeLabel (rowBadge row) = "Not Marked".
Proof.
  cbv zeta. rewrite renderRow_view.
  destruct (fst (isMarked (view w) (Student.id student) w)) eqn:Hm; simpl.
  - split; [reflexivity | apply badgeLabel_not_marked].
  - split; [reflexivity|]. now rewrite (getStudentStatus_unmarked w _ Hm).
Qed.

Lemma JsMap_In_set m k v k' v' :
  In (k', v') (JsMap.set m k v) -> (k', v') = (k, v) \/ In (k', v') m.
Proof.
  induction m as [|[k0 v0] m IH]; simpl.
  - intros [H|[]]. left. now symmetry.
  - destruct (Z.eqb_spec k0 k) as [->|Hne]; simpl.
    + intros [H|H]; [left; now symmetry | right; right; exact H].
    + intros [H|H]; [right; left; exact H|].
      destruct (IH H) as [H'|H']; [left; exact H' | right; right; exact H'].
Qed.

Lemma In_stageAll committed roster m k v :
  In (k, v) (stageAll committed roster m) ->
  In (k, v) m \/ (onRoster roster k = true /\ v = "present").
Proof.
  revert m. induction roster as [|s roster IH]; intros m; [now left|].
  unfold stageAll in *. simpl. intros H. apply IH in H.
  destruct H as [H|[H ->]].
  - destruct (negb (JsMap.has committed (Student.id s))); [|now left].
    apply JsMap_In_set in H as [[= -> ->]|H]; [|now left].
    right. split; [|reflexivity]. unfold onRoster. simpl.
    now rewrite Z.eqb_refl.
  - right. split; [|reflexivity]. unfold onRoster in *. simpl.
    rewrite H. apply orb_true_r.
Qed.

Lemma In_snoc {A} (x y : A) l : In x (l ++ [y])%list -> In x l \/ x = y.
Proof.
  intros H. apply in_app_or in H as [H|[H|[]]]; [now left | now right].
Qed.

Lemma ui_step_preserves t t' :
  ui_step t t' -> tableInvariant t -> tableInvariant t'.
Proof.
  intros Hstep (Hw & Hst & Hnt).
  destruct Hstep
    as [t eager s status row Hin -> Hb|t Hd|t Hd|t data Hp|t error Hp|t records];
    unfold tableInvariant; simpl.
  - rewrite renderRow_view in Hb.
    destruct (fst (isMarked (view (world t)) (Student.id s) (world t))) eqn:Hm;
      [contradiction Hb|].
    simpl in Hb.
    pose proof Hm as Hm'. rewrite isMarked_view in Hm'.
    apply orb_false_iff in Hm' as [Hc _].
    pose proof (settled_with_eagerDispatch eager (world t) Hw) as Hw0.
    pose proof (pendingSet_with_eagerDispatch eager (world t)) as Hp0.
    rewrite <- (committedSet_with_eagerDispatch eager (world t)) in Hc.
    assert (Hf0 : students (with_eagerDispatch eager (world t)) = students (world t) /\
                  toasts (with_eagerDispatch eager (world t)) = toasts (world t))
      by now destruct (world t).
    destruct Hf0 as (Hs0 & Ht0).
    set (w0 := with_eagerDispatch eager (world t)) in *.
    destruct (run_markAttendance_staged w0 (Student.id s) status Hw0 Hc)
      as (Hset & Hw' & _ & Hroster & Ht).
    split; [exact Hw'|]. split; [|now rewrite Ht, Ht0].
    intros k v Hkv. unfold JsMap.entries in Hkv. rewrite Hset, Hp0 in Hkv.
    rewrite Hroster, Hs0.
    apply JsMap_In_set in Hkv as [[= -> ->]|Hkv]; [|now apply Hst].
    split; [now apply onRoster_In|].
    destruct Hb as [<-|[<-|[<-|[]]]]; reflexivity.
  - destruct (run_markAllPresent (world t) Hw) as (Hset & _ & Hw' & _ & Hroster & Ht).
    split; [exact Hw'|]. split; [|now rewrite Ht].
    intros k v Hkv. unfold JsMap.entries in Hkv. rewrite Hset in Hkv.
    rewrite Hroster.
    apply In_stageAll in Hkv as [Hkv|[Hr ->]]; [now apply Hst | now split].
  - unfold saveDisabled in Hd. apply orb_false_iff in Hd as [_ Hsize].
    assert (Hne : pendingSet (world t) <> []).
    { intros Hnil. rewrite Hnil in Hsize. discriminate. }
    destruct (run_saveAttendance_nonempty (world t) Hw Hne) as (-> & Hw' & _ & Hp').
    split; [exact Hw'|]. split.
    + intros k v Hkv. unfold JsMap.entries in Hkv. rewrite Hp' in Hkv.
      destruct (Hst k v Hkv) as [Hr Hk]. split; [|exact Hk].
      now destruct (world t).
    + now destruct (world t).
  - destruct (run_bulkAttendanceMutation_onSuccess (world t) data Hw)
      as (Hset & Hw' & _ & Ht & _).
    split; [exact Hw'|].
    split; [unfold stagedFromRoster; rewrite Hset; intros k v []|].
    rewrite Ht. intros H. apply In_snoc in H as [H|H];
      [contradiction | discriminate].
  - rewrite (run_bulkAttendanceMutation_onError (world t) error (proj2 Hw)).
    split; [now apply settled_with_toasts|].
    split; [now destruct (world t)|].
    destruct (world t) as [h s q e st c y d ta ts ps iv br]. simpl in *.
    intros H. apply In_snoc in H as [H|H]; [contradiction | discriminate].
  - split; [now apply settled_with_todayAttendance|].
    split; [|now destruct (world t)].
    unfold stagedFromRoster. rewrite pendingSet_with_todayAttendance.
    replace (students (with_todayAttendance records (world t)))
      with (students (world t)) by now destruct (world t).
    exact Hst.
Qed.

(** X10: through the buttons the table renders (mark buttons on the rows
    of unmarked roster students, "Mark All Present" and "Save Attendance"
    while enabled), the answers to its requests and the records of its
    query, whenever they arrive, every staged mark is for a student of
    the roster with status present, late or absent, and the "No Changes"
    message is never shown. *)
Theorem X10_rendered_table_stages_roster_students_only
    eager roster course year date fetched t studentId status :
  rtc ui_step (mkTable (initial eager roster course year date fetched) false) t ->
  ~ In noChangesToast (toasts (world t)) /\
  (In (studentId, status) (JsMap.entries (pendingSet (world t))) ->
   onRoster roster studentId = true /\
   In status ["present"; "late"; "absent"]).
Proof.
  intros Hreach.
  assert (Hinv : tableInvariant t /\ students (world t) = roster).
  { remember (mkTable (initial eager roster course year date fetched) false)
      as t0 eqn:Ht0.
    assert (H0 : tableInvariant t0 /\ students (world t0) = roster).
    { subst t0. split; [|reflexivity].
      split; [apply initial_settled|]. split; [intros k v []|intros []]. }
    clear Ht0. induction Hreach as [|t0 t1 t Hstep _ IH]; [exact H0|].
    apply IH. destruct H0 as [Hinv0 Hr0].
    split; [now apply (ui_step_preserves t0)|].
    rewrite <- Hr0.
    destruct Hinv0 as (Hw & _).
    destruct Hstep
      as [t0 e0 s st row Hin -> Hb|t0 Hd|t0 Hd|t0 data Hp|t0 error Hp|t0 records];
      simpl.
    - rewrite renderRow_view in Hb.
      destruct (fst (isMarked (view (world t0)) (Student.id s) (world t0))) eqn:Hm;
        [contradiction Hb|].
      rewrite isMarked_view in Hm. apply orb_false_iff in Hm as [Hc _].
      rewrite <- (committedSet_with_eagerDispatch e0 (world t0)) in Hc.
      destruct (run_markAttendance_staged (with_eagerDispatch e0 (world t0))
                  (Student.id s) st
                  (settled_with_eagerDispatch e0 (world t0) Hw) Hc)
        as (_ & _ & _ & Hroster & _).
      rewrite Hroster. now destruct (world t0).
    - now destruct (run_markAllPresent (world t0) Hw) as (_ & _ & _ & _ & Hroster & _).
    - rewrite (run_saveAttendance (world t0) (proj2 Hw)).
      destruct (Nat.eqb _ 0); now destruct (world t0).
    - now destruct (run_bulkAttendanceMutation_onSuccess (world t0) data Hw)
        as (_ & _ & _ & _ & _ & _ & Hroster).
    - rewrite (run_bulkAttendanceMutation_onError (world t0) error (proj2 Hw)).
      now destruct (world t0).
    - now destruct (world t0). }
  destruct Hinv as [(_ & Hst & Hnt) Hr].
  split; [exact Hnt|]. intros Hin.
  destruct (Hst _ _ Hin) as [Hon Hk]. rewrite Hr in Hon. split; [exact Hon|].
  unfold knownStatus in Hk.
  destruct (String.eqb_spec status "present") as [->|]; [now left|].
  destruct (String.eqb_spec status "absent") as [->|]; [now right; right; left|].
  destruct (String.eqb_spec status "late") as [->|]; [now right; left|].
  discriminate.
Qed.

Lemma X4_mark_during_save_is_discarded_witness :
  let w2 := run (fun r => markAttendance r 1 "present")
              (run saveAttendance C4_world) in
  let w3 := run (fun r => bulkAttendanceMutation_onSuccess r (mkBulkResult 1 0))
              w2 in
  pendingSet w2 = [(2, "absent"); (1, "present")] /\
  map (map Payload.studentId) (bulkRequests w3) = [[2]] /\
  pendingSet w3 = [].
Proof.
  assert (Hw : settled C4_world) by (split; [vm_compute; lia | reflexivity]).
  assert (Hne : pendingSet C4_world <> []) by (vm_compute; discriminate).
  pose proof (X4_mark_during_save_is_discarded C4_world 1 "present"
                (mkBulkResult 1 0) Hw Hne eq_refl) as H.
  vm_compute in H |- *.
  destruct H as (Hbr & _ & _ & Hp).
  split; [reflexivity | split; [reflexivity | exact Hp]].
Defined.


Lemma X10_rendered_table_stages_roster_students_only_witness :
  pendingSet (world X10_saving) = [(2, "late")] /\
  ~ In noChangesToast (toasts (world X10_saving)) /\
  (In (2, "late") (JsMap.entries (pendingSet (world X10_saving))) ->
   onRoster [student 1; student 2; student 3] 2 = true /\
   In "late" ["present"; "late"; "absent"]).
Proof.
  split; [reflexivity|].
  apply (X10_rendered_table_stages_roster_students_only true
           [student 1; student 2; student 3] 7 3 "2024-09-02"
           [Attendance.mk 1 "present"] X10_saving 2 "late").
  apply rtc_r with X10_marked.
  - apply rtc_once.
    apply (ui_mark X10_start true (student 2) "late"
             (fst (renderRow (view (world X10_start)) (student 2)
                     (world X10_start)))).
    + right; left; reflexivity.
    + reflexivity.
    + vm_compute. right; left; reflexivity.
  - apply (ui_save X10_marked). vm_compute. reflexivity.
Defined.

(** ** The range of the percentage *)

Lemma rounded_quotient_bounds p t :
  0 <= p <= t -> 0 < t ->
  0 <= (200 * p + t) / (2 * t) <= 100 /\
  ((200 * p) mod (2 * t) = t -> 1 <= (200 * p + t) / (2 * t)).
Proof.
  intros Hp Ht. split; [split|].
  - apply Z.div_pos; lia.
  - enough ((200 * p + t) / (2 * t) < 101) by lia.
    apply Z.div_lt_upper_bound; lia.
  - intros Hmod. apply Z.div_le_lower_bound; [lia|].
    pose proof (Z.div_mod (200 * p) (2 * t) ltac:(lia)) as Hdm.
    pose proof (Z.div_pos (200 * p) (2 * t) ltac:(lia) ltac:(lia)) as Hq.
    nia.
Qed.

(** X11: for all counts the table can publish the percentage the
    observer computes is a whole number from 0 to 100; it is 100 when
    every marked student is present and 0 when none is. *)
Theorem X11_percentage_is_between_0_and_100 p a l :
  countInRange p -> countInRange a -> countInRange l ->
  let pct := percentage (handleAttendanceStatsChange (mkStats p a l)) in
  (exists n, 0 <= n <= 100 /\ pct = JsNumber.of_Z n) /\
  (p <> 0%nat -> a = 0%nat -> l = 0%nat -> pct = JsNumber.of_Z 100) /\
  (p = 0%nat -> pct = JsNumber.of_Z 0).
Proof.
  intros Hp Ha Hl pct.
  pose proof (countInRange_total p a l Hp Ha Hl) as Hb.
  assert (H53 : Z.of_nat (p + a + l) < 2 ^ 53).
  { change (2 ^ 40) with 1099511627776 in Hb.
    change (2 ^ 53) with 9007199254740992. lia. }
  destruct (handleAttendanceStatsChange_general p a l H53) as [_ Hpct].
  fold pct in Hpct. cbv zeta in Hpct.
  set (total := (p + a + l)%nat) in *.
  destruct (Nat.eqb_spec total 0) as [H0|H0].
  - split; [exists 0; split; [lia | exact Hpct]|].
    split; [intros Hp0; unfold total in H0; lia | intros _; exact Hpct].
  - destruct (Nat.eq_dec p 0%nat) as [Hp0|Hp0].
    + assert (Hz : pct = JsNumber.of_Z 0).
      { rewrite Hpct, Hp0. apply roundedPercentage_none_present. lia. }
      split; [exists 0; split; [lia | exact Hz]|].
      split; [intros; contradiction | intros _; exact Hz].
    + assert (Hpt : (0 < p <= total)%nat) by (unfold total; lia).
      destruct (roundedPercentage_general p total Hpt Hb) as [Hn Ht].
      rewrite <- Hpct in Hn, Ht.
      destruct (rounded_quotient_bounds (Z.of_nat p) (Z.of_nat total)
                  ltac:(lia) ltac:(lia)) as [Hk Hk1].
      set (k := (200 * Z.of_nat p + Z.of_nat total) / (2 * Z.of_nat total)) in *.
      split; [|split; [|intros; contradiction]].
      * destruct (exactHalf p total) eqn:Hh.
        -- destruct (Ht eq_refl) as [Hc|Hc].
           ++ exists k. now split.
           ++ exists (k - 1). split; [|exact Hc].
              unfold exactHalf in Hh. apply andb_true_iff in Hh as [_ Hh].
              apply Z.eqb_eq in Hh. specialize (Hk1 Hh). lia.
        -- exists k. split; [exact Hk | now apply Hn].
      * intros _ -> ->.
        assert (Et : total = p) by (unfold total; lia).
        assert (Hh : exactHalf p total = false).
        { unfold exactHalf. rewrite Et.
          replace (200 * Z.of_nat p) with (100 * (2 * Z.of_nat p)) by lia.
          rewrite Z.mod_mul by lia.
          destruct (Z.eqb_spec 0 (Z.of_nat p)); [lia|]. apply andb_false_r. }
        rewrite (Hn Hh). f_equal. unfold k. rewrite Et.
        symmetry. apply Z.div_unique with (r := Z.of_nat p); lia.
Qed.

Lemma X11_percentage_is_between_0_and_100_witness :
  percentage (handleAttendanceStatsChange (mkStats 4 0 0)) = JsNumber.of_Z 100 /\
  percentage (handleAttendanceStatsChange (mkStats 0 3 1)) = JsNumber.of_Z 0.
Proof.
  assert (Hr : forall n, (n <= 1000)%nat -> countInRange n).
  { intros n Hn. unfold countInRange, maxArrayLength.
    change (2 ^ 32) with 4294967296. lia. }
  pose proof (X11_percentage_is_between_0_and_100 4 0 0
                (Hr 4%nat ltac:(lia)) (Hr 0%nat ltac:(lia)) (Hr 0%nat ltac:(lia)))
    as (_ & Hall & _).
  pose proof (X11_percentage_is_between_0_and_100 0 3 1
                (Hr 0%nat ltac:(lia)) (Hr 3%nat ltac:(lia)) (Hr 1%nat ltac:(lia)))
    as (_ & _ & Hnone).
  split; [apply Hall; [discriminate | reflexivity | reflexivity]
         | apply Hnone; reflexivity].
Defined.

(** ** The name of an academic year *)

(** X12: [validateAcademicYear] accepts exactly the names made of four
    digits, a hyphen and two digits, seven characters in all; the two
    digits after the hyphen are not compared with the year before it. *)
Theorem X12_validateAcademicYear_accepts_four_digits_hyphen_two_digits yearName :
  validateAcademicYear yearName = true <->
  exists a b c d e f,
    Regex.isDigit a = true /\ Regex.isDigit b = true /\
    Regex.isDigit c = true /\ Regex.isDigit d = true /\
    Regex.isDigit e = true /\ Regex.isDigit f = true /\
    yearName =
      String a (String b (String c (String d (String "-"
        (String e (String f EmptyString)))))).
Proof.
  unfold validateAcademicYear, Regex.test, yearPattern. split.
  - destruct yearName as [|a [|b [|c [|d [|h [|e [|f rest]]]]]]];
      cbn [Regex.matchSeq Regex.matchRepeat Regex.matchesClass];
      try discriminate;
      repeat match goal with
             | |- context [if ?x then _ else _] =>
                 destruct x eqn:?;
                 cbn [Regex.matchSeq Regex.matchRepeat Regex.matchesClass];
                 try discriminate
             end.
    destruct rest; [|discriminate]. intros _.
    match goal with H : Ascii.eqb _ h = true |- _ =>
      apply Ascii.eqb_eq in H; subst h end.
    exists a, b, c, d, e, f. now repeat split.
  - intros (a & b & c & d & e & f & Ha & Hb & Hc & Hd & He & Hf & ->).
    cbn [Regex.matchSeq Regex.matchRepeat Regex.matchesClass].
    rewrite Ha, Hb, Hc, Hd, Ascii.eqb_refl, He, Hf. reflexivity.
Qed.

Example validateAcademicYear_samples :
  validateAcademicYear "2024-25" = true /\
  validateAcademicYear "2024-99" = true /\
  validateAcademicYear "2024-2025" = false /\
  validateAcademicYear " 2024-25" = false /\
  validateAcademicYear "2024-25 " = false /\
  validateAcademicYear "" = false.
Proof. repeat split; reflexivity. Qed.

(** ** The cards of the academic years *)






(** ** Date ranges of the forms *)

(** X14: for two valid dates the form of an academic year is sent only
    if the start lies strictly before the end, while a report is
    generated also for a range of a single day; a range that ends before
    it starts is refused by both, with a message on the end date. *)
Theorem X14_date_ranges timeValue editingYear ydata rdata m f s e :
  timeValue (YearModal.startDate ydata) = Some s ->
  timeValue (YearModal.endDate ydata) = Some e ->
  timeValue (Reports.fromDate rdata) = Some s ->
  timeValue (Reports.toDate rdata) = Some e ->
  let m' := YearModal.onSubmit timeValue editingYear ydata m in
  let f' := Reports.onSubmit timeValue rdata f in
  (s < e ->
     length (YearModal.submissions m') = S (length (YearModal.submissions m)) /\
     YearModal.fieldErrors m' = YearModal.fieldErrors m /\
     Reports.generated f' = (Reports.generated f ++ [rdata])%list /\
     Reports.fieldErrors f' = Reports.fieldErrors f) /\
  (s = e ->
     YearModal.submissions m' = YearModal.submissions m /\
     YearModal.fieldErrors m'
     = (YearModal.fieldErrors m
        ++ [("endDate", "End date must be after start date")])%list /\
     Reports.generated f' = (Reports.generated f ++ [rdata])%list /\
     Reports.fieldErrors f' = Reports.fieldErrors f) /\
  (e < s ->
     YearModal.submissions m' = YearModal.submissions m /\
     YearModal.fieldErrors m'
     = (YearModal.fieldErrors m
        ++ [("endDate", "End date must be after start date")])%list /\
     Reports.generated f' = Reports.generated f /\
     Reports.fieldErrors f'
     = (Reports.fieldErrors f
        ++ [("toDate", "To date must be after from date")])%list).
Proof.
  intros Hs He Hf Ht. cbv zeta.
  unfold YearModal.onSubmit, Reports.onSubmit, YearModal.mutation_mutate.
  rewrite Hs, He, Hf, Ht. unfold JsDate.ge, JsDate.gt.
  rewrite Z.geb_leb, Z.gtb_ltb.
  destruct (Z.leb_spec e s) as [Hle|Hlt], (Z.ltb_spec e s) as [Hlt'|Hle'];
    simpl; repeat split; try lia; rewrite ?length_app; simpl; try lia;
    reflexivity.
Qed.

Lemma X14_date_ranges_witness :
  let ydata := YearModal.mkFormData "2024-25" "2024-09-02" "2024-09-02" "x" false in
  let rdata := Reports.mkReportFormData "day-wise" "1" "1st" "1"
                 "2024-09-02" "2024-09-02" in
  YearModal.submissions
    (YearModal.onSubmit daysOfSeptember None ydata (YearModal.mkModal [] [])) = []
  /\
  Reports.generated
    (Reports.onSubmit daysOfSeptember rdata (Reports.mkForm [] [])) = [rdata].
Proof.
  pose proof (X14_date_ranges daysOfSeptember None
                (YearModal.mkFormData "2024-25" "2024-09-02" "2024-09-02" "x" false)
                (Reports.mkReportFormData "day-wise" "1" "1st" "1"
                   "2024-09-02" "2024-09-02")
                (YearModal.mkModal [] []) (Reports.mkForm [] []) 2 2
                eq_refl eq_refl eq_refl eq_refl) as (_ & Heq & _).
  destruct (Heq eq_refl) as (Hy & _ & Hr & _).
  split; [exact Hy | exact Hr].
Defined.

(** X15: a date that cannot be parsed switches the range check off: the
    form of an academic year is sent, with [PUT] to the year edited or
    [POST] for a new one, and the report is generated. *)
Theorem X15_invalid_date_passes_the_range_check
    timeValue editingYear ydata rdata m f :
  (timeValue (YearModal.startDate ydata) = None \/
   timeValue (YearModal.endDate ydata) = None) ->
  (timeValue (Reports.fromDate rdata) = None \/
   timeValue (Reports.toDate rdata) = None) ->
  YearModal.onSubmit timeValue editingYear ydata m =
    YearModal.mkModal (YearModal.fieldErrors m)
      (YearModal.submissions m ++
       [match editingYear with
        | Some year =>
            YearModal.mkSubmission "PUT"
              ("/api/academic-years/" ++
               YearManagement.showId (YearManagement.id year)) ydata
        | None => YearModal.mkSubmission "POST" "/api/academic-years" ydata
        end]) /\
  Reports.onSubmit timeValue rdata f =
    Reports.mkForm (Reports.fieldErrors f) (Reports.generated f ++ [rdata]).
Proof.
  intros Hy Hr.
  unfold YearModal.onSubmit, Reports.onSubmit, YearModal.mutation_mutate.
  split.
  - replace (JsDate.ge _ _) with false.
    + now destruct editingYear.
    + destruct Hy as [-> | ->]; [reflexivity|].
      now destruct (timeValue (YearModal.startDate ydata)).
  - replace (JsDate.gt _ _) with false; [reflexivity|].
    destruct Hr as [-> | ->]; [reflexivity|].
    now destruct (timeValue (Reports.fromDate rdata)).
Qed.

Lemma X15_invalid_date_passes_the_range_check_witness :
  let ydata := YearModal.mkFormData "2024-25" "soon" "2024-09-02" "x" false in
  YearModal.submissions
    (YearModal.onSubmit daysOfSeptember None ydata (YearModal.mkModal [] []))
  = [YearModal.mkSubmission "POST" "/api/academic-years" ydata].
Proof.
  pose proof (X15_invalid_date_passes_the_range_check daysOfSeptember None
                (YearModal.mkFormData "2024-25" "soon" "2024-09-02" "x" false)
                (Reports.mkReportFormData "day-wise" "1" "1st" "1"
                   "2024-09-03" "later")
                (YearModal.mkModal [] []) (Reports.mkForm [] [])
                (or_introl eq_refl) (or_intror eq_refl)) as [Hy _].
  exact (f_equal YearModal.submissions Hy).
Defined.

(** ** The summary of a report *)

Lemma existsb_eqb_In x (s : list string) :
  existsb (String.eqb x) s = true <-> In x s.
Proof.
  rewrite existsb_exists. split.
  - intros (y & Hin & Heq). apply String.eqb_eq in Heq. now subst.
  - intros Hin. exists x. split; [exact Hin | apply String.eqb_refl].
Qed.

Lemma Set_of_acc xs : forall acc,
  let s := fold_left Reports.Set_add xs acc in
  (forall d, In d s <-> In d acc \/ In d xs) /\
  (List.NoDup acc -> List.NoDup s) /\
  (length s <= length acc + length xs)%nat /\
  (length acc <= length s)%nat /\
  (xs <> [] -> s <> []).
Proof.
  induction xs as [|x xs IH]; intros acc; simpl.
  - repeat split; try tauto; try lia.
  - destruct (IH (Reports.Set_add acc x)) as (Hin & Hnd & Hle & Hge & _).
    unfold Reports.Set_add in *.
    destruct (existsb (String.eqb x) acc) eqn:Hex.
    + apply existsb_eqb_In in Hex.
      split; [|split; [|split; [|split]]]; try assumption; try lia.
      * intros d. rewrite Hin. split; [tauto|].
        intros [H|[<-|H]]; tauto.
      * intros _ Hnil. rewrite Hnil in Hge. destruct acc; [contradiction|].
        simpl in Hge. lia.
    + assert (Hnin : ~ In x acc).
      { intros H. apply existsb_eqb_In in H. congruence. }
      rewrite length_app in Hle, Hge. simpl in Hle, Hge.
      split; [|split; [|split; [|split]]]; try lia.
      * intros d. rewrite Hin, in_app_iff. simpl. tauto.
      * intros Hacc. apply Hnd. apply List.NoDup_app; [exact Hacc | |].
        -- constructor; [intros [] | constructor].
        -- intros y Hy [<-|[]]. contradiction.
      * intros _ Hnil. rewrite Hnil in Hge. simpl in Hge. lia.
Qed.

Lemma countDetails_le records :
  (Reports.countDetails "present" records
   + Reports.countDetails "absent" records
   + Reports.countDetails "late" records <= length records)%nat.
Proof.
  unfold Reports.countDetails.
  induction records as [|r records IH]; simpl; [lia|].
  destruct (String.eqb_spec (Reports.status r) "present") as [->|];
    [simpl; lia|].
  destruct (String.eqb_spec (Reports.status r) "absent") as [->|];
    [simpl; lia|].
  destruct (String.eqb (Reports.status r) "late"); simpl; lia.
Qed.

(** X16: in the summary of a report the three counts never add up to
    more than the number of records, the number of classes is the number
    of distinct dates among the records (none only for no record), and
    the percentage is the one the attendance page shows for the same
    counts; the records are an array, so they are at most
    [maxArrayLength]. *)
Theorem X16_report_summary records students :
  let s := Reports.summarize records students in
  (Reports.present s + Reports.absent s + Reports.late s <= length records)%nat /\
  (exists dates,
     List.NoDup dates /\
     (forall d, In d dates <-> exists r, In r records /\ Reports.date r = d) /\
     Reports.totalClasses s = length dates) /\
  (Reports.totalClasses s <= length records)%nat /\
  (Reports.totalClasses s = 0%nat <-> records = []) /\
  (Z.of_nat (length records) <= maxArrayLength ->
   Reports.attendancePercentage s =
   percentage (handleAttendanceStatsChange
                 (mkStats (Reports.present s) (Reports.absent s) (Reports.late s)))).
Proof.
  cbv zeta. unfold Reports.summarize.
  cbn [Reports.present Reports.absent Reports.late Reports.totalClasses
       Reports.attendancePercentage].
  pose proof (countDetails_le records) as Hcount.
  destruct (Set_of_acc (map Reports.date records) []) as (Hin & Hnd & Hle & _ & Hne).
  fold (Reports.Set_of (map Reports.date records)) in *.
  cbn [length Nat.add] in Hle. rewrite length_map in Hle.
  split; [exact Hcount|]. split; [|split; [exact Hle|split]].
  - exists (Reports.Set_of (map Reports.date records)).
    split; [apply Hnd; constructor|]. split; [|reflexivity].
    intros d. rewrite Hin, in_map_iff. simpl. split.
    + intros [[]|(r & Hr & Hinr)]. exists r. now split.
    + intros (r & Hinr & Hr). right. exists r. now split.
  - split.
    + intros H0. destruct records as [|r records]; [reflexivity|].
      exfalso. apply Hne; [discriminate|]. now apply length_zero_iff_nil.
    + intros ->. reflexivity.
  - intros Hb.
    assert (Hsum : Z.of_nat (Reports.countDetails "present" records
                             + Reports.countDetails "absent" records
                             + Reports.countDetails "late" records) < 2 ^ 53).
    { unfold maxArrayLength in Hb. change (2 ^ 32) with 4294967296 in Hb.
      change (2 ^ 53) with 9007199254740992. lia. }
    rewrite (total_general _ _ _ Hsum).
    symmetry. exact (proj1 (handleAttendanceStatsChange_general _ _ _ Hsum)).
Qed.

Lemma X16_report_summary_witness :
  let records :=
    [Reports.mkDetail "2024-09-02" (Some ("Asha", "11")) "present" None;
     Reports.mkDetail "2024-09-02" (Some ("Ravi", "12")) "absent" None;
     Reports.mkDetail "2024-09-03" (Some ("Asha", "11")) "excused" None] in
  let s := Reports.summarize records [student 11; student 12] in
  Reports.totalClasses s = 2%nat /\
  (Reports.present s, Reports.absent s, Reports.late s) = (1, 1, 0)%nat /\
  Reports.attendancePercentage s = JsNumber.of_Z 50.
Proof.
  pose proof (X16_report_summary
    [Reports.mkDetail "2024-09-02" (Some ("Asha", "11")) "present" None;
     Reports.mkDetail "2024-09-02" (Some ("Ravi", "12")) "absent" None;
     Reports.mkDetail "2024-09-03" (Some ("Asha", "11")) "excused" None]
    [student 11; student 12]) as (_ & _ & _ & _ & Hpct).
  assert (Hb : Z.of_nat 3 <= maxArrayLength) by (vm_compute; discriminate).
  specialize (Hpct Hb).
  split; [reflexivity | split; [reflexivity|]].
  rewrite Hpct. vm_compute. reflexivity.
Defined.

(** ** The CSV export *)

Lemma hasChar_append c s t :
  Reports.hasChar c (s ++ t) = Reports.hasChar c s || Reports.hasChar c t.
Proof.
  induction s as [|ch s IH]; simpl; [reflexivity|].
  rewrite IH. apply orb_assoc.
Qed.

(** A string is cut in one way only at the first occurrence of a
    character. *)
Lemma split_at_first c s s' r r' :
  Reports.hasChar c s = false -> Reports.hasChar c s' = false ->
  (s ++ String c r = s' ++ String c r')%string ->
  s = s' /\ r = r'.
Proof.
  revert s'. induction s as [|ch s IH]; intros [|ch' s']; simpl.
  - intros _ _ [= ->]. now split.
  - intros _ H [= <- _]. rewrite Ascii.eqb_refl in H. discriminate.
  - intros H _ [= -> _]. rewrite Ascii.eqb_refl in H. discriminate.
  - intros H H' [= -> Heq].
    apply orb_false_iff in H as [_ H]. apply orb_false_iff in H' as [_ H'].
    destruct (IH s' H H' Heq) as [-> ->]. now split.
Qed.

Lemma string_append_assoc (s t u : string) :
  ((s ++ t) ++ u = s ++ (t ++ u))%string.
Proof. induction s as [|ch s IH]; simpl; [reflexivity | now rewrite IH]. Qed.

Lemma rowLine_cons2 c d row :
  rowLine (c :: d :: row) =
  String Reports.doubleQuote
    (c ++ String Reports.doubleQuote (String "," (rowLine (d :: row)))).
Proof.
  unfold rowLine. cbn [map Reports.join]. unfold Reports.quoted at 1.
  simpl. f_equal. rewrite string_append_assoc. reflexivity.
Qed.

Lemma rowLine_injective row : forall row',
  length row = length row' ->
  (forall cell, In cell row -> Reports.hasChar Reports.doubleQuote cell = false) ->
  (forall cell, In cell row' -> Reports.hasChar Reports.doubleQuote cell = false) ->
  rowLine row = rowLine row' -> row = row'.
Proof.
  induction row as [|c row IH]; intros [|c' row']; try discriminate;
    [reflexivity|].
  intros Hlen Hq Hq'.
  destruct row as [|d row], row' as [|d' row']; try discriminate.
  - unfold rowLine, Reports.quoted. simpl. intros [= Heq].
    destruct (split_at_first Reports.doubleQuote c c' "" "") as [-> _];
      [apply Hq; now left | apply Hq'; now left | exact Heq | reflexivity].
  - rewrite !rowLine_cons2. intros [= Heq].
    destruct (split_at_first _ _ _ _ _
                (Hq c (or_introl eq_refl)) (Hq' c' (or_introl eq_refl)) Heq)
      as [-> [= Hrest]].
    f_equal. apply IH.
    + simpl in Hlen. simpl. lia.
    + intros cell Hin. apply Hq. now right.
    + intros cell Hin. apply Hq'. now right.
    + exact Hrest.
Qed.

Lemma hasChar_rowLine c row :
  c <> Reports.doubleQuote -> c <> ","%char ->
  (forall cell, In cell row -> Reports.hasChar c cell = false) ->
  Reports.hasChar c (rowLine row) = false.
Proof.
  intros Hq Hc.
  assert (Hdq : Ascii.eqb Reports.doubleQuote c = false)
    by (apply Ascii.eqb_neq; congruence).
  assert (Hcomma : Ascii.eqb ","%char c = false)
    by (apply Ascii.eqb_neq; congruence).
  assert (Hquoted : forall cell, Reports.hasChar c cell = false ->
                      Reports.hasChar c (Reports.quoted cell) = false).
  { intros cell Hcell. unfold Reports.quoted. cbn [Reports.hasChar].
    rewrite hasChar_append, Hcell, Hdq. cbn [Reports.hasChar].
    now rewrite Hdq. }
  induction row as [|cell row IH]; intros Hcells; [reflexivity|].
  destruct row as [|d row].
  - unfold rowLine. cbn [map Reports.join]. apply Hquoted, Hcells. now left.
  - unfold rowLine in *. cbn [map Reports.join].
    rewrite hasChar_append, Hquoted by (apply Hcells; now left).
    change ("," ++ ?x)%string with (String ","%char x).
    cbn [Reports.hasChar orb]. rewrite Hcomma. cbn [orb].
    apply IH. intros x Hx. apply Hcells. now right.
Qed.

Lemma join_lines_injective x l : forall x' l',
  (forall s, In s (x :: l) -> Reports.hasChar Reports.lineFeed s = false) ->
  (forall s, In s (x' :: l') -> Reports.hasChar Reports.lineFeed s = false) ->
  Reports.join (String Reports.lineFeed "") (x :: l)
  = Reports.join (String Reports.lineFeed "") (x' :: l') ->
  x :: l = x' :: l'.
Proof.
  revert x. induction l as [|y l IH]; intros x x' [|y' l'] Hx Hx'.
  - simpl. now intros ->.
  - cbn [Reports.join]. intros Heq.
    pose proof (Hx x (or_introl eq_refl)) as H.
    rewrite Heq, hasChar_append in H. cbn [append Reports.hasChar] in H.
    rewrite Ascii.eqb_refl, orb_true_r in H. discriminate.
  - cbn [Reports.join]. intros Heq.
    pose proof (Hx' x' (or_introl eq_refl)) as H.
    rewrite <- Heq, hasChar_append in H. cbn [append Reports.hasChar] in H.
    rewrite Ascii.eqb_refl, orb_true_r in H. discriminate.
  - cbn [Reports.join append]. intros Heq.
    destruct (split_at_first _ _ _ _ _
                (Hx x (or_introl eq_refl)) (Hx' x' (or_introl eq_refl)) Heq)
      as [-> Hrest].
    f_equal. apply IH.
    + intros s Hs. apply Hx. now right.
    + intros s Hs. apply Hx'. now right.
    + exact Hrest.
Qed.

Lemma map_rowLine_injective rows : forall rows',
  (forall row, In row rows -> length row = 5%nat /\
     forall cell, In cell row -> Reports.hasChar Reports.doubleQuote cell = false) ->
  (forall row, In row rows' -> length row = 5%nat /\
     forall cell, In cell row -> Reports.hasChar Reports.doubleQuote cell = false) ->
  map rowLine rows = map rowLine rows' -> rows = rows'.
Proof.
  induction rows as [|row rows IH]; intros [|row' rows'] H H'; simpl;
    try discriminate; [reflexivity|].
  intros [= Hrow Hrows].
  destruct (H row (or_introl eq_refl)) as [Hl Hq].
  destruct (H' row' (or_introl eq_refl)) as [Hl' Hq'].
  f_equal.
  - apply rowLine_injective; [congruence | exact Hq | exact Hq' | exact Hrow].
  - apply IH; [| | exact Hrows].
    + intros r Hr. apply H. now right.
    + intros r Hr. apply H'. now right.
Qed.

(** X17: the CSV export does not escape its cells, so it can be read
    back only if they are plain: two lists of records whose cells hold
    no double quote and no line feed give the same file content only if
    they give the same rows. *)
Theorem X17_csv_of_plain_cells_determines_the_rows
    toLocaleString details details' :
  (forall record cell,
     In record (details ++ details') ->
     In cell (Reports.csvRow toLocaleString record) ->
     Reports.plainCell cell = true) ->
  Reports.csvContent toLocaleString details
  = Reports.csvContent toLocaleString details' ->
  map (Reports.csvRow toLocaleString) details
  = map (Reports.csvRow toLocaleString) details'.
Proof.
  intros Hplain Heq. unfold Reports.csvContent in Heq.
  assert (Hcells : forall ds, (forall r, In r ds -> In r (details ++ details')) ->
            forall row, In row (map (Reports.csvRow toLocaleString) ds) ->
            length row = 5%nat /\
            (forall cell, In cell row ->
               Reports.hasChar Reports.doubleQuote cell = false) /\
            (forall cell, In cell row ->
               Reports.hasChar Reports.lineFeed cell = false)).
  { intros ds Hds row Hrow. apply in_map_iff in Hrow as (r & <- & Hr).
    split; [reflexivity|].
    split; intros cell Hcell;
      specialize (Hplain r cell (Hds r Hr) Hcell);
      unfold Reports.plainCell in Hplain;
      apply andb_true_iff in Hplain as [H1 H2];
      [now apply negb_true_iff in H1 | now apply negb_true_iff in H2]. }
  assert (Hl : forall r, In r details -> In r (details ++ details'))
    by (intros r Hr; apply in_or_app; now left).
  assert (Hr : forall r, In r details' -> In r (details ++ details'))
    by (intros r Hr; apply in_or_app; now right).
  assert (Hlines : forall ds, (forall r, In r ds -> In r (details ++ details')) ->
            forall s,
              In s (Reports.join "," Reports.csvHeaders
                    :: map (fun row => Reports.join "," (map Reports.quoted row))
                         (map (Reports.csvRow toLocaleString) ds)) ->
              Reports.hasChar Reports.lineFeed s = false).
  { intros ds Hds s [<-|Hs]; [reflexivity|].
    apply in_map_iff in Hs as (row & <- & Hrow).
    apply (hasChar_rowLine Reports.lineFeed row); [discriminate | discriminate|].
    now destruct (Hcells ds Hds row Hrow) as (_ & _ & Hnl). }
  apply join_lines_injective in Heq; [|now apply Hlines|now apply Hlines].
  injection Heq as Heq.
  apply map_rowLine_injective; [| |exact Heq].
  - intros row Hrow. destruct (Hcells details Hl row Hrow) as (H5 & Hq & _).
    now split.
  - intros row Hrow. destruct (Hcells details' Hr row Hrow) as (H5 & Hq & _).
    now split.
Qed.

(** With a double quote in a name the content no longer tells the rows:
    two different records give the same line. *)
Example csv_cells_with_quotes_collide :
  let q := String Reports.doubleQuote "" in
  let a := Reports.mkDetail "2024-09-02" (Some ("A" ++ q ++ "," ++ q ++ "B", "C"))
             "present" None in
  let b := Reports.mkDetail "2024-09-02" (Some ("A", "B" ++ q ++ "," ++ q ++ "C"))
             "present" None in
  Reports.csvRow (fun s => s) a <> Reports.csvRow (fun s => s) b /\
  Reports.csvContent (fun s => s) [a] = Reports.csvContent (fun s => s) [b].
Proof. split; [discriminate | reflexivity]. Qed.

Lemma X17_csv_of_plain_cells_determines_the_rows_witness :
  map (Reports.csvRow (fun s => s))
    [Reports.mkDetail "2024-09-02" (Some ("Unknown", "11")) "present" None]
  = map (Reports.csvRow (fun s => s))
      [Reports.mkDetail "2024-09-02" (Some ("", "11")) "present" (Some "")].
Proof.
  apply (X17_csv_of_plain_cells_determines_the_rows (fun s => s)
           [Reports.mkDetail "2024-09-02" (Some ("Unknown", "11")) "present" None]
           [Reports.mkDetail "2024-09-02" (Some ("", "11")) "present" (Some "")]).
  - intros record cell [<-|[<-|[]]] Hcell; simpl in Hcell;
      repeat (destruct Hcell as [<-|Hcell]; [reflexivity|]); contradiction.
  - reflexivity.
Defined.
